(** * Phonepae: the extract / transform / load pipeline, embedded in Rocq

    The development follows the Python sources:
    - [utils/helpers.py]            (modules [PyStr] and [Helpers]),
    - [scripts/extract_data.py]     (modules [PyVal] and [Extract]),
    - [scripts/transform_data.py]   (module [Transform]),
    - [database/db_connection.py] and [database/insert_data.py]
                                    (module [Loader]);
    module [Samples] holds the concrete inputs that the examples use.

    Text.  A Python [str] is a list of characters.  The alphabet is ASCII
    (codes 0..127, classified and case-mapped exactly as CPython does)
    extended with 128 further symbol characters (codes 128..255) that have
    no case, are neither whitespace nor word characters nor digits.  On
    this alphabet [lower], [title], [strip], [split], [isdigit], [int] and
    the regular expression classes [\w] and [\s] are closed and total.

    Numbers.  Counts and amounts are exact integers ([Z]); the rounding of
    floating amounts and the 64-bit width of pandas columns are outside
    the embedding.

    Exceptions.  Code that can raise returns a [result]; the loader, which
    also changes the sink, runs in a state and exception monad. *)

From Stdlib Require Import List Bool Ascii String ZArith NArith Lia.
From Stdlib Require Import Permutation.
Import ListNotations.

(** ** Python strings *)

Definition str := list ascii.

Definition lit (s : string) : str := list_ascii_of_string s.

Module PyStr.

Definition code (c : ascii) : N := N_of_ascii c.

Definition in_range (lo hi : N) (c : ascii) : bool :=
  ((lo <=? code c) && (code c <=? hi))%N.

Definition isupper (c : ascii) : bool := in_range 65 90 c.
Definition islower (c : ascii) : bool := in_range 97 122 c.
Definition isdigit_char (c : ascii) : bool := in_range 48 57 c.
Definition iscased (c : ascii) : bool := isupper c || islower c.

(** [str.isspace] on one character: TAB..CR, FS..US and the space. *)
Definition isspace (c : ascii) : bool := in_range 9 13 c || in_range 28 32 c.

(** The class [\w] of [re]: letters, digits and the underscore. *)
Definition isword (c : ascii) : bool :=
  iscased c || isdigit_char c || (code c =? 95)%N.

Definition lower_char (c : ascii) : ascii :=
  if isupper c then ascii_of_N (code c + 32) else c.

Definition upper_char (c : ascii) : ascii :=
  if islower c then ascii_of_N (code c - 32) else c.

(** [s.lower()] *)
Definition lower (s : str) : str := map lower_char s.

(** [s.title()]: a cased character is upper-cased when the character
    before it is not cased, lower-cased otherwise. *)
Fixpoint title_from (previous_is_cased : bool) (s : str) : str :=
  match s with
  | [] => []
  | c :: rest =>
      (if previous_is_cased then lower_char c else upper_char c)
        :: title_from (iscased c) rest
  end.

Definition title (s : str) : str := title_from false s.

(** [s.lstrip()], [s.rstrip()], [s.strip()] *)
Fixpoint lstrip (s : str) : str :=
  match s with
  | [] => []
  | c :: rest => if isspace c then lstrip rest else s
  end.

Fixpoint rstrip (s : str) : str :=
  match s with
  | [] => []
  | c :: rest =>
      match rstrip rest with
      | [] => if isspace c then [] else [c]
      | kept => c :: kept
      end
  end.

Definition strip (s : str) : str := rstrip (lstrip s).

Fixpoint eqb (a b : str) : bool :=
  match a, b with
  | [], [] => true
  | x :: a', y :: b' => Ascii.eqb x y && eqb a' b'
  | _, _ => false
  end.

(** [s.split()] with no argument: the maximal runs of characters that
    are not whitespace.  [word] is the run being read, reversed. *)
Fixpoint split_ws_from (word : str) (s : str) : list str :=
  match s with
  | [] => match word with [] => [] | _ => [rev word] end
  | c :: rest =>
      if isspace c
      then match word with
           | [] => split_ws_from [] rest
           | _ => rev word :: split_ws_from [] rest
           end
      else split_ws_from (c :: word) rest
  end.

Definition split_ws (s : str) : list str := split_ws_from [] s.

(** [sep.join(words)] *)
Fixpoint join (sep : str) (words : list str) : str :=
  match words with
  | [] => []
  | [w] => w
  | w :: more => w ++ sep ++ join sep more
  end.

(** [s.split(sep)] for a one-character separator: never empty. *)
Fixpoint split_on (sep : ascii) (s : str) : list str :=
  match s with
  | [] => [[]]
  | c :: rest =>
      if Ascii.eqb c sep then [] :: split_on sep rest
      else match split_on sep rest with
           | p :: ps => (c :: p) :: ps
           | [] => [[c]]
           end
  end.

(** [s.replace(old, new)] for single characters. *)
Definition replace_char (old new : ascii) (s : str) : str :=
  map (fun c => if Ascii.eqb c old then new else c) s.

Fixpoint starts_with (pat s : str) : bool :=
  match pat, s with
  | [], _ => true
  | p :: pat', c :: s' => Ascii.eqb p c && starts_with pat' s'
  | _ :: _, [] => false
  end.

(** [s.replace(pat, '')] for a non-empty [pat]: occurrences are found
    left to right and do not overlap; [skip] counts the characters of
    the occurrence being deleted that are still to be passed. *)
Fixpoint remove_from (pat : str) (skip : nat) (s : str) : str :=
  match s with
  | [] => []
  | c :: rest =>
      match skip with
      | S k => remove_from pat k rest
      | O => if starts_with pat s
             then remove_from pat (List.length pat - 1) rest
             else c :: remove_from pat 0 rest
      end
  end.

Definition remove (pat : str) (s : str) : str := remove_from pat 0 s.

(** [s.isdigit()] *)
Definition isdigit (s : str) : bool :=
  match s with [] => false | _ => forallb isdigit_char s end.

(** [int(s)] on a string of decimal digits. *)
Definition digit_value (c : ascii) : Z := Z.of_N (code c) - 48.

Definition int_of (s : str) : Z :=
  fold_left (fun acc c => 10 * acc + digit_value c)%Z s 0%Z.

Definition backslash : ascii := ascii_of_N 92.

(** A lowered string: [lower] leaves it as it is. *)
Definition lowered (s : str) : Prop := lower s = s.

(** Nothing to strip on the left. *)
Definition starts_clean (s : str) : Prop :=
  match s with
  | [] => True
  | c :: _ => isspace c = false
  end.

Definition no_upper (s : str) : Prop := Forall (fun c => isupper c = false) s.

End PyStr.

(** ** utils/helpers.py *)

Module Helpers.
Import PyStr.

(** [dict.get(key, default)] on a dictionary with string keys. *)
Fixpoint dict_get {A} (d : list (str * A)) (key : str) (default : A) : A :=
  match d with
  | [] => default
  | (k, v) :: d' => if eqb key k then v else dict_get d' key default
  end.

Definition state_mappings : list (str * str) :=
  [ (lit "andaman & nicobar islands", lit "andaman and nicobar islands");
    (lit "dadra & nagar haveli & daman & diu",
     lit "dadra and nagar haveli and daman and diu");
    (lit "jammu & kashmir", lit "jammu and kashmir") ].

(** [state_mappings.get(normalized, normalized)] *)
Definition mapped (n : str) : str := dict_get state_mappings n n.

Definition normalize_state_name (state_name : str) : str :=
  match state_name with
  | [] => []
  | _ =>
      let normalized := strip (lower state_name) in
      let normalized := mapped normalized in
      title normalized
  end.

(** [re.sub(r'[^\w\s-]', '', cleaned)] *)
Definition keep_char (c : ascii) : bool :=
  isword c || isspace c || (code c =? 45)%N.

Definition space : ascii := " "%char.

(** A word character or the hyphen. *)
Definition plain_char (c : ascii) : bool := isword c || (code c =? 45)%N.

Definition clean_string (text : str) : str :=
  match text with
  | [] => []
  | _ =>
      let cleaned := join (lit " ") (split_ws text) in
      let cleaned := filter keep_char cleaned in
      strip cleaned
  end.

(** *** extract_year_quarter *)

Definition is_year (part : str) : bool :=
  isdigit part && (List.length part =? 4)%nat
  && (2018 <=? int_of part)%Z && (int_of part <=? 2024)%Z.

(** [parts[i + 1].replace('.json', '')], then the backslashes deleted. *)
Definition next_part_of (segment : str) : str :=
  filter (fun c => negb (Ascii.eqb c backslash)) (remove (lit ".json") segment).

Definition is_quarter (next_part : str) : bool :=
  isdigit next_part && (1 <=? int_of next_part)%Z && (int_of next_part <=? 4)%Z.

(** The [for] loop over [enumerate(parts)]: [year] is the variable of
    the same name, assigned as soon as a year segment is met; the loop
    is left by [break] only when the segment after it is a quarter. *)
Fixpoint scan_parts (year : option Z) (parts : list str)
  : option Z * option Z :=
  match parts with
  | [] => (year, None)
  | part :: rest =>
      if is_year part then
        let year := Some (int_of part) in
        match rest with
        | next :: _ =>
            let next_part := next_part_of next in
            if is_quarter next_part
            then (year, Some (int_of next_part))
            else scan_parts year rest
        | [] => scan_parts year rest
        end
      else scan_parts year rest
  end.

(** Some segment is a year and the segment right after it is a quarter. *)
Fixpoint has_adjacent_pair (parts : list str) : bool :=
  match parts with
  | [] => false
  | part :: rest =>
      match rest with
      | next :: _ => is_year part && is_quarter (next_part_of next)
      | [] => false
      end
      || has_adjacent_pair rest
  end.

(** A path separator: the slash or the backslash. *)
Definition is_separator (c : ascii) : bool :=
  Ascii.eqb c "/"%char || Ascii.eqb c backslash.

Definition path_parts (file_path : str) : list str :=
  split_on "/"%char (replace_char backslash "/"%char file_path).

(** No call of the [try] block raises on this alphabet ([int] is only
    applied to strings of decimal digits), so the handler is dead. *)
Definition extract_year_quarter (file_path : str) : option Z * option Z :=
  scan_parts None (path_parts file_path).

End Helpers.

(** ** Python values and exceptions *)

Set Warnings "-register-all".

(** What [json.load] returns: [None], [bool], [int], [str], [list] and
    [dict] (a dictionary keeps its keys distinct, in insertion order). *)
Inductive json : Type :=
| JNull
| JBool (b : bool)
| JNum (z : Z)
| JStr (s : str)
| JArr (items : list json)
| JObj (fields : list (str * json)).

Inductive exn : Type :=
| AttributeError
| TypeError
| UnboundLocalError
| Error.                       (* mysql.connector.Error *)

Inductive result (A : Type) : Type :=
| Ok (a : A)
| Raise (e : exn).

Arguments Ok {A} a.
Arguments Raise {A} e.

Definition bind {A B} (m : result A) (k : A -> result B) : result B :=
  match m with
  | Ok a => k a
  | Raise e => Raise e
  end.

Declare Scope py_scope.
Delimit Scope py_scope with py.
Notation "x <- m ;; k" := (bind m (fun x => k))
  (at level 61, m at next level, right associativity) : py_scope.

(** A comprehension or loop body run on every element, left to right,
    stopped by the first exception. *)
Fixpoint for_each {A B} (body : A -> result (list B)) (l : list A)
  : result (list B) :=
  match l with
  | [] => Ok []
  | a :: rest =>
      (records <- body a ;;
       more <- for_each body rest ;;
       Ok (records ++ more))%py
  end.

Module PyVal.
Import PyStr.

(** [not v] *)
Definition falsy (v : json) : bool :=
  match v with
  | JNull => true
  | JBool b => negb b
  | JNum z => (z =? 0)%Z
  | JStr s => match s with [] => true | _ => false end
  | JArr items => match items with [] => true | _ => false end
  | JObj fields => match fields with [] => true | _ => false end
  end.

(** [d.get(key, default)]; only a [dict] has the method. *)
Definition get (d : json) (key : str) (default : json) : result json :=
  match d with
  | JObj fields => Ok (Helpers.dict_get fields key default)
  | _ => Raise AttributeError
  end.

(** [for x in v]: a list gives its items, a dict its keys, a string its
    characters; the other values are not iterable. *)
Definition iter (v : json) : result (list json) :=
  match v with
  | JArr items => Ok items
  | JObj fields => Ok (map (fun kv => JStr (fst kv)) fields)
  | JStr s => Ok (map (fun c => JStr [c]) s)
  | _ => Raise TypeError
  end.

(** [d.items()] *)
Definition items (d : json) : result (list (str * json)) :=
  match d with
  | JObj fields => Ok fields
  | _ => Raise AttributeError
  end.

(** [v.lower()]; only a [str] has the method. *)
Definition lower_of (v : json) : result str :=
  match v with
  | JStr s => Ok (lower s)
  | _ => Raise AttributeError
  end.

(** [v or []] *)
Definition or_empty_list (v : json) : json :=
  if falsy v then JArr [] else v.

End PyVal.

(** ** scripts/extract_data.py *)

Module Extract.
Import PyStr PyVal.
Local Open Scope py_scope.

(** A file of the source tree: its path and what [json.load] makes of
    it, [None] when the file cannot be read or parsed. *)
Record file : Type := { file_path : str; parsed : option json }.

(** [load_json_file]: the handler turns every failure into [{}]. *)
Definition load_json_file (f : file) : json :=
  match parsed f with
  | Some data => data
  | None => JObj []
  end.

(** A document that is skipped: it does not parse, or it is an object
    whose [success] entry or whose [data] entry is missing or falsy. *)
Definition skipped_document (parsed : option json) : bool :=
  match parsed with
  | None => true
  | Some (JObj fields) =>
      falsy (Helpers.dict_get fields (lit "success") JNull)
      || falsy (Helpers.dict_get fields (lit "data") JNull)
  | Some _ => false
  end.

Definition not_coordinate (c : option Z) : bool :=
  match c with
  | None => true
  | Some z => (z =? 0)%Z
  end.

(** The loop header shared by the six extractors:
    [for file_path in json_files], the two [continue] tests, then the
    body of the dataset on the loaded document. *)
Definition for_json_files {R} (body : Z -> Z -> json -> result (list R))
  (json_files : list file) : result (list R) :=
  for_each
    (fun f =>
       let '(year, quarter) := Helpers.extract_year_quarter (file_path f) in
       if not_coordinate year || not_coordinate quarter then Ok []
       else
         match year, quarter with
         | Some year, Some quarter =>
             let data := load_json_file f in
             success <- get data (lit "success") JNull ;;
             if falsy success then Ok []
             else
               payload <- get data (lit "data") JNull ;;
               if falsy payload then Ok []
               else body year quarter data
         | _, _ => Ok []
         end)
    json_files.

(** *** Aggregated transactions *)

Record aggregated_transaction : Type := {
  at_state : str;
  at_year : Z;
  at_quarter : Z;
  at_transaction_type : json;
  at_payment_mode : json;
  at_transaction_count : json;
  at_transaction_amount : json
}.

Definition aggregated_transactions_of (year quarter : Z) (data : json)
  : result (list aggregated_transaction) :=
  payload <- get data (lit "data") (JObj []) ;;
  transaction_data <- get payload (lit "transactionData") (JArr []) ;;
  items <- iter transaction_data ;;
  for_each
    (fun item =>
       transaction_type <- get item (lit "name") (JStr []) ;;
       payment_modes <- get item (lit "paymentInstruments") (JArr []) ;;
       modes <- iter payment_modes ;;
       for_each
         (fun payment_mode =>
            type <- get payment_mode (lit "type") (JStr []) ;;
            count <- get payment_mode (lit "count") (JNum 0) ;;
            amount <- get payment_mode (lit "amount") (JNum 0) ;;
            Ok [ {| at_state := lit "india";
                    at_year := year;
                    at_quarter := quarter;
                    at_transaction_type := transaction_type;
                    at_payment_mode := type;
                    at_transaction_count := count;
                    at_transaction_amount := amount |} ])
         modes)
    items.

(** [base] is the tree under the base path, [None] when the path does
    not exist. *)
Definition extract_aggregated_transactions (base : option (list file))
  : result (list aggregated_transaction) :=
  match base with
  | None => Ok []
  | Some json_files => for_json_files aggregated_transactions_of json_files
  end.

(** *** Aggregated users *)

Record aggregated_user : Type := {
  au_state : str;
  au_year : Z;
  au_quarter : Z;
  au_registered_users : json;
  au_app_opens : json
}.

Definition aggregated_users_of (year quarter : Z) (data : json)
  : result (list aggregated_user) :=
  payload <- get data (lit "data") (JObj []) ;;
  user_data <- get payload (lit "aggregated") (JObj []) ;;
  registered <- get user_data (lit "registeredUsers") (JNum 0) ;;
  opens <- get user_data (lit "appOpens") (JNum 0) ;;
  Ok [ {| au_state := lit "india";
          au_year := year;
          au_quarter := quarter;
          au_registered_users := registered;
          au_app_opens := opens |} ].

Definition extract_aggregated_users (base : option (list file))
  : result (list aggregated_user) :=
  match base with
  | None => Ok []
  | Some json_files => for_json_files aggregated_users_of json_files
  end.

(** *** Map transactions and map users *)

(** The tree under [.../hover/country/india]: the files found under
    the base path, and the entries of its [state] directory, each with
    the files found under it ([None] for an entry that is no
    directory); [None] stands for a path that does not exist. *)
Record hover_tree : Type := {
  country_files : option (list file);
  state_entries : option (list (str * option (list file)))
}.

Record map_transaction : Type := {
  mt_state : str;
  mt_year : Z;
  mt_quarter : Z;
  mt_district : str;
  mt_transaction_count : json;
  mt_transaction_amount : json
}.

(** The body of both passes; [state_of] gives the state column from the
    lower-cased name of the hover item. *)
Definition map_transactions_of (state_of : str -> str)
  (year quarter : Z) (data : json) : result (list map_transaction) :=
  payload <- get data (lit "data") (JObj []) ;;
  hover_data <- get payload (lit "hoverDataList") (JArr []) ;;
  items <- iter hover_data ;;
  for_each
    (fun item =>
       name <- get item (lit "name") (JStr []) ;;
       name <- lower_of name ;;
       metrics <- get item (lit "metric") (JArr []) ;;
       metrics <- iter metrics ;;
       for_each
         (fun metric =>
            count <- get metric (lit "count") (JNum 0) ;;
            amount <- get metric (lit "amount") (JNum 0) ;;
            Ok [ {| mt_state := state_of name;
                    mt_year := year;
                    mt_quarter := quarter;
                    mt_district := name;
                    mt_transaction_count := count;
                    mt_transaction_amount := amount |} ])
         metrics)
    items.

(** The second pass: [for state_dir in os.listdir(state_base)]. *)
Definition for_state_dirs {R}
  (body : str -> Z -> Z -> json -> result (list R))
  (entries : list (str * option (list file))) : result (list R) :=
  for_each
    (fun entry =>
       match snd entry with
       | None => Ok []
       | Some json_files => for_json_files (body (fst entry)) json_files
       end)
    entries.

Definition two_passes {R} (country : Z -> Z -> json -> result (list R))
  (state : str -> Z -> Z -> json -> result (list R))
  (tree : hover_tree) : result (list R) :=
  first <- match country_files tree with
           | None => Ok []
           | Some json_files => for_json_files country json_files
           end ;;
  second <- match state_entries tree with
            | None => Ok []
            | Some entries => for_state_dirs state entries
            end ;;
  Ok (first ++ second).

Definition extract_map_transactions (tree : hover_tree)
  : result (list map_transaction) :=
  two_passes
    (map_transactions_of (fun state_name => state_name))
    (fun state_dir => map_transactions_of (fun _ => lower state_dir))
    tree.

Record map_user : Type := {
  mu_state : str;
  mu_year : Z;
  mu_quarter : Z;
  mu_district : str;
  mu_registered_users : json;
  mu_app_opens : json
}.

Definition map_users_of (state_of : str -> str)
  (year quarter : Z) (data : json) : result (list map_user) :=
  payload <- get data (lit "data") (JObj []) ;;
  hover_data <- get payload (lit "hoverData") (JObj []) ;;
  entries <- items hover_data ;;
  for_each
    (fun entry =>
       let name := lower (fst entry) in
       registered <- get (snd entry) (lit "registeredUsers") (JNum 0) ;;
       opens <- get (snd entry) (lit "appOpens") (JNum 0) ;;
       Ok [ {| mu_state := state_of name;
               mu_year := year;
               mu_quarter := quarter;
               mu_district := name;
               mu_registered_users := registered;
               mu_app_opens := opens |} ])
    entries.

Definition extract_map_users (tree : hover_tree) : result (list map_user) :=
  two_passes
    (map_users_of (fun state_name => state_name))
    (fun state_dir => map_users_of (fun _ => lower state_dir))
    tree.

(** *** Top transactions and top users *)

Section Top.

(** The builtin [str()], applied to the name of a pincode entity. *)
Variable py_str : json -> str.

Record top_transaction : Type := {
  tt_state : str;
  tt_year : Z;
  tt_quarter : Z;
  tt_entity_type : str;
  tt_entity_name : str;
  tt_transaction_count : json;
  tt_transaction_amount : json
}.

(** One bucket: [for item in data_obj.get(bucket, []) or []];
    [name_of] is [entity_name.lower()] or [str(entity_name)]. *)
Definition top_transactions_bucket (bucket entity_type : str)
  (name_of : json -> result str) (year quarter : Z) (data_obj : json)
  : result (list top_transaction) :=
  listed <- get data_obj bucket (JArr []) ;;
  items <- iter (or_empty_list listed) ;;
  for_each
    (fun item =>
       if falsy item then Ok []
       else
         entity_name <- get item (lit "entityName") (JStr []) ;;
         metric <- get item (lit "metric") (JObj []) ;;
         entity_name <- name_of entity_name ;;
         count <- get metric (lit "count") (JNum 0) ;;
         amount <- get metric (lit "amount") (JNum 0) ;;
         Ok [ {| tt_state := lit "india";
                 tt_year := year;
                 tt_quarter := quarter;
                 tt_entity_type := entity_type;
                 tt_entity_name := entity_name;
                 tt_transaction_count := count;
                 tt_transaction_amount := amount |} ])
    items.

Definition top_transactions_of (year quarter : Z) (data : json)
  : result (list top_transaction) :=
  data_obj <- get data (lit "data") (JObj []) ;;
  if falsy data_obj then Ok []
  else
    states <- top_transactions_bucket (lit "states") (lit "state")
                lower_of year quarter data_obj ;;
    districts <- top_transactions_bucket (lit "districts") (lit "district")
                   lower_of year quarter data_obj ;;
    pincodes <- top_transactions_bucket (lit "pincodes") (lit "pincode")
                  (fun v => Ok (py_str v)) year quarter data_obj ;;
    Ok (states ++ districts ++ pincodes).

Definition extract_top_transactions (base : option (list file))
  : result (list top_transaction) :=
  match base with
  | None => Ok []
  | Some json_files => for_json_files top_transactions_of json_files
  end.

Record top_user : Type := {
  tu_state : str;
  tu_year : Z;
  tu_quarter : Z;
  tu_entity_type : str;
  tu_entity_name : str;
  tu_registered_users : json
}.

Definition top_users_bucket (bucket entity_type : str)
  (name_of : json -> result str) (year quarter : Z) (data_obj : json)
  : result (list top_user) :=
  listed <- get data_obj bucket (JArr []) ;;
  items <- iter (or_empty_list listed) ;;
  for_each
    (fun item =>
       if falsy item then Ok []
       else
         name <- get item (lit "name") (JStr []) ;;
         name <- name_of name ;;
         registered <- get item (lit "registeredUsers") (JNum 0) ;;
         Ok [ {| tu_state := lit "india";
                 tu_year := year;
                 tu_quarter := quarter;
                 tu_entity_type := entity_type;
                 tu_entity_name := name;
                 tu_registered_users := registered |} ])
    items.

Definition top_users_of (year quarter : Z) (data : json)
  : result (list top_user) :=
  data_obj <- get data (lit "data") (JObj []) ;;
  if falsy data_obj then Ok []
  else
    states <- top_users_bucket (lit "states") (lit "state")
                lower_of year quarter data_obj ;;
    districts <- top_users_bucket (lit "districts") (lit "district")
                   lower_of year quarter data_obj ;;
    pincodes <- top_users_bucket (lit "pincodes") (lit "pincode")
                  (fun v => Ok (py_str v)) year quarter data_obj ;;
    Ok (states ++ districts ++ pincodes).

Definition extract_top_users (base : option (list file))
  : result (list top_user) :=
  match base with
  | None => Ok []
  | Some json_files => for_json_files top_users_of json_files
  end.

End Top.

(** A record of a top-N bucket is a pincode record or has a lowered
    name. *)
Definition lowered_unless_pincode (entity_type entity_name : str) : Prop :=
  entity_type = lit "pincode"
  \/ (lower entity_type <> lit "pincode" /\ no_upper entity_name).

End Extract.

(** ** scripts/transform_data.py *)

(** A data frame is the list of its rows.  A text cell holds a string or
    [None]; a numeric cell holds a number, or [None] for a value that
    [pandas.to_numeric] does not read as a number. *)
Module Transform.
Import PyStr.

(** [Series.apply(f)] for the two helpers: both answer [""] to [None]
    by their first test, [if not x]. *)
Definition apply_text (f : str -> str) (cell : option str) : option str :=
  match cell with
  | Some s => Some (f s)
  | None => Some []
  end.

(** [Series.str.lower()]: a missing value stays missing. *)
Definition str_lower (cell : option str) : option str :=
  match cell with
  | Some s => Some (lower s)
  | None => None
  end.

(** [pd.to_numeric(col, errors='coerce').fillna(0)] *)
Definition to_numeric_fillna (cell : option Z) : option Z :=
  match cell with
  | Some z => Some z
  | None => Some 0%Z
  end.

Definition notna {A} (cell : option A) : bool :=
  match cell with
  | Some _ => true
  | None => false
  end.

Definition value (cell : option Z) : Z :=
  match cell with
  | Some z => z
  | None => 0%Z
  end.

(** *** Rows of the six frames *)

Module AggTx.
(** [payment_mode] is [None] in a frame without that column. *)
Record row : Type := {
  state : option str;
  year : option Z;
  quarter : option Z;
  transaction_type : option str;
  payment_mode : option (option str);
  transaction_count : option Z;
  transaction_amount : option Z
}.
End AggTx.

Module AggUser.
Record row : Type := {
  state : option str;
  year : option Z;
  quarter : option Z;
  registered_users : option Z;
  app_opens : option Z
}.
End AggUser.

Module MapTx.
Record row : Type := {
  state : option str;
  year : option Z;
  quarter : option Z;
  district : option str;
  transaction_count : option Z;
  transaction_amount : option Z
}.
End MapTx.

Module MapUser.
Record row : Type := {
  state : option str;
  year : option Z;
  quarter : option Z;
  district : option str;
  registered_users : option Z;
  app_opens : option Z
}.
End MapUser.

Module TopTx.
Record row : Type := {
  state : option str;
  year : option Z;
  quarter : option Z;
  entity_type : option str;
  entity_name : option str;
  transaction_count : option Z;
  transaction_amount : option Z
}.
End TopTx.

Module TopUser.
Record row : Type := {
  state : option str;
  year : option Z;
  quarter : option Z;
  entity_type : option str;
  entity_name : option str;
  registered_users : option Z
}.
End TopUser.

(** *** groupby(...).agg(sum).reset_index() *)

(** The group key of aggregated transactions. *)
Definition key : Type := (str * Z * Z * str)%type.

Definition key_eq_dec (a b : key) : {a = b} + {a <> b}.
Proof.
  repeat decide equality; apply Bool.bool_dec.
Defined.

(** The order of [str]: code points, left to right. *)
Fixpoint str_compare (a b : str) : comparison :=
  match a, b with
  | [], [] => Eq
  | [], _ :: _ => Lt
  | _ :: _, [] => Gt
  | x :: a', y :: b' =>
      match (code x ?= code y)%N with
      | Eq => str_compare a' b'
      | c => c
      end
  end.

Definition then_compare (c : comparison) (d : comparison) : comparison :=
  match c with
  | Eq => d
  | _ => c
  end.

Definition key_compare (a b : key) : comparison :=
  let '(s1, y1, q1, t1) := a in
  let '(s2, y2, q2, t2) := b in
  then_compare (str_compare s1 s2)
    (then_compare (y1 ?= y2)%Z
       (then_compare (q1 ?= q2)%Z (str_compare t1 t2))).

Definition key_leb (a b : key) : bool :=
  match key_compare a b with
  | Gt => false
  | _ => true
  end.

Fixpoint insert_sorted (k : key) (l : list key) : list key :=
  match l with
  | [] => [k]
  | h :: t => if key_leb k h then k :: l else h :: insert_sorted k t
  end.

(** The groups come out in ascending key order ([sort=True]). *)
Definition sort_keys (l : list key) : list key :=
  fold_right insert_sorted [] l.

(** A row with a missing key cell belongs to no group ([dropna=True]). *)
Definition key_of (r : AggTx.row) : option key :=
  match AggTx.state r, AggTx.year r, AggTx.quarter r,
        AggTx.transaction_type r with
  | Some s, Some y, Some q, Some t => Some (s, y, q, t)
  | _, _, _, _ => None
  end.

Definition in_group (k : key) (r : AggTx.row) : bool :=
  match key_of r with
  | Some k' => if key_eq_dec k k' then true else false
  | None => false
  end.

Definition sum_of (measure : AggTx.row -> option Z) (rows : list AggTx.row)
  : Z :=
  fold_left Z.add (map (fun r => value (measure r)) rows) 0%Z.

Definition group_keys (df : list AggTx.row) : list key :=
  sort_keys (nodup key_eq_dec
               (flat_map (fun r => match key_of r with
                                   | Some k => [k]
                                   | None => []
                                   end) df)).

Definition groupby_sum (df : list AggTx.row) : list AggTx.row :=
  map (fun k =>
         let '(s, y, q, t) := k in
         let members := filter (in_group k) df in
         {| AggTx.state := Some s;
            AggTx.year := Some y;
            AggTx.quarter := Some q;
            AggTx.transaction_type := Some t;
            AggTx.payment_mode := None;
            AggTx.transaction_count := Some (sum_of AggTx.transaction_count members);
            AggTx.transaction_amount := Some (sum_of AggTx.transaction_amount members) |})
      (group_keys df).

(** *** The six transformations *)

Definition has_payment_mode (df : list AggTx.row) : bool :=
  match df with
  | r :: _ => notna (AggTx.payment_mode r)
  | [] => false
  end.

Definition transform_aggregated_transactions (df : list AggTx.row)
  : list AggTx.row :=
  match df with
  | [] => df
  | _ =>
      let df :=
        map (fun r =>
               {| AggTx.state := apply_text Helpers.normalize_state_name (AggTx.state r);
                  AggTx.year := AggTx.year r;
                  AggTx.quarter := AggTx.quarter r;
                  AggTx.transaction_type := AggTx.transaction_type r;
                  AggTx.payment_mode := AggTx.payment_mode r;
                  AggTx.transaction_count := AggTx.transaction_count r;
                  AggTx.transaction_amount := AggTx.transaction_amount r |}) df in
      let df :=
        map (fun r =>
               {| AggTx.state := AggTx.state r;
                  AggTx.year := AggTx.year r;
                  AggTx.quarter := AggTx.quarter r;
                  AggTx.transaction_type := apply_text Helpers.clean_string (AggTx.transaction_type r);
                  AggTx.payment_mode := AggTx.payment_mode r;
                  AggTx.transaction_count := AggTx.transaction_count r;
                  AggTx.transaction_amount := AggTx.transaction_amount r |}) df in
      let df :=
        map (fun r =>
               {| AggTx.state := AggTx.state r;
                  AggTx.year := to_numeric_fillna (AggTx.year r);
                  AggTx.quarter := to_numeric_fillna (AggTx.quarter r);
                  AggTx.transaction_type := AggTx.transaction_type r;
                  AggTx.payment_mode := AggTx.payment_mode r;
                  AggTx.transaction_count := to_numeric_fillna (AggTx.transaction_count r);
                  AggTx.transaction_amount := to_numeric_fillna (AggTx.transaction_amount r) |}) df in
      let df := if has_payment_mode df then groupby_sum df else groupby_sum df in
      filter (fun r => notna (AggTx.state r) && notna (AggTx.year r)
                       && notna (AggTx.quarter r)
                       && notna (AggTx.transaction_type r)) df
  end.

Definition transform_aggregated_users (df : list AggUser.row)
  : list AggUser.row :=
  match df with
  | [] => df
  | _ =>
      let df :=
        map (fun r =>
               {| AggUser.state := apply_text Helpers.normalize_state_name (AggUser.state r);
                  AggUser.year := AggUser.year r;
                  AggUser.quarter := AggUser.quarter r;
                  AggUser.registered_users := AggUser.registered_users r;
                  AggUser.app_opens := AggUser.app_opens r |}) df in
      let df :=
        map (fun r =>
               {| AggUser.state := AggUser.state r;
                  AggUser.year := to_numeric_fillna (AggUser.year r);
                  AggUser.quarter := to_numeric_fillna (AggUser.quarter r);
                  AggUser.registered_users := to_numeric_fillna (AggUser.registered_users r);
                  AggUser.app_opens := to_numeric_fillna (AggUser.app_opens r) |}) df in
      filter (fun r => notna (AggUser.state r) && notna (AggUser.year r)
                       && notna (AggUser.quarter r)) df
  end.

Definition transform_map_transactions (df : list MapTx.row)
  : list MapTx.row :=
  match df with
  | [] => df
  | _ =>
      let df :=
        map (fun r =>
               {| MapTx.state := apply_text Helpers.normalize_state_name (MapTx.state r);
                  MapTx.year := MapTx.year r;
                  MapTx.quarter := MapTx.quarter r;
                  MapTx.district := MapTx.district r;
                  MapTx.transaction_count := MapTx.transaction_count r;
                  MapTx.transaction_amount := MapTx.transaction_amount r |}) df in
      let df :=
        map (fun r =>
               {| MapTx.state := MapTx.state r;
                  MapTx.year := MapTx.year r;
                  MapTx.quarter := MapTx.quarter r;
                  MapTx.district := apply_text Helpers.clean_string (MapTx.district r);
                  MapTx.transaction_count := MapTx.transaction_count r;
                  MapTx.transaction_amount := MapTx.transaction_amount r |}) df in
      let df :=
        map (fun r =>
               {| MapTx.state := MapTx.state r;
                  MapTx.year := to_numeric_fillna (MapTx.year r);
                  MapTx.quarter := to_numeric_fillna (MapTx.quarter r);
                  MapTx.district := MapTx.district r;
                  MapTx.transaction_count := to_numeric_fillna (MapTx.transaction_count r);
                  MapTx.transaction_amount := to_numeric_fillna (MapTx.transaction_amount r) |}) df in
      filter (fun r => notna (MapTx.state r) && notna (MapTx.year r)
                       && notna (MapTx.quarter r)) df
  end.

Definition transform_map_users (df : list MapUser.row) : list MapUser.row :=
  match df with
  | [] => df
  | _ =>
      let df :=
        map (fun r =>
               {| MapUser.state := apply_text Helpers.normalize_state_name (MapUser.state r);
                  MapUser.year := MapUser.year r;
                  MapUser.quarter := MapUser.quarter r;
                  MapUser.district := MapUser.district r;
                  MapUser.registered_users := MapUser.registered_users r;
                  MapUser.app_opens := MapUser.app_opens r |}) df in
      let df :=
        map (fun r =>
               {| MapUser.state := MapUser.state r;
                  MapUser.year := MapUser.year r;
                  MapUser.quarter := MapUser.quarter r;
                  MapUser.district := apply_text Helpers.clean_string (MapUser.district r);
                  MapUser.registered_users := MapUser.registered_users r;
                  MapUser.app_opens := MapUser.app_opens r |}) df in
      let df :=
        map (fun r =>
               {| MapUser.state := MapUser.state r;
                  MapUser.year := to_numeric_fillna (MapUser.year r);
                  MapUser.quarter := to_numeric_fillna (MapUser.quarter r);
                  MapUser.district := MapUser.district r;
                  MapUser.registered_users := to_numeric_fillna (MapUser.registered_users r);
                  MapUser.app_opens := to_numeric_fillna (MapUser.app_opens r) |}) df in
      filter (fun r => notna (MapUser.state r) && notna (MapUser.year r)
                       && notna (MapUser.quarter r)) df
  end.

Definition transform_top_transactions (df : list TopTx.row)
  : list TopTx.row :=
  match df with
  | [] => df
  | _ =>
      let df :=
        map (fun r =>
               {| TopTx.state := apply_text Helpers.normalize_state_name (TopTx.state r);
                  TopTx.year := TopTx.year r;
                  TopTx.quarter := TopTx.quarter r;
                  TopTx.entity_type := TopTx.entity_type r;
                  TopTx.entity_name := TopTx.entity_name r;
                  TopTx.transaction_count := TopTx.transaction_count r;
                  TopTx.transaction_amount := TopTx.transaction_amount r |}) df in
      let df :=
        map (fun r =>
               {| TopTx.state := TopTx.state r;
                  TopTx.year := TopTx.year r;
                  TopTx.quarter := TopTx.quarter r;
                  TopTx.entity_type := TopTx.entity_type r;
                  TopTx.entity_name := apply_text Helpers.clean_string (TopTx.entity_name r);
                  TopTx.transaction_count := TopTx.transaction_count r;
                  TopTx.transaction_amount := TopTx.transaction_amount r |}) df in
      let df :=
        map (fun r =>
               {| TopTx.state := TopTx.state r;
                  TopTx.year := TopTx.year r;
                  TopTx.quarter := TopTx.quarter r;
                  TopTx.entity_type := str_lower (TopTx.entity_type r);
                  TopTx.entity_name := TopTx.entity_name r;
                  TopTx.transaction_count := TopTx.transaction_count r;
                  TopTx.transaction_amount := TopTx.transaction_amount r |}) df in
      let df :=
        map (fun r =>
               {| TopTx.state := TopTx.state r;
                  TopTx.year := to_numeric_fillna (TopTx.year r);
                  TopTx.quarter := to_numeric_fillna (TopTx.quarter r);
                  TopTx.entity_type := TopTx.entity_type r;
                  TopTx.entity_name := TopTx.entity_name r;
                  TopTx.transaction_count := to_numeric_fillna (TopTx.transaction_count r);
                  TopTx.transaction_amount := to_numeric_fillna (TopTx.transaction_amount r) |}) df in
      filter (fun r => notna (TopTx.state r) && notna (TopTx.year r)
                       && notna (TopTx.quarter r)
                       && notna (TopTx.entity_type r)
                       && notna (TopTx.entity_name r)) df
  end.

Definition transform_top_users (df : list TopUser.row) : list TopUser.row :=
  match df with
  | [] => df
  | _ =>
      let df :=
        map (fun r =>
               {| TopUser.state := apply_text Helpers.normalize_state_name (TopUser.state r);
                  TopUser.year := TopUser.year r;
                  TopUser.quarter := TopUser.quarter r;
                  TopUser.entity_type := TopUser.entity_type r;
                  TopUser.entity_name := TopUser.entity_name r;
                  TopUser.registered_users := TopUser.registered_users r |}) df in
      let df :=
        map (fun r =>
               {| TopUser.state := TopUser.state r;
                  TopUser.year := TopUser.year r;
                  TopUser.quarter := TopUser.quarter r;
                  TopUser.entity_type := TopUser.entity_type r;
                  TopUser.entity_name := apply_text Helpers.clean_string (TopUser.entity_name r);
                  TopUser.registered_users := TopUser.registered_users r |}) df in
      let df :=
        map (fun r =>
               {| TopUser.state := TopUser.state r;
                  TopUser.year := TopUser.year r;
                  TopUser.quarter := TopUser.quarter r;
                  TopUser.entity_type := str_lower (TopUser.entity_type r);
                  TopUser.entity_name := TopUser.entity_name r;
                  TopUser.registered_users := TopUser.registered_users r |}) df in
      let df :=
        map (fun r =>
               {| TopUser.state := TopUser.state r;
                  TopUser.year := to_numeric_fillna (TopUser.year r);
                  TopUser.quarter := to_numeric_fillna (TopUser.quarter r);
                  TopUser.entity_type := TopUser.entity_type r;
                  TopUser.entity_name := TopUser.entity_name r;
                  TopUser.registered_users := to_numeric_fillna (TopUser.registered_users r) |}) df in
      filter (fun r => notna (TopUser.state r) && notna (TopUser.year r)
                       && notna (TopUser.quarter r)
                       && notna (TopUser.entity_type r)
                       && notna (TopUser.entity_name r)) df
  end.

(** The frame of aggregated transactions as it stands when it is
    grouped: state normalized, transaction type cleaned, the four numeric
    columns coerced. *)
Definition cleaned_aggregated_transactions (df : list AggTx.row)
  : list AggTx.row :=
  map (fun r =>
         {| AggTx.state := apply_text Helpers.normalize_state_name (AggTx.state r);
            AggTx.year := to_numeric_fillna (AggTx.year r);
            AggTx.quarter := to_numeric_fillna (AggTx.quarter r);
            AggTx.transaction_type := apply_text Helpers.clean_string (AggTx.transaction_type r);
            AggTx.payment_mode := AggTx.payment_mode r;
            AggTx.transaction_count := to_numeric_fillna (AggTx.transaction_count r);
            AggTx.transaction_amount := to_numeric_fillna (AggTx.transaction_amount r) |})
      df.

(** *** Natural keys and the frames built from the extracted records *)

Definition aggregated_transaction_key (r : AggTx.row) :=
  (AggTx.state r, AggTx.year r, AggTx.quarter r, AggTx.transaction_type r).

Definition aggregated_user_key (r : AggUser.row) :=
  (AggUser.state r, AggUser.year r, AggUser.quarter r).

Definition map_user_key (r : MapUser.row) :=
  (MapUser.state r, MapUser.year r, MapUser.quarter r, MapUser.district r).

Definition top_user_key (r : TopUser.row) :=
  (TopUser.state r, TopUser.year r, TopUser.quarter r,
   TopUser.entity_type r, TopUser.entity_name r).

Definition map_transaction_key (r : MapTx.row) :=
  (MapTx.state r, MapTx.year r, MapTx.quarter r, MapTx.district r).

Definition top_transaction_key (r : TopTx.row) :=
  (TopTx.state r, TopTx.year r, TopTx.quarter r,
   TopTx.entity_type r, TopTx.entity_name r).

Section Frames.

(** How [pandas] reads the value of a measure as a number; [None] when it
    does not. *)
Variable numeric_cell : json -> option Z.

(** [pd.DataFrame(extracted_data['map_transactions'])] and the like. *)
Definition frame_of_map_transactions (records : list Extract.map_transaction)
  : list MapTx.row :=
  map (fun r =>
         {| MapTx.state := Some (Extract.mt_state r);
            MapTx.year := Some (Extract.mt_year r);
            MapTx.quarter := Some (Extract.mt_quarter r);
            MapTx.district := Some (Extract.mt_district r);
            MapTx.transaction_count := numeric_cell (Extract.mt_transaction_count r);
            MapTx.transaction_amount := numeric_cell (Extract.mt_transaction_amount r) |})
      records.

Definition frame_of_map_users (records : list Extract.map_user)
  : list MapUser.row :=
  map (fun r =>
         {| MapUser.state := Some (Extract.mu_state r);
            MapUser.year := Some (Extract.mu_year r);
            MapUser.quarter := Some (Extract.mu_quarter r);
            MapUser.district := Some (Extract.mu_district r);
            MapUser.registered_users := numeric_cell (Extract.mu_registered_users r);
            MapUser.app_opens := numeric_cell (Extract.mu_app_opens r) |})
      records.

Definition frame_of_top_transactions (records : list Extract.top_transaction)
  : list TopTx.row :=
  map (fun r =>
         {| TopTx.state := Some (Extract.tt_state r);
            TopTx.year := Some (Extract.tt_year r);
            TopTx.quarter := Some (Extract.tt_quarter r);
            TopTx.entity_type := Some (Extract.tt_entity_type r);
            TopTx.entity_name := Some (Extract.tt_entity_name r);
            TopTx.transaction_count := numeric_cell (Extract.tt_transaction_count r);
            TopTx.transaction_amount := numeric_cell (Extract.tt_transaction_amount r) |})
      records.

Definition frame_of_top_users (records : list Extract.top_user)
  : list TopUser.row :=
  map (fun r =>
         {| TopUser.state := Some (Extract.tu_state r);
            TopUser.year := Some (Extract.tu_year r);
            TopUser.quarter := Some (Extract.tu_quarter r);
            TopUser.entity_type := Some (Extract.tu_entity_type r);
            TopUser.entity_name := Some (Extract.tu_entity_name r);
            TopUser.registered_users := numeric_cell (Extract.tu_registered_users r) |})
      records.

End Frames.

End Transform.

(** ** database/db_connection.py and database/insert_data.py *)

Module Loader.
Import Transform.

Inductive table : Type :=
| aggregated_transactions
| aggregated_users
| map_transactions
| map_users
| top_transactions
| top_users.

Definition table_eq_dec (a b : table) : {a = b} + {a <> b}.
Proof. decide equality. Defined.

Inductive sqlval : Type :=
| SqlNull
| SqlText (s : str)
| SqlNumber (z : Z).

Definition sqlval_eq_dec (a b : sqlval) : {a = b} + {a <> b}.
Proof. repeat decide equality; apply Bool.bool_dec. Defined.

(** One tuple of [records]: the columns of the unique key of the table,
    then the columns that [ON DUPLICATE KEY UPDATE] overwrites. *)
Record record : Type := {
  key_columns : list sqlval;
  measure_columns : list sqlval
}.

(** The rows of the six tables. *)
Definition store : Type := list (table * record).

Definition same_key (t : table) (r : record) (entry : table * record) : bool :=
  if table_eq_dec t (fst entry)
  then if list_eq_dec sqlval_eq_dec (key_columns r) (key_columns (snd entry))
       then true else false
  else false.

(** [INSERT ... ON DUPLICATE KEY UPDATE] of one tuple. *)
Fixpoint upsert (t : table) (r : record) (s : store) : store :=
  match s with
  | [] => [(t, r)]
  | entry :: rest =>
      if same_key t r entry then (t, r) :: rest
      else entry :: upsert t r rest
  end.

Definition upsert_all (t : table) (records : list record) (s : store) : store :=
  fold_left (fun acc r => upsert t r acc) records s.

Inductive level : Type := INFO | WARNING | ERROR.

(** The Python value bound to a name [connection]. *)
Inductive pyconn : Type :=
| NoneValue
| Connection.

(** The server side of a run.  [committed] is what other sessions see,
    [working] what the open transaction sees; [connection_var] is the
    local variable [connection] of [insert_all_data], [None] while it is
    unbound. *)
Record state : Type := {
  committed : store;
  working : store;
  connected : bool;
  connection_var : option pyconn;
  log : list (level * string)
}.

Inductive connect_outcome : Type :=
| Refused                      (* [mysql.connector.connect] raises [Error] *)
| Accepted (alive : bool).     (* it returns; [alive] is [is_connected()] *)

(** How the sink behaves during the run: the outcome of the connection
    attempt; for each table the index of the tuple at which
    [executemany] raises [Error], if any; whether [commit] raises. *)
Record sink : Type := {
  connect : connect_outcome;
  rejects : table -> option nat;
  commit_fails : table -> bool
}.

Definition M (A : Type) : Type := state -> result A * state.

Definition ret {A} (a : A) : M A := fun st => (Ok a, st).

Definition raise {A} (e : exn) : M A := fun st => (Raise e, st).

Definition mbind {A B} (m : M A) (k : A -> M B) : M B :=
  fun st =>
    match m st with
    | (Ok a, st') => k a st'
    | (Raise e, st') => (Raise e, st')
    end.

Declare Scope loader_scope.
Delimit Scope loader_scope with loader.
Notation "x <-- m ;; k" := (mbind m (fun x => k))
  (at level 61, m at next level, right associativity) : loader_scope.
Notation "m ;;; k" := (mbind m (fun _ => k))
  (at level 61, right associativity) : loader_scope.
Local Open Scope loader_scope.

(** [try: body except Error as e: handler] *)
Definition try_except_Error {A} (body : M A) (handler : M A) : M A :=
  fun st =>
    match body st with
    | (Raise Error, st') => handler st'
    | other => other
    end.

(** [try: body finally: final]: an exception of [final] replaces the
    outcome of [body]. *)
Definition try_finally {A} (body : M A) (final : M unit) : M A :=
  fun st =>
    match body st with
    | (outcome, st') =>
        match final st' with
        | (Ok _, st'') => (outcome, st'')
        | (Raise e, st'') => (Raise e, st'')
        end
    end.

Definition logger (l : level) (message : string) : M unit :=
  fun st =>
    (Ok tt, {| committed := committed st; working := working st;
               connected := connected st;
               connection_var := connection_var st;
               log := log st ++ [(l, message)] |}).

Definition set_working (w : store) (st : state) : state :=
  {| committed := committed st; working := w; connected := connected st;
     connection_var := connection_var st; log := log st |}.

Section Run.

Variable server : sink.

(** *** db_connection.py *)

Definition get_db_connection : M pyconn :=
  try_except_Error
    (match connect server with
     | Refused => raise Error
     | Accepted alive =>
         fun st =>
           let st :=
             {| committed := committed st; working := committed st;
                connected := alive; connection_var := connection_var st;
                log := log st |} in
           if connected st
           then (logger INFO "Successfully connected to MySQL database" ;;;
                 ret Connection) st
           else (Ok NoneValue, st)
     end)
    (logger ERROR "Error connecting to MySQL database" ;;;
     raise Error).

(** *** The connection object *)

(** [connection.cursor()] *)
Definition cursor (connection : pyconn) : M unit :=
  match connection with
  | NoneValue => raise AttributeError
  | Connection =>
      fun st => if connected st then (Ok tt, st) else (Raise Error, st)
  end.

(** [cursor.executemany(insert_query, records)]: the tuples are
    applied in order; the sink may refuse one, the earlier ones are
    then already part of the open transaction. *)
Definition executemany (t : table) (records : list record) : M unit :=
  fun st =>
    match rejects server t with
    | Some i =>
        if (i <? List.length records)%nat
        then (Raise Error,
              set_working (upsert_all t (firstn i records) (working st)) st)
        else (Ok tt, set_working (upsert_all t records (working st)) st)
    | None => (Ok tt, set_working (upsert_all t records (working st)) st)
    end.

(** [connection.commit()] *)
Definition commit (t : table) : M unit :=
  fun st =>
    if commit_fails server t then (Raise Error, st)
    else (Ok tt,
          {| committed := working st; working := working st;
             connected := connected st;
             connection_var := connection_var st; log := log st |}).

(** [connection.rollback()] *)
Definition rollback : M unit :=
  fun st => (Ok tt, set_working (committed st) st).

(** [connection.is_connected()] on the value of the local variable. *)
Definition is_connected : M bool :=
  fun st =>
    match connection_var st with
    | None => (Raise UnboundLocalError, st)
    | Some NoneValue => (Raise AttributeError, st)
    | Some Connection => (Ok (connected st), st)
    end.

(** [connection.close()]: the open transaction is abandoned. *)
Definition close : M unit :=
  fun st =>
    (Ok tt,
     {| committed := committed st; working := committed st;
        connected := false; connection_var := connection_var st;
        log := log st |}).

(** *** insert_data.py *)

(** [int(cell)] and [float(cell)] on a numeric cell. *)
Definition number (cell : option Z) : result sqlval :=
  match cell with
  | Some z => Ok (SqlNumber z)
  | None => Raise TypeError
  end.

Definition text (cell : option str) : sqlval :=
  match cell with
  | Some s => SqlText s
  | None => SqlNull
  end.

(** [str(cell)] *)
Definition str_of (cell : option str) : sqlval :=
  match cell with
  | Some s => SqlText s
  | None => SqlText (lit "None")
  end.

Fixpoint tuples {R} (tuple_of : R -> result record) (df : list R)
  : result (list record) :=
  match df with
  | [] => Ok []
  | row :: rest =>
      (r <- tuple_of row ;;
       more <- tuples tuple_of rest ;;
       Ok (r :: more))%py
  end.

Definition lift {A} (r : result A) : M A := fun st => (r, st).

(** The body shared by the six insert functions. *)
Definition insert_frame {R} (t : table) (no_data inserted failed : string)
  (tuple_of : R -> result record) (df : list R) (connection : pyconn)
  : M unit :=
  match df with
  | [] => logger WARNING no_data
  | _ =>
      cursor connection ;;;
      try_finally
        (try_except_Error
           (records <-- lift (tuples tuple_of df) ;;
            executemany t records ;;;
            commit t ;;;
            logger INFO inserted)
           (logger ERROR failed ;;;
            rollback))
        (ret tt)              (* cursor.close() *)
  end.

(** The tuple appended to [records] for one row of the frame. *)
Definition aggregated_transactions_tuple (row : AggTx.row) : result record :=
  (y <- number (AggTx.year row) ;;
   q <- number (AggTx.quarter row) ;;
   c <- number (AggTx.transaction_count row) ;;
   a <- number (AggTx.transaction_amount row) ;;
   Ok {| key_columns := [text (AggTx.state row); y; q;
                         text (AggTx.transaction_type row)];
         measure_columns := [c; a] |})%py.

Definition insert_aggregated_transactions :=
  insert_frame aggregated_transactions
    "No aggregated transaction data to insert"
    "Inserted/Updated aggregated transaction records"
    "Error inserting aggregated transactions"
    aggregated_transactions_tuple.

(** The tuple appended to [records] for one row of the frame. *)
Definition aggregated_users_tuple (row : AggUser.row) : result record :=
  (y <- number (AggUser.year row) ;;
   q <- number (AggUser.quarter row) ;;
   u <- number (AggUser.registered_users row) ;;
   o <- number (AggUser.app_opens row) ;;
   Ok {| key_columns := [text (AggUser.state row); y; q];
         measure_columns := [u; o] |})%py.

Definition insert_aggregated_users :=
  insert_frame aggregated_users
    "No aggregated user data to insert"
    "Inserted/Updated aggregated user records"
    "Error inserting aggregated users"
    aggregated_users_tuple.

(** The tuple appended to [records] for one row of the frame. *)
Definition map_transactions_tuple (row : MapTx.row) : result record :=
  (y <- number (MapTx.year row) ;;
   q <- number (MapTx.quarter row) ;;
   c <- number (MapTx.transaction_count row) ;;
   a <- number (MapTx.transaction_amount row) ;;
   Ok {| key_columns := [text (MapTx.state row); y; q;
                         text (MapTx.district row)];
         measure_columns := [c; a] |})%py.

Definition insert_map_transactions :=
  insert_frame map_transactions
    "No map transaction data to insert"
    "Inserted/Updated map transaction records"
    "Error inserting map transactions"
    map_transactions_tuple.

(** The tuple appended to [records] for one row of the frame. *)
Definition map_users_tuple (row : MapUser.row) : result record :=
  (y <- number (MapUser.year row) ;;
   q <- number (MapUser.quarter row) ;;
   u <- number (MapUser.registered_users row) ;;
   o <- number (MapUser.app_opens row) ;;
   Ok {| key_columns := [text (MapUser.state row); y; q;
                         text (MapUser.district row)];
         measure_columns := [u; o] |})%py.

Definition insert_map_users :=
  insert_frame map_users
    "No map user data to insert"
    "Inserted/Updated map user records"
    "Error inserting map users"
    map_users_tuple.

(** The tuple appended to [records] for one row of the frame. *)
Definition top_transactions_tuple (row : TopTx.row) : result record :=
  (y <- number (TopTx.year row) ;;
   q <- number (TopTx.quarter row) ;;
   c <- number (TopTx.transaction_count row) ;;
   a <- number (TopTx.transaction_amount row) ;;
   Ok {| key_columns := [text (TopTx.state row); y; q;
                         text (TopTx.entity_type row);
                         str_of (TopTx.entity_name row)];
         measure_columns := [c; a] |})%py.

Definition insert_top_transactions :=
  insert_frame top_transactions
    "No top transaction data to insert"
    "Inserted/Updated top transaction records"
    "Error inserting top transactions"
    top_transactions_tuple.

(** The tuple appended to [records] for one row of the frame. *)
Definition top_users_tuple (row : TopUser.row) : result record :=
  (y <- number (TopUser.year row) ;;
   q <- number (TopUser.quarter row) ;;
   u <- number (TopUser.registered_users row) ;;
   Ok {| key_columns := [text (TopUser.state row); y; q;
                         text (TopUser.entity_type row);
                         str_of (TopUser.entity_name row)];
         measure_columns := [u] |})%py.

Definition insert_top_users :=
  insert_frame top_users
    "No top user data to insert"
    "Inserted/Updated top user records"
    "Error inserting top users"
    top_users_tuple.

(** The dictionary [transformed_data]: a frame per dataset, [None]
    for a missing entry. *)
Record transformed : Type := {
  aggregated_transactions_df : option (list AggTx.row);
  aggregated_users_df : option (list AggUser.row);
  map_transactions_df : option (list MapTx.row);
  map_users_df : option (list MapUser.row);
  top_transactions_df : option (list TopTx.row);
  top_users_df : option (list TopUser.row)
}.

(** [if transformed_data.get(name) is not None: insert(df, connection)] *)
Definition when_present {R} (frame : option (list R))
  (insert : list R -> pyconn -> M unit) (connection : pyconn) : M unit :=
  match frame with
  | Some df => insert df connection
  | None => ret tt
  end.

Definition bind_connection (c : pyconn) : M unit :=
  fun st =>
    (Ok tt, {| committed := committed st; working := working st;
               connected := connected st; connection_var := Some c;
               log := log st |}).

(** The six guarded calls of [insert_all_data], in order. *)
Definition insert_datasets (transformed_data : transformed)
  (connection : pyconn) : M unit :=
  when_present (aggregated_transactions_df transformed_data)
    insert_aggregated_transactions connection ;;;
  when_present (aggregated_users_df transformed_data)
    insert_aggregated_users connection ;;;
  when_present (map_transactions_df transformed_data)
    insert_map_transactions connection ;;;
  when_present (map_users_df transformed_data)
    insert_map_users connection ;;;
  when_present (top_transactions_df transformed_data)
    insert_top_transactions connection ;;;
  when_present (top_users_df transformed_data)
    insert_top_users connection.

Definition insert_all_data (transformed_data : transformed) : M unit :=
  logger INFO "Starting database insertion process..." ;;;
  try_finally
    (try_except_Error
       (connection <-- get_db_connection ;;
        bind_connection connection ;;;
        insert_datasets transformed_data connection ;;;
        logger INFO "Database insertion completed successfully!")
       (logger ERROR "Database insertion failed" ;;;
        raise Error))
    (alive <-- is_connected ;;
     if alive
     then close ;;; logger INFO "MySQL connection closed"
     else ret tt).

End Run.

(** The sink refuses the batch written to table [t]: [executemany]
    raises on one of its tuples, or [commit] raises. *)
Definition write_fails (server : sink) (t : table) (records : list record)
  : bool :=
  match rejects server t with
  | Some i => (i <? List.length records)%nat
  | None => false
  end
  || commit_fails server t.

(** Every numeric cell of the frame holds a number, so that the tuples
    of the batch can be built. *)
Definition loadable {R} (tuple_of : R -> result record) (frame : option (list R))
  : Prop :=
  forall df, frame = Some df -> exists records, tuples tuple_of df = Ok records.

Definition all_loadable (transformed_data : transformed) : Prop :=
  loadable aggregated_transactions_tuple (aggregated_transactions_df transformed_data)
  /\ loadable aggregated_users_tuple (aggregated_users_df transformed_data)
  /\ loadable map_transactions_tuple (map_transactions_df transformed_data)
  /\ loadable map_users_tuple (map_users_df transformed_data)
  /\ loadable top_transactions_tuple (top_transactions_df transformed_data)
  /\ loadable top_users_tuple (top_users_df transformed_data).

(** A computation that leaves the connection and the variable bound to
    it as they are, whether it returns or raises. *)
Definition keeps_connection {A} (m : M A) : Prop :=
  forall st,
    connected (snd (m st)) = connected st
    /\ connection_var (snd (m st)) = connection_var st.

(** The state in which [insert_all_data] is entered. *)
Definition initial (s : store) : state :=
  {| committed := s; working := s; connected := false;
     connection_var := None; log := [] |}.

End Loader.

(** ** Sample inputs *)

Module Samples.
Import Extract Transform.

Definition entry (k : string) (v : json) : str * json := (lit k, v).

Definition measures (count amount : Z) : json :=
  JObj [entry "count" (JNum count); entry "amount" (JNum amount)].

Definition document (payload : json) : json :=
  JObj [entry "success" (JBool true); entry "data" payload].

(** A country-level hover file whose region carries two metrics. *)
Definition karnataka_tree : hover_tree :=
  {| country_files :=
       Some [ {| file_path :=
                   lit "data/raw/pulse/data/map/transaction/hover/country/india/2023/1.json";
                 parsed :=
                   Some (document
                           (JObj [entry "hoverDataList"
                                    (JArr [JObj [entry "name" (JStr (lit "Karnataka"));
                                                 entry "metric"
                                                   (JArr [measures 7%Z 70%Z;
                                                          measures 3%Z 30%Z])]])])) |} ];
     state_entries := None |}.

(** A country-level hover file with a region that has no name. *)
Definition nameless_tree : hover_tree :=
  {| country_files :=
       Some [ {| file_path :=
                   lit "data/raw/pulse/data/map/transaction/hover/country/india/2023/1.json";
                 parsed :=
                   Some (document
                           (JObj [entry "hoverDataList"
                                    (JArr [JObj [entry "metric"
                                                   (JArr [measures 7%Z 70%Z])]])])) |} ];
     state_entries := None |}.

(** The country file and a state file under the same base path both list
    the district Bengaluru Urban. *)
Definition bengaluru_files : list file :=
  let listing (count amount : Z) :=
    document
      (JObj [entry "districts"
               (JArr [JObj [entry "entityName" (JStr (lit "Bengaluru Urban"));
                            entry "metric" (measures count amount)]])]) in
  [ {| file_path :=
         lit "data/raw/pulse/data/top/transaction/country/india/2023/1.json";
       parsed := Some (listing 9%Z 90%Z) |};
    {| file_path :=
         lit "data/raw/pulse/data/top/transaction/country/india/state/karnataka/2023/1.json";
       parsed := Some (listing 4%Z 40%Z) |} ].

(** A well-formed aggregated-transactions document, and the same
    payload in a document that reports [success = false]. *)
Definition recharge_payload : json :=
  JObj [entry "transactionData"
          (JArr [JObj [entry "name" (JStr (lit "Recharge"));
                       entry "paymentInstruments"
                         (JArr [JObj [entry "type" (JStr (lit "TOTAL"));
                                      entry "count" (JNum 10%Z);
                                      entry "amount" (JNum 100%Z)]])]])].

Definition listed_file : file :=
  {| file_path :=
       lit "data/raw/pulse/data/aggregated/transaction/country/india/2023/1.json";
     parsed := Some (document recharge_payload) |}.

Definition failed_file : file :=
  {| file_path :=
       lit "data/raw/pulse/data/aggregated/transaction/country/india/2023/2.json";
     parsed :=
       Some (JObj [entry "success" (JBool false);
                   entry "data" recharge_payload]) |}.

(** Reading a measure as a number when the value is an integer. *)
Definition integers_only (v : json) : option Z :=
  match v with
  | JNum z => Some z
  | _ => None
  end.

(** What [karnataka_tree] is extracted as. *)
Definition karnataka_records : list map_transaction :=
  [ {| mt_state := lit "karnataka"; mt_year := 2023%Z; mt_quarter := 1%Z;
       mt_district := lit "karnataka";
       mt_transaction_count := JNum 7%Z;
       mt_transaction_amount := JNum 70%Z |};
    {| mt_state := lit "karnataka"; mt_year := 2023%Z; mt_quarter := 1%Z;
       mt_district := lit "karnataka";
       mt_transaction_count := JNum 3%Z;
       mt_transaction_amount := JNum 30%Z |} ].

(** What [nameless_tree] is extracted as. *)
Definition nameless_records : list map_transaction :=
  [ {| mt_state := []; mt_year := 2023%Z; mt_quarter := 1%Z;
       mt_district := [];
       mt_transaction_count := JNum 7%Z;
       mt_transaction_amount := JNum 70%Z |} ].

(** What [bengaluru_files] are extracted as. *)
Definition bengaluru_records : list top_transaction :=
  [ {| tt_state := lit "india"; tt_year := 2023%Z; tt_quarter := 1%Z;
       tt_entity_type := lit "district";
       tt_entity_name := lit "bengaluru urban";
       tt_transaction_count := JNum 9%Z;
       tt_transaction_amount := JNum 90%Z |};
    {| tt_state := lit "india"; tt_year := 2023%Z; tt_quarter := 1%Z;
       tt_entity_type := lit "district";
       tt_entity_name := lit "bengaluru urban";
       tt_transaction_count := JNum 4%Z;
       tt_transaction_amount := JNum 40%Z |} ].

(** The first of the two rows that [karnataka_tree] ends up as. *)
Definition karnataka_row : MapTx.row :=
  {| MapTx.state := Some (lit "Karnataka");
     MapTx.year := Some 2023%Z;
     MapTx.quarter := Some 1%Z;
     MapTx.district := Some (lit "karnataka");
     MapTx.transaction_count := Some 7%Z;
     MapTx.transaction_amount := Some 70%Z |}.

(** The frame row that the region without a name is extracted as. *)
Definition nameless_row : MapTx.row :=
  {| MapTx.state := Some [];
     MapTx.year := Some 2023%Z;
     MapTx.quarter := Some 1%Z;
     MapTx.district := Some [];
     MapTx.transaction_count := Some 7%Z;
     MapTx.transaction_amount := Some 70%Z |}.

(** The two Recharge rows of one quarter, one per payment mode. *)
Definition recharge_rows : list AggTx.row :=
  [ {| AggTx.state := Some (lit "india");
       AggTx.year := Some 2023%Z;
       AggTx.quarter := Some 1%Z;
       AggTx.transaction_type := Some (lit "Recharge");
       AggTx.payment_mode := Some (Some (lit "A"));
       AggTx.transaction_count := Some 10%Z;
       AggTx.transaction_amount := Some 100%Z |};
    {| AggTx.state := Some (lit "india");
       AggTx.year := Some 2023%Z;
       AggTx.quarter := Some 1%Z;
       AggTx.transaction_type := Some (lit "Recharge");
       AggTx.payment_mode := Some (Some (lit "B"));
       AggTx.transaction_count := Some 5%Z;
       AggTx.transaction_amount := Some 50%Z |} ].

(** Two transformed aggregated-transaction rows, as a frame to load. *)
Definition two_types : list AggTx.row :=
  [ {| AggTx.state := Some (lit "India");
       AggTx.year := Some 2023%Z;
       AggTx.quarter := Some 1%Z;
       AggTx.transaction_type := Some (lit "Merchant payments");
       AggTx.payment_mode := None;
       AggTx.transaction_count := Some 20%Z;
       AggTx.transaction_amount := Some 200%Z |};
    {| AggTx.state := Some (lit "India");
       AggTx.year := Some 2023%Z;
       AggTx.quarter := Some 1%Z;
       AggTx.transaction_type := Some (lit "Recharge");
       AggTx.payment_mode := None;
       AggTx.transaction_count := Some 15%Z;
       AggTx.transaction_amount := Some 150%Z |} ].

Definition only_aggregated_transactions : Loader.transformed :=
  {| Loader.aggregated_transactions_df := Some two_types;
     Loader.aggregated_users_df := None;
     Loader.map_transactions_df := None;
     Loader.map_users_df := None;
     Loader.top_transactions_df := None;
     Loader.top_users_df := None |}.

(** A sink that accepts the connection and refuses the second tuple
    written to [aggregated_transactions]. *)
Definition rejecting_sink : Loader.sink :=
  {| Loader.connect := Loader.Accepted true;
     Loader.rejects :=
       fun t => match t with
                | Loader.aggregated_transactions => Some 1%nat
                | _ => None
                end;
     Loader.commit_fails := fun _ => false |}.

(** A sink that cannot be reached. *)
Definition unreachable_sink : Loader.sink :=
  {| Loader.connect := Loader.Refused;
     Loader.rejects := fun _ => None;
     Loader.commit_fails := fun _ => false |}.

(** A sink whose connection is already down when it is handed over. *)
Definition dropped_sink : Loader.sink :=
  {| Loader.connect := Loader.Accepted false;
     Loader.rejects := fun _ => None;
     Loader.commit_fails := fun _ => false |}.

(** A sink on which every operation succeeds. *)
Definition healthy_sink : Loader.sink :=
  {| Loader.connect := Loader.Accepted true;
     Loader.rejects := fun _ => None;
     Loader.commit_fails := fun _ => false |}.

End Samples.

(** ** Further definitions: helpers *)

Module HelpersMore.
Import PyStr Helpers.

(** The year that [extract_year_quarter] is left with when the loop runs
    to its end: the last year segment of the path, if any. *)
Definition last_year (parts : list str) : option Z :=
  fold_left (fun year part => if is_year part then Some (int_of part) else year)
            parts None.

(** Words as [split()] returns them: not empty, here of word characters
    and hyphens only. *)
Definition plain_word (w : str) : Prop :=
  w <> [] /\ forallb plain_char w = true.

End HelpersMore.

(** ** Further definitions: extraction *)

Module ExtractMore.
Import PyStr PyVal Extract.

(** The coordinates that the pipeline keeps. *)
Definition valid_coordinates (year quarter : Z) : Prop :=
  (2018 <= year <= 2024)%Z /\ (1 <= quarter <= 4)%Z.

Definition is_object (v : json) : bool :=
  match v with
  | JObj _ => true
  | _ => false
  end.

(** A document that is read and is not of the expected shape: it is no
    object, or its [success] and [data] entries are truthy and [data] is
    no object. *)
Definition misshapen_document (d : json) : bool :=
  match d with
  | JObj fields =>
      negb (falsy (Helpers.dict_get fields (lit "success") JNull))
      && negb (falsy (Helpers.dict_get fields (lit "data") JNull))
      && negb (is_object (Helpers.dict_get fields (lit "data") JNull))
  | _ => true
  end.

(** The names of the state directories of a hover tree. *)
Definition state_dirs (tree : hover_tree) : list str :=
  match state_entries tree with
  | Some entries => map fst entries
  | None => []
  end.

Definition entity_types : list str :=
  [lit "state"; lit "district"; lit "pincode"].

End ExtractMore.

Module SamplesMore.
Import Extract Transform Samples.

(** A file of the tree whose path names a year and no quarter. *)
Definition notes_file : file :=
  {| file_path :=
       lit "data/raw/pulse/data/aggregated/transaction/country/india/2023/notes.json";
     parsed := Some (JArr [JNum 1%Z]) |}.

(** A file at valid coordinates whose document is a list. *)
Definition list_file : file :=
  {| file_path :=
       lit "data/raw/pulse/data/aggregated/transaction/country/india/2023/3.json";
     parsed := Some (JArr [JNum 1%Z]) |}.

(** An aggregated-users document and the record it is extracted as. *)
Definition users_file : file :=
  {| file_path :=
       lit "data/raw/pulse/data/aggregated/user/country/india/2022/4.json";
     parsed :=
       Some (document
               (JObj [entry "aggregated"
                        (JObj [entry "registeredUsers" (JNum 5%Z);
                               entry "appOpens" (JNum 9%Z)])])) |}.

Definition users_records : list aggregated_user :=
  [ {| au_state := lit "india"; au_year := 2022%Z; au_quarter := 4%Z;
       au_registered_users := JNum 5%Z; au_app_opens := JNum 9%Z |} ].

End SamplesMore.

(** ** Further definitions: transformation *)

Module TransformMore.
Import PyStr Transform.

(** Keys in the order in which [groupby] lists its groups. *)
Fixpoint ascending (keys : list key) : bool :=
  match keys with
  | a :: (b :: _) as rest => key_leb a b && ascending rest
  | _ => true
  end.

(** The sum of the sums of the groups of [keys]. *)
Definition over_groups (measure : AggTx.row -> option Z) (keys : list key)
  (rows : list AggTx.row) : Z :=
  fold_right
    (fun k acc => (sum_of measure (filter (in_group k) rows) + acc)%Z)
    0%Z keys.

End TransformMore.

(** ** Further definitions: loading *)

Module LoaderMore.
Import Transform Loader.

(** The rows of one table. *)
Definition rows_of (t : table) (s : store) : list record :=
  map snd
      (filter (fun entry => if table_eq_dec t (fst entry) then true else false)
              s).

(** The tuples of a dataset that end up committed: the whole batch when
    the frame is there, its tuples can be built and the sink accepts the
    write and the commit; nothing otherwise. *)
Definition accepted_batch {R} (server : sink) (t : table)
  (tuple_of : R -> result record) (frame : option (list R)) : list record :=
  match frame with
  | Some df =>
      match tuples tuple_of df with
      | Ok records => if write_fails server t records then [] else records
      | Raise _ => []
      end
  | None => []
  end.

(** The store after the accepted batches of the six datasets, in the
    order of [insert_all_data]. *)
Definition loaded (server : sink) (transformed_data : transformed) (s : store)
  : store :=
  let s := upsert_all aggregated_transactions
             (accepted_batch server aggregated_transactions
                aggregated_transactions_tuple
                (aggregated_transactions_df transformed_data)) s in
  let s := upsert_all aggregated_users
             (accepted_batch server aggregated_users aggregated_users_tuple
                (aggregated_users_df transformed_data)) s in
  let s := upsert_all map_transactions
             (accepted_batch server map_transactions map_transactions_tuple
                (map_transactions_df transformed_data)) s in
  let s := upsert_all map_users
             (accepted_batch server map_users map_users_tuple
                (map_users_df transformed_data)) s in
  let s := upsert_all top_transactions
             (accepted_batch server top_transactions top_transactions_tuple
                (top_transactions_df transformed_data)) s in
  upsert_all top_users
    (accepted_batch server top_users top_users_tuple
       (top_users_df transformed_data)) s.

(** A computation that, on an open connection without pending work,
    returns normally, keeps the connection and leaves the store [change]
    makes of the committed one, again without pending work. *)
Definition settles (m : M unit) (change : store -> store) : Prop :=
  forall st,
    connected st = true -> working st = committed st ->
    exists st',
      m st = (Ok tt, st')
      /\ connected st' = true
      /\ connection_var st' = connection_var st
      /\ committed st' = change (committed st)
      /\ working st' = committed st'.

(** Tuples written as entries of the store. *)
Definition entries (t : table) (records : list record)
  : list (table * record) :=
  map (fun r => (t, r)) records.

Definition upsert_entries (batch : list (table * record)) (s : store) : store :=
  fold_left (fun acc entry => upsert (fst entry) (snd entry) acc) batch s.

(** The two entries have the same table and the same key. *)
Definition alike (a b : table * record) : bool := same_key (fst a) (snd a) b.

Definition present (a : table * record) (s : store) : bool :=
  existsb (alike a) s.

End LoaderMore.

(** ** scripts/transform_data.py: transform_all_data *)

Module Pipeline.
Import Transform Loader.

(** The dictionary [extracted_data]: for each dataset the list of
    records, read as the rows of the frame that [pd.DataFrame] makes of
    it; [None] for a missing entry. *)
Record extracted : Type := {
  aggregated_transactions_records : option (list AggTx.row);
  aggregated_users_records : option (list AggUser.row);
  map_transactions_records : option (list MapTx.row);
  map_users_records : option (list MapUser.row);
  top_transactions_records : option (list TopTx.row);
  top_users_records : option (list TopUser.row)
}.

(** [if extracted_data.get(name): transformed_data[name] = transform(df)]:
    a missing entry and an empty list are both falsy. *)
Definition when_truthy {R} (records : option (list R))
  (transform : list R -> list R) : option (list R) :=
  match records with
  | Some (row :: rest) => Some (transform (row :: rest))
  | _ => None
  end.

Definition transform_all_data (extracted_data : extracted) : transformed :=
  {| aggregated_transactions_df :=
       when_truthy (aggregated_transactions_records extracted_data)
         transform_aggregated_transactions;
     aggregated_users_df :=
       when_truthy (aggregated_users_records extracted_data)
         transform_aggregated_users;
     map_transactions_df :=
       when_truthy (map_transactions_records extracted_data)
         transform_map_transactions;
     map_users_df :=
       when_truthy (map_users_records extracted_data)
         transform_map_users;
     top_transactions_df :=
       when_truthy (top_transactions_records extracted_data)
         transform_top_transactions;
     top_users_df :=
       when_truthy (top_users_records extracted_data)
         transform_top_users |}.

(** [not extracted_data.get(name)] for the dataset of table [t]. *)
Definition nothing_extracted (t : table) (extracted_data : extracted) : bool :=
  let falsy {R} (records : option (list R)) :=
    match records with
    | Some (_ :: _) => false
    | _ => true
    end in
  match t with
  | aggregated_transactions =>
      falsy (aggregated_transactions_records extracted_data)
  | aggregated_users => falsy (aggregated_users_records extracted_data)
  | map_transactions => falsy (map_transactions_records extracted_data)
  | map_users => falsy (map_users_records extracted_data)
  | top_transactions => falsy (top_transactions_records extracted_data)
  | top_users => falsy (top_users_records extracted_data)
  end.

End Pipeline.

Module SamplesPipeline.
Import Transform Loader Pipeline Samples.

(** Only the two Recharge rows were extracted; the list of aggregated
    users is empty. *)
Definition recharge_only : extracted :=
  {| aggregated_transactions_records := Some recharge_rows;
     aggregated_users_records := Some [];
     map_transactions_records := None;
     map_users_records := None;
     top_transactions_records := None;
     top_users_records := None |}.

End SamplesPipeline.

(** ** utils/helpers.py: find_json_files *)

Module Files.
Import PyStr.

(** [s.endswith(suffix)] *)
Definition ends_with (suffix s : str) : bool :=
  starts_with (rev suffix) (rev s).

(** [pattern in s] *)
Fixpoint contains (pattern s : str) : bool :=
  starts_with pattern s
  || match s with
     | [] => false
     | _ :: rest => contains pattern rest
     end.

(** [os.path.join(root, name)] of [posixpath]. *)
Definition path_join (root name : str) : str :=
  if starts_with (lit "/") name then name
  else
    match root with
    | [] => name
    | _ => if ends_with (lit "/") root then root ++ name
           else root ++ lit "/" ++ name
    end.

(** [walked] is what [os.walk(directory)] yields, in order, until it
    ends or raises: each directory with the names of its files.  The
    handler keeps the paths found so far. *)
Definition find_json_files (walked : list (str * list str))
  (pattern : option str) : list str :=
  flat_map
    (fun step =>
       let '(root, files) := step in
       flat_map
         (fun file =>
            if ends_with (lit ".json") file
            then
              let file_path := path_join root file in
              match pattern with
              | None => [file_path]
              | Some pattern =>
                  if contains pattern file_path then [file_path] else []
              end
            else [])
         files)
    walked.

End Files.

(** ** database/db_connection.py: the schema functions *)

Module Schema.
Import PyStr Loader.

(** What the functions do to the server and the log, in order. *)
Inductive event : Type :=
| Connected                        (* [mysql.connector.connect] returned *)
| Executed (statement : str)       (* [cursor.execute] returned *)
| Committed
| RolledBack
| Closed                           (* [connection.close()] *)
| Logged (l : level).

(** How a call ends; [RaisedOSError] stands for the exceptions of
    [open] and [read], which are no [mysql.connector.Error]. *)
Inductive ending : Type :=
| Returned
| Raised (e : exn)
| RaisedOSError.

(** The server during the call: the outcome of the connection attempt,
    the statements at which [cursor.execute] raises [Error], whether
    [commit] raises, and what [is_connected()] answers in the handler
    after a statement or the commit has failed. *)
Record server : Type := {
  connect : connect_outcome;
  refuses : str -> bool;
  commit_raises : bool;
  alive_in_handler : bool
}.

(** [except Error as e: logger.error(...); if connection.is_connected():
    connection.rollback(); raise] with [connection] bound. *)
Definition handler (db : server) (trace : list event) : ending * list event :=
  (Raised Error,
   trace ++ Logged ERROR :: (if alive_in_handler db then [RolledBack] else [])).

(** [if statement.strip()] *)
Definition blank (statement : str) : bool :=
  match strip statement with
  | [] => true
  | _ => false
  end.

(** The loop over the pieces of the script: the statements executed,
    and whether the loop ran to its end. *)
Fixpoint execute_all (db : server) (statements : list str)
  : bool * list event :=
  match statements with
  | [] => (true, [])
  | statement :: rest =>
      if blank statement then execute_all db rest
      else if refuses db statement then (false, [])
      else
        let '(finished, trace) := execute_all db rest in
        (finished, Executed statement :: trace)
  end.

(** [file] is what [file.read()] returns, [None] when the file cannot be
    opened or read. *)
Definition execute_sql_file (db : server) (file : option str)
  : ending * list event :=
  match connect db with
  | Refused =>
      (* the handler reads [connection], which was never bound *)
      (Raised UnboundLocalError, [Logged ERROR])
  | Accepted false =>
      (* [connection.cursor()] raises on a connection that is down, and
         the handler finds it down *)
      (Raised Error, [Connected; Logged ERROR])
  | Accepted true =>
      match file with
      | None => (RaisedOSError, [Connected])
      | Some sql_script =>
          let '(finished, trace) :=
            execute_all db (split_on ";"%char sql_script) in
          if finished
          then
            if commit_raises db then handler db (Connected :: trace)
            else (Returned,
                  Connected :: trace ++ [Committed; Logged INFO; Closed])
          else handler db (Connected :: trace)
      end
  end.

(** [db_name] is the value of [DB_NAME]. *)
Definition create_database_if_not_exists (db : server) (db_name : str)
  : ending * list event :=
  match connect db with
  | Refused => (Raised Error, [Logged ERROR])
  | Accepted false => (Raised Error, [Connected; Logged ERROR])
  | Accepted true =>
      let statement := lit "CREATE DATABASE IF NOT EXISTS " ++ db_name in
      if refuses db statement
      then (Raised Error, [Connected; Logged ERROR])
      else (Returned, [Connected; Executed statement; Logged INFO; Closed])
  end.

(** The statements of a trace. *)
Definition executed (trace : list event) : list str :=
  flat_map (fun e => match e with
                     | Executed statement => [statement]
                     | _ => []
                     end) trace.

(** The pieces of the script that are statements. *)
Definition statements_of (sql_script : str) : list str :=
  filter (fun statement => negb (blank statement))
         (split_on ";"%char sql_script).

End Schema.

(** ** view_data.py *)

Module Viewer.
Import PyStr Loader.
Local Open Scope loader_scope.

(** The queries that the three functions send. *)
Inductive query : Type :=
| Total (table_name : str)        (* SELECT COUNT( * ) as total FROM ... *)
| Sample (table_name : str) (limit : Z)
| Count (table_name : str)        (* SELECT COUNT( * ) as count FROM ... *)
| Custom (text : str).

(** [except Exception]: every exception of the model is one. *)
Definition try_except_Exception {A} (body : M A) (handler : M A) : M A :=
  fun st =>
    match body st with
    | (Raise _, st') => handler st'
    | other => other
    end.

(** Standard output is not part of the state. *)
Definition print (message : string) : M unit := ret tt.

(** [if connection and connection.is_connected(): connection.close()] *)
Definition release : M unit :=
  fun st =>
    match connection_var st with
    | None => (Raise UnboundLocalError, st)
    | Some NoneValue => (Ok tt, st)
    | Some Connection => if connected st then close st else (Ok tt, st)
    end.

Definition tables : list str :=
  [ lit "aggregated_transactions"; lit "aggregated_users";
    lit "map_transactions"; lit "map_users";
    lit "top_transactions"; lit "top_users" ].

Section Views.

Variable server : sink.

(** What the database answers to a query on a live connection, as the
    number that the caller reads off the frame (the count, or the number
    of rows), or the exception of [pd.read_sql] or of the lookup in the
    frame. *)
Variable answers : query -> result Z.

(** [pd.read_sql(query, connection)] *)
Definition read_sql (q : query) (connection : pyconn) : M Z :=
  match connection with
  | NoneValue => raise AttributeError
  | Connection =>
      fun st => if connected st then (answers q, st) else (Raise Error, st)
  end.

Definition view_table_data (table_name : str) (limit : Z) : M unit :=
  bind_connection NoneValue ;;;
  try_finally
    (try_except_Exception
       (connection <-- get_db_connection server ;;
        bind_connection connection ;;;
        total_records <-- read_sql (Total table_name) connection ;;
        print "Table and total records" ;;;
        if (total_records =? 0)%Z
        then print "No data found in this table."
        else
          df <-- read_sql (Sample table_name limit) connection ;;
          print "Showing the first records")
       (print "Error viewing table"))
    release.

(** The loop of the summary: the failure of one count is recorded in
    the summary and the loop goes on. *)
Fixpoint count_tables (names : list str) (connection : pyconn) : M unit :=
  match names with
  | [] => ret tt
  | table :: rest =>
      try_except_Exception
        (count <-- read_sql (Count table) connection ;; ret tt)
        (ret tt) ;;;
      count_tables rest connection
  end.

Definition view_all_tables_summary : M unit :=
  bind_connection NoneValue ;;;
  try_finally
    (try_except_Exception
       (connection <-- get_db_connection server ;;
        bind_connection connection ;;;
        print "DATABASE SUMMARY" ;;;
        count_tables tables connection ;;;
        print "summary")
       (print "Error getting summary"))
    release.

Definition view_custom_query (text : str) : M unit :=
  bind_connection NoneValue ;;;
  try_finally
    (try_except_Exception
       (connection <-- get_db_connection server ;;
        bind_connection connection ;;;
        df <-- read_sql (Custom text) connection ;;
        print "Query Results")
       (print "Error executing query"))
    release.

End Views.

End Viewer.
(** * Properties *)

(** ** Characters and strings *)

Section StringFacts.
Import PyStr.

Ltac by_cases_on_char c :=
  destruct c as [[] [] [] [] [] [] [] []]; vm_compute; reflexivity.

Lemma lower_char_idempotent (c : ascii) :
  lower_char (lower_char c) = lower_char c.
Proof. by_cases_on_char c. Qed.

Lemma lower_upper_char (c : ascii) :
  lower_char (upper_char c) = lower_char c.
Proof. by_cases_on_char c. Qed.

Lemma lower_char_not_upper (c : ascii) : isupper (lower_char c) = false.
Proof. by_cases_on_char c. Qed.

Lemma iscased_upper_char (c : ascii) : iscased (upper_char c) = iscased c.
Proof. by_cases_on_char c. Qed.

Lemma iscased_lower_char (c : ascii) : iscased (lower_char c) = iscased c.
Proof. by_cases_on_char c. Qed.

Lemma upper_char_idempotent (c : ascii) :
  upper_char (upper_char c) = upper_char c.
Proof. by_cases_on_char c. Qed.

Lemma lower_idempotent (s : str) : lower (lower s) = lower s.
Proof.
  unfold lower. rewrite map_map. apply map_ext, lower_char_idempotent.
Qed.

Lemma lower_title_from (b : bool) (s : str) :
  lower (title_from b s) = lower s.
Proof.
  revert b. induction s as [|c s IH]; intro b; simpl; [reflexivity|].
  rewrite IH. f_equal.
  destruct b; [apply lower_char_idempotent | apply lower_upper_char].
Qed.

Lemma title_from_idempotent (b : bool) (s : str) :
  title_from b (title_from b s) = title_from b s.
Proof.
  revert b. induction s as [|c s IH]; intro b; simpl; [reflexivity|].
  destruct b.
  - rewrite iscased_lower_char, IH, lower_char_idempotent. reflexivity.
  - rewrite iscased_upper_char, IH, upper_char_idempotent. reflexivity.
Qed.

Lemma lowered_lower (s : str) : lowered (lower s).
Proof. apply lower_idempotent. Qed.

Lemma lowered_cons (c : ascii) (s : str) :
  lowered (c :: s) <-> lower_char c = c /\ lowered s.
Proof.
  unfold lowered; simpl. split.
  - intro H; injection H; auto.
  - intros [H1 H2]; rewrite H1, H2; reflexivity.
Qed.

Lemma lowered_lstrip (s : str) : lowered s -> lowered (lstrip s).
Proof.
  induction s as [|c s IH]; simpl; intro H; [exact H|].
  destruct (isspace c); [|exact H].
  apply IH. apply lowered_cons in H. tauto.
Qed.

Lemma lowered_rstrip (s : str) : lowered s -> lowered (rstrip s).
Proof.
  induction s as [|c s IH]; simpl; intro H; [exact H|].
  apply lowered_cons in H. destruct H as [Hc Hs].
  specialize (IH Hs).
  destruct (rstrip s) as [|d kept].
  - destruct (isspace c); [reflexivity|].
    apply lowered_cons. split; [exact Hc | reflexivity].
  - apply lowered_cons. split; assumption.
Qed.

Lemma lowered_strip (s : str) : lowered s -> lowered (strip s).
Proof. intro H. apply lowered_rstrip, lowered_lstrip, H. Qed.

Lemma lstrip_starts_clean (s : str) : starts_clean (lstrip s).
Proof.
  induction s as [|c s IH]; simpl; [exact I|].
  destruct (isspace c) eqn:E; [exact IH | exact E].
Qed.

Lemma lstrip_fixed (s : str) : starts_clean s -> lstrip s = s.
Proof.
  destruct s as [|c s]; simpl; [reflexivity|].
  intro H; rewrite H; reflexivity.
Qed.

Lemma rstrip_starts_clean (s : str) : starts_clean s -> starts_clean (rstrip s).
Proof.
  destruct s as [|c s]; simpl; [trivial|].
  intro H. destruct (rstrip s); [rewrite H|]; exact H.
Qed.

Lemma rstrip_idempotent (s : str) : rstrip (rstrip s) = rstrip s.
Proof.
  induction s as [|c s IH]; simpl; [reflexivity|].
  destruct (rstrip s) as [|d kept] eqn:E.
  - destruct (isspace c) eqn:Ec; simpl; [reflexivity|].
    rewrite Ec; reflexivity.
  - change (rstrip (c :: d :: kept)) with
      (match rstrip (d :: kept) with
       | [] => if isspace c then [] else [c]
       | k => c :: k
       end).
    rewrite IH. reflexivity.
Qed.

Lemma strip_idempotent (s : str) : strip (strip s) = strip s.
Proof.
  unfold strip.
  rewrite (lstrip_fixed (rstrip (lstrip s))).
  - apply rstrip_idempotent.
  - apply rstrip_starts_clean, lstrip_starts_clean.
Qed.

Lemma eqb_eq (a b : str) : eqb a b = true <-> a = b.
Proof.
  revert b. induction a as [|x a IH]; intros [|y b]; simpl;
    try (split; [discriminate | discriminate]); try tauto.
  rewrite Bool.andb_true_iff, Ascii.eqb_eq, IH.
  split; [intros [-> ->]; reflexivity | intro H; injection H; auto].
Qed.

End StringFacts.

(** ** NameNormalizer *)

Section NormalizerFacts.
Import PyStr Helpers.

Lemma mapped_cases (n : str) :
  mapped n = n
  \/ mapped n = lit "andaman and nicobar islands"
  \/ mapped n = lit "dadra and nagar haveli and daman and diu"
  \/ mapped n = lit "jammu and kashmir".
Proof.
  unfold mapped, state_mappings, dict_get.
  repeat match goal with
         | |- context [if eqb ?a ?b then _ else _] => destruct (eqb a b)
         end; tauto.
Qed.

(** The canonical lower-case form reached before title-casing is stable
    under the three steps that precede [title]. *)
Lemma canonical_stable (s : str) :
  let m := mapped (strip (lower s)) in
  lower m = m /\ strip m = m /\ mapped m = m.
Proof.
  intro m. subst m.
  destruct (mapped_cases (strip (lower s))) as [H | [H | [H | H]]];
    rewrite H; try (repeat split; vm_compute; reflexivity).
  repeat split.
  - apply lowered_strip, lowered_lower.
  - apply strip_idempotent.
  - exact H.
Qed.

Lemma normalize_title_fixed (m : str) :
  lower m = m -> strip m = m -> mapped m = m ->
  normalize_state_name (title m) = title m.
Proof.
  intros Hl Hs Hm. unfold normalize_state_name.
  destruct (title m) as [|c t] eqn:E; [reflexivity|].
  rewrite <- E. cbv zeta. unfold title at 2.
  rewrite lower_title_from, Hl, Hs, Hm. reflexivity.
Qed.


End NormalizerFacts.

(** ** PathCoordinateResolver *)

Section PathFacts.
Import PyStr Helpers.

Lemma split_on_nonempty (sep : ascii) (s : str) : split_on sep s <> [].
Proof.
  destruct s as [|c s]; simpl; [discriminate|].
  destruct (Ascii.eqb c sep); [discriminate|].
  destruct (split_on sep s); discriminate.
Qed.

Lemma split_on_app (sep : ascii) (a b : str) :
  split_on sep (a ++ sep :: b) = split_on sep a ++ split_on sep b.
Proof.
  induction a as [|c a IH]; simpl.
  - rewrite Ascii.eqb_refl. reflexivity.
  - destruct (Ascii.eqb c sep); [rewrite IH; reflexivity|].
    rewrite IH.
    destruct (split_on sep a) as [|p ps] eqn:E; [|reflexivity].
    exfalso; exact (split_on_nonempty _ _ E).
Qed.

Lemma split_on_plain (sep : ascii) (s : str) :
  forallb (fun c => negb (Ascii.eqb c sep)) s = true -> split_on sep s = [s].
Proof.
  induction s as [|c s IH]; simpl; [reflexivity|].
  intro H. apply Bool.andb_true_iff in H. destruct H as [Hc Hs].
  apply Bool.negb_true_iff in Hc. rewrite Hc, (IH Hs). reflexivity.
Qed.

Lemma digit_not_separator (c : ascii) :
  isdigit_char c = true ->
  negb (Ascii.eqb c "/"%char) = true /\ negb (Ascii.eqb c backslash) = true
  /\ negb (Ascii.eqb c "."%char) = true.
Proof.
  destruct c as [[] [] [] [] [] [] [] []]; vm_compute;
    intro H; try discriminate H; repeat split.
Qed.

Lemma digits_forall (s : str) : isdigit s = true -> forallb isdigit_char s = true.
Proof. destruct s; [discriminate | trivial]. Qed.

Lemma replace_char_digits (s : str) :
  forallb isdigit_char s = true -> replace_char backslash "/"%char s = s.
Proof.
  induction s as [|c s IH]; simpl; [reflexivity|].
  intro H. apply Bool.andb_true_iff in H. destruct H as [Hc Hs].
  destruct (digit_not_separator c Hc) as (_ & Hb & _).
  apply Bool.negb_true_iff in Hb. rewrite Hb, (IH Hs). reflexivity.
Qed.

Lemma digits_plain (s : str) :
  forallb isdigit_char s = true ->
  forallb (fun c => negb (Ascii.eqb c "/"%char)) s = true.
Proof.
  induction s as [|c s IH]; simpl; [reflexivity|].
  intro H. apply Bool.andb_true_iff in H. destruct H as [Hc Hs].
  destruct (digit_not_separator c Hc) as (Hsl & _ & _).
  rewrite Hsl, (IH Hs). reflexivity.
Qed.

Lemma forallb_app_true {A} (f : A -> bool) (a b : list A) :
  forallb f a = true -> forallb f b = true -> forallb f (a ++ b) = true.
Proof. intros Ha Hb. rewrite forallb_app, Ha, Hb. reflexivity. Qed.

Lemma starts_with_json_false (c : ascii) (s : str) :
  Ascii.eqb c "."%char = false -> starts_with (lit ".json") (c :: s) = false.
Proof.
  intro H.
  change (starts_with (lit ".json") (c :: s))
    with (Ascii.eqb "."%char c && starts_with (lit "json") s).
  rewrite Ascii.eqb_sym, H. reflexivity.
Qed.

(** Deleting [.json] from a numeral followed by [.json] leaves the
    numeral. *)
Lemma remove_json_suffix (s : str) :
  forallb isdigit_char s = true -> remove (lit ".json") (s ++ lit ".json") = s.
Proof.
  unfold remove.
  induction s as [|c s IH]; [reflexivity|].
  intro H. simpl in H. apply Bool.andb_true_iff in H. destruct H as [Hc Hs].
  destruct (digit_not_separator c Hc) as (_ & _ & Hdot).
  apply Bool.negb_true_iff in Hdot.
  change ((c :: s) ++ lit ".json") with (c :: (s ++ lit ".json")).
  cbn [remove_from].
  rewrite (starts_with_json_false _ _ Hdot), (IH Hs). reflexivity.
Qed.

Lemma filter_backslash_digits (s : str) :
  forallb isdigit_char s = true ->
  filter (fun c => negb (Ascii.eqb c backslash)) s = s.
Proof.
  induction s as [|c s IH]; simpl; [reflexivity|].
  intro H. apply Bool.andb_true_iff in H. destruct H as [Hc Hs].
  destruct (digit_not_separator c Hc) as (_ & Hb & _).
  rewrite Hb, (IH Hs). reflexivity.
Qed.

Lemma next_part_of_numeral_json (q : str) :
  isdigit q = true -> next_part_of (q ++ lit ".json") = q.
Proof.
  intro H. apply digits_forall in H. unfold next_part_of.
  rewrite (remove_json_suffix _ H). apply filter_backslash_digits, H.
Qed.

Lemma remove_digits (s : str) :
  forallb isdigit_char s = true -> remove (lit ".json") s = s.
Proof.
  unfold remove.
  induction s as [|c s IH]; [reflexivity|].
  intro H. simpl in H. apply Bool.andb_true_iff in H. destruct H as [Hc Hs].
  destruct (digit_not_separator c Hc) as (_ & _ & Hdot).
  apply Bool.negb_true_iff in Hdot.
  cbn [remove_from].
  rewrite (starts_with_json_false _ _ Hdot), (IH Hs). reflexivity.
Qed.

Lemma next_part_of_numeral (s : str) : isdigit s = true -> next_part_of s = s.
Proof.
  intro H. apply digits_forall in H. unfold next_part_of.
  rewrite (remove_digits _ H). apply filter_backslash_digits, H.
Qed.

Lemma is_year_digits (y : str) : is_year y = true -> isdigit y = true.
Proof.
  unfold is_year. intro H.
  repeat (apply Bool.andb_true_iff in H; destruct H as [H ?]). exact H.
Qed.

Lemma is_year_range (y : str) :
  is_year y = true -> (2018 <= int_of y <= 2024)%Z.
Proof.
  unfold is_year. intro H.
  repeat (apply Bool.andb_true_iff in H; destruct H as [H ?]). lia.
Qed.

Lemma is_quarter_range (q : str) :
  is_quarter q = true -> (1 <= int_of q <= 4)%Z.
Proof.
  unfold is_quarter. intro H.
  repeat (apply Bool.andb_true_iff in H; destruct H as [H ?]). lia.
Qed.

(** A year segment is never read as a quarter. *)
Lemma year_is_no_quarter (y : str) :
  is_year y = true -> is_quarter (next_part_of y) = false.
Proof.
  intro H. rewrite (next_part_of_numeral _ (is_year_digits _ H)).
  apply is_year_range in H.
  destruct (is_quarter y) eqn:E; [|reflexivity].
  apply is_quarter_range in E. lia.
Qed.

Lemma has_adjacent_pair_snoc (l : list str) (y : str) :
  has_adjacent_pair l = false -> is_quarter (next_part_of y) = false ->
  has_adjacent_pair (l ++ [y]) = false.
Proof.
  induction l as [|p l IH]; intros Hl Hy; [reflexivity|].
  simpl in Hl. apply Bool.orb_false_iff in Hl. destruct Hl as [Hp Hl].
  change ((p :: l) ++ [y]) with (p :: (l ++ [y])).
  cbn [has_adjacent_pair]. rewrite (IH Hl Hy), Bool.orb_false_r.
  destruct l as [|n l]; simpl.
  - rewrite Hy. apply Bool.andb_false_r.
  - exact Hp.
Qed.

(** The loop returns the leftmost adjacent pair. *)
Lemma scan_parts_first_pair (l1 l2 : list str) (y q : str) (year : option Z) :
  has_adjacent_pair (l1 ++ [y]) = false ->
  is_year y = true -> is_quarter (next_part_of q) = true ->
  scan_parts year (l1 ++ y :: q :: l2)
  = (Some (int_of y), Some (int_of (next_part_of q))).
Proof.
  intros Hl Hy Hq. revert year Hl.
  induction l1 as [|p l1 IH]; intros year Hl.
  - simpl. rewrite Hy, Hq. reflexivity.
  - change ((p :: l1) ++ [y]) with (p :: (l1 ++ [y])) in Hl.
    cbn [has_adjacent_pair] in Hl.
    apply Bool.orb_false_iff in Hl. destruct Hl as [Hp Hl].
    change ((p :: l1) ++ y :: q :: l2) with (p :: (l1 ++ y :: q :: l2)).
    cbn [scan_parts].
    destruct (is_year p) eqn:Ep; [|apply IH, Hl].
    destruct l1 as [|n l1]; simpl in Hp |- *.
    + rewrite (year_is_no_quarter _ Hy), Hy, Hq. reflexivity.
    + rewrite Hp. apply (IH _ Hl).
Qed.

Lemma scan_parts_no_year (parts : list str) (year : option Z) :
  existsb is_year parts = false -> scan_parts year parts = (year, None).
Proof.
  revert year. induction parts as [|p parts IH]; intros year H; [reflexivity|].
  simpl in H. apply Bool.orb_false_iff in H. destruct H as [Hp H].
  simpl. rewrite Hp. apply IH, H.
Qed.

Lemma scan_parts_no_pair (parts : list str) (year : option Z) :
  has_adjacent_pair parts = false -> snd (scan_parts year parts) = None.
Proof.
  revert year. induction parts as [|p parts IH]; intros year H; [reflexivity|].
  cbn [has_adjacent_pair] in H.
  apply Bool.orb_false_iff in H. destruct H as [Hp H].
  cbn [scan_parts].
  destruct (is_year p); [|apply IH, H].
  destruct parts as [|n parts]; [reflexivity|].
  simpl in Hp. rewrite Hp. apply IH, H.
Qed.

Lemma scan_parts_pair (parts : list str) (year : option Z) :
  has_adjacent_pair parts = true ->
  exists y q, scan_parts year parts = (Some y, Some q)
              /\ (2018 <= y <= 2024)%Z /\ (1 <= q <= 4)%Z.
Proof.
  revert year. induction parts as [|p parts IH]; intros year H; [discriminate|].
  cbn [has_adjacent_pair] in H. cbn [scan_parts].
  destruct (is_year p) eqn:Ep.
  - destruct parts as [|n parts]; [discriminate|].
    destruct (is_quarter (next_part_of n)) eqn:En.
    + exists (int_of p), (int_of (next_part_of n)).
      split; [reflexivity|].
      split; [apply is_year_range, Ep | apply is_quarter_range, En].
    + apply IH. exact H.
  - apply IH. destruct parts; exact H.
Qed.

Lemma replace_char_app (old new : ascii) (a b : str) :
  replace_char old new (a ++ b) = replace_char old new a ++ replace_char old new b.
Proof. apply map_app. Qed.

Lemma replace_char_cons (old new c : ascii) (s : str) :
  replace_char old new (c :: s)
  = (if Ascii.eqb c old then new else c) :: replace_char old new s.
Proof. reflexivity. Qed.

Lemma path_parts_app (pre : str) (sep : ascii) (rest : str) :
  is_separator sep = true ->
  path_parts (pre ++ sep :: rest) = path_parts pre ++ path_parts rest.
Proof.
  intro H. unfold path_parts.
  rewrite replace_char_app, replace_char_cons.
  assert (Hsep : (if Ascii.eqb sep backslash then "/"%char else sep) = "/"%char).
  { unfold is_separator in H.
    destruct (Ascii.eqb sep backslash); [reflexivity|].
    rewrite Bool.orb_false_r in H. apply Ascii.eqb_eq in H. exact H. }
  rewrite Hsep. apply split_on_app.
Qed.

Lemma path_parts_numeral (s : str) : isdigit s = true -> path_parts s = [s].
Proof.
  intro H. apply digits_forall in H. unfold path_parts.
  rewrite (replace_char_digits _ H). apply split_on_plain, digits_plain, H.
Qed.

Lemma path_parts_numeral_json (q : str) :
  isdigit q = true -> path_parts (q ++ lit ".json") = [q ++ lit ".json"].
Proof.
  intro H. apply digits_forall in H. unfold path_parts.
  rewrite replace_char_app, (replace_char_digits _ H).
  change (replace_char backslash "/"%char (lit ".json")) with (lit ".json").
  apply split_on_plain, forallb_app_true; [apply digits_plain, H | reflexivity].
Qed.




(** A year segment that no quarter follows leaves the year set: the
    function then returns [(year, None)]. *)
Lemma extract_year_quarter_year_alone :
  extract_year_quarter (lit "data/2020/summary.json") = (Some 2020%Z, None).
Proof. vm_compute. reflexivity. Qed.

End PathFacts.

(** ** The narrow cleaner *)

Section CleanerFacts.
Import PyStr Helpers.

Lemma in_lstrip (c : ascii) (s : str) : In c (lstrip s) -> In c s.
Proof.
  induction s as [|d s IH]; simpl; [trivial|].
  destruct (isspace d); [right; apply IH; assumption | trivial].
Qed.

Lemma in_rstrip (c : ascii) (s : str) : In c (rstrip s) -> In c s.
Proof.
  induction s as [|d s IH]; simpl; [trivial|].
  destruct (rstrip s) as [|e kept].
  - destruct (isspace d); simpl; tauto.
  - intros [H | H]; [left; exact H | right; apply IH; exact H].
Qed.

Lemma in_strip (c : ascii) (s : str) : In c (strip s) -> In c s.
Proof. intro H. apply in_lstrip, in_rstrip, H. Qed.

Lemma in_split_ws_from (word s w : str) (c : ascii) :
  In w (split_ws_from word s) -> In c w -> In c word \/ In c s.
Proof.
  revert word. induction s as [|d s IH]; intros word Hw Hc.
  - destruct word as [|e word]; simpl in Hw; [contradiction|].
    destruct Hw as [<- | []]. left. apply in_rev. exact Hc.
  - cbn [split_ws_from] in Hw. destruct (isspace d).
    + destruct word as [|e word].
      * destruct (IH [] Hw Hc) as [[] | H]. right; right; exact H.
      * destruct Hw as [<- | Hw].
        -- left. apply in_rev. exact Hc.
        -- destruct (IH [] Hw Hc) as [[] | H]. right; right; exact H.
    + destruct (IH (d :: word) Hw Hc) as [[<- | H] | H].
      * right; left; reflexivity.
      * left; exact H.
      * right; right; exact H.
Qed.

Lemma in_join (sep : str) (words : list str) (c : ascii) :
  In c (join sep words) -> In c sep \/ exists w, In w words /\ In c w.
Proof.
  induction words as [|w words IH]; [contradiction|].
  destruct words as [|w' words].
  - intro H. right. exists w. split; [left; reflexivity | exact H].
  - change (join sep (w :: w' :: words)) with (w ++ sep ++ join sep (w' :: words)).
    intro H. apply in_app_or in H. destruct H as [H | H].
    + right. exists w. split; [left; reflexivity | exact H].
    + apply in_app_or in H. destruct H as [H | H]; [left; exact H|].
      destruct (IH H) as [H' | (x & Hx & Hc)]; [left; exact H'|].
      right. exists x. split; [right; exact Hx | exact Hc].
Qed.

(** Every character that [clean_string] returns is a character of its
    argument or the space that joins two words. *)
Lemma clean_string_chars (s : str) (c : ascii) :
  In c (clean_string s) -> In c s \/ c = space.
Proof.
  destruct s as [|d s]; [contradiction|].
  unfold clean_string. cbv zeta. intro H.
  apply in_strip in H. apply filter_In in H. destruct H as [H _].
  apply in_join in H. destruct H as [[<- | []] | (w & Hw & Hc)].
  - right; reflexivity.
  - left. destruct (in_split_ws_from _ _ _ _ Hw Hc) as [[] | H]. exact H.
Qed.

Lemma clean_string_no_upper (s : str) : no_upper s -> no_upper (clean_string s).
Proof.
  unfold no_upper. rewrite !Forall_forall. intros H c Hc.
  destruct (clean_string_chars _ _ Hc) as [Hin | ->]; [apply H, Hin | reflexivity].
Qed.

Lemma plain_char_facts (c : ascii) :
  plain_char c = true -> isspace c = false /\ keep_char c = true.
Proof.
  destruct c as [[] [] [] [] [] [] [] []]; vm_compute;
    intro H; try discriminate H; split; reflexivity.
Qed.

Lemma split_ws_from_plain (word s : str) :
  forallb plain_char s = true ->
  split_ws_from word s
  = match rev word ++ s with [] => [] | w => [w] end.
Proof.
  revert word. induction s as [|c s IH]; intros word H.
  - simpl. rewrite app_nil_r. destruct word as [|e word]; [reflexivity|].
    destruct (rev (e :: word)) eqn:E; [|reflexivity].
    apply (f_equal (@List.length ascii)) in E. rewrite length_rev in E.
    discriminate E.
  - simpl in H. apply Bool.andb_true_iff in H. destruct H as [Hc Hs].
    destruct (plain_char_facts _ Hc) as [Hsp _].
    cbn [split_ws_from]. rewrite Hsp, (IH _ Hs).
    cbn [rev]. rewrite <- app_assoc. reflexivity.
Qed.

Lemma rstrip_plain (s : str) : forallb plain_char s = true -> rstrip s = s.
Proof.
  induction s as [|c s IH]; [reflexivity|].
  intro H. simpl in H. apply Bool.andb_true_iff in H. destruct H as [Hc Hs].
  destruct (plain_char_facts _ Hc) as [Hsp _].
  simpl. rewrite (IH Hs). destruct s; [rewrite Hsp|]; reflexivity.
Qed.

Lemma filter_keep_plain (s : str) :
  forallb plain_char s = true -> filter keep_char s = s.
Proof.
  induction s as [|c s IH]; [reflexivity|].
  intro H. simpl in H. apply Bool.andb_true_iff in H. destruct H as [Hc Hs].
  destruct (plain_char_facts _ Hc) as [_ Hk].
  simpl. rewrite Hk, (IH Hs). reflexivity.
Qed.

Lemma clean_string_plain (s : str) :
  forallb plain_char s = true -> clean_string s = s.
Proof.
  destruct s as [|c s]; [reflexivity|].
  intro H. unfold clean_string, split_ws. cbv zeta.
  rewrite (split_ws_from_plain [] _ H).
  cbn [rev app join]. rewrite (filter_keep_plain _ H).
  unfold strip. rewrite lstrip_fixed.
  - apply rstrip_plain, H.
  - simpl in H. apply Bool.andb_true_iff in H. destruct H as [Hc _].
    apply plain_char_facts in Hc. exact (proj1 Hc).
Qed.

End CleanerFacts.

(** ** Transformer *)

Section TransformFacts.
Import PyStr Helpers Transform Samples.

Lemma insert_sorted_perm (k : key) (l : list key) :
  Permutation (insert_sorted k l) (k :: l).
Proof.
  induction l as [|h t IH]; simpl; [apply Permutation_refl|].
  destruct (key_leb k h); [apply Permutation_refl|].
  eapply Permutation_trans; [apply perm_skip, IH | apply perm_swap].
Qed.

Lemma sort_keys_perm (l : list key) : Permutation (sort_keys l) l.
Proof.
  induction l as [|k l IH]; simpl; [apply perm_nil|].
  eapply Permutation_trans; [apply insert_sorted_perm | apply perm_skip, IH].
Qed.

Lemma group_keys_nodup (df : list AggTx.row) : NoDup (group_keys df).
Proof.
  unfold group_keys.
  eapply Permutation_NoDup;
    [apply Permutation_sym, sort_keys_perm | apply NoDup_nodup].
Qed.

Lemma nodup_map_injective {A B} (f : A -> B) (l : list A) :
  (forall x y, f x = f y -> x = y) -> NoDup l -> NoDup (map f l).
Proof.
  intros Hf H. induction H as [|x l Hx Hl IH]; simpl; constructor; [|exact IH].
  intro Hin. apply in_map_iff in Hin. destruct Hin as (y & Hy & Hin).
  apply Hf in Hy. subst y. exact (Hx Hin).
Qed.

Lemma groupby_sum_keys (df : list AggTx.row) :
  map aggregated_transaction_key (groupby_sum df)
  = map (fun k : key =>
           let '(s, y, q, t) := k in (Some s, Some y, Some q, Some t))
        (group_keys df).
Proof.
  unfold groupby_sum. rewrite map_map. apply map_ext.
  intros [[[s y] q] t]. reflexivity.
Qed.

Lemma groupby_sum_unique (df : list AggTx.row) :
  NoDup (map aggregated_transaction_key (groupby_sum df)).
Proof.
  rewrite groupby_sum_keys. apply nodup_map_injective; [|apply group_keys_nodup].
  intros [[[s y] q] t] [[[s' y'] q'] t'] H. congruence.
Qed.

(** C7.  The two Recharge rows of the first quarter of 2023, one per
    payment mode, are transformed into the one row that carries the
    title-cased state and the sums 15 and 150. *)
Theorem transform_aggregated_transactions_recharge :
  transform_aggregated_transactions
    [ {| AggTx.state := Some (lit "india");
         AggTx.year := Some 2023%Z;
         AggTx.quarter := Some 1%Z;
         AggTx.transaction_type := Some (lit "Recharge");
         AggTx.payment_mode := Some (Some (lit "A"));
         AggTx.transaction_count := Some 10%Z;
         AggTx.transaction_amount := Some 100%Z |};
      {| AggTx.state := Some (lit "india");
         AggTx.year := Some 2023%Z;
         AggTx.quarter := Some 1%Z;
         AggTx.transaction_type := Some (lit "Recharge");
         AggTx.payment_mode := Some (Some (lit "B"));
         AggTx.transaction_count := Some 5%Z;
         AggTx.transaction_amount := Some 50%Z |} ]
  = [ {| AggTx.state := Some (lit "India");
         AggTx.year := Some 2023%Z;
         AggTx.quarter := Some 1%Z;
         AggTx.transaction_type := Some (lit "Recharge");
         AggTx.payment_mode := None;
         AggTx.transaction_count := Some 15%Z;
         AggTx.transaction_amount := Some 150%Z |} ].
Proof. vm_compute. reflexivity. Qed.


Lemma filter_all {A} (p : A -> bool) (l : list A) :
  (forall x, In x l -> p x = true) -> filter p l = l.
Proof.
  induction l as [|x l IH]; intro H; [reflexivity|].
  simpl. rewrite (H x (or_introl eq_refl)), IH; [reflexivity|].
  intros y Hy. apply H. right. exact Hy.
Qed.

(** C5 as stated fails.  A hover item without a name is extracted with
    an empty state, and the transformer returns that row, state still
    empty. *)
Lemma transform_map_transactions_keeps_empty_state :
  Extract.extract_map_transactions nameless_tree = Ok nameless_records
  /\ frame_of_map_transactions integers_only nameless_records = [nameless_row]
  /\ transform_map_transactions [nameless_row] = [nameless_row]
  /\ MapTx.state nameless_row = Some [].
Proof.
  repeat split; vm_compute; reflexivity.
Qed.

End TransformFacts.

(** ** Entity names of the top-N frames *)

Section EntityNameFacts.
Import PyStr Helpers Transform.

Lemma map_filter_map {A B C} (f : A -> B) (p : B -> bool) (g : B -> C)
  (l : list A) :
  map g (filter p (map f l))
  = map (fun x => g (f x)) (filter (fun x => p (f x)) l).
Proof.
  induction l as [|x l IH]; [reflexivity|].
  simpl. destruct (p (f x)); simpl; rewrite IH; reflexivity.
Qed.

Lemma transform_top_transactions_names (df : list TopTx.row) :
  map (fun r => (TopTx.entity_type r, TopTx.entity_name r))
      (transform_top_transactions df)
  = map (fun r => (str_lower (TopTx.entity_type r),
                   apply_text clean_string (TopTx.entity_name r)))
        (filter (fun r => notna (TopTx.entity_type r)) df).
Proof.
  unfold transform_top_transactions. destruct df as [|r0 df]; [reflexivity|].
  cbv zeta. rewrite !map_map, map_filter_map.
  rewrite (filter_ext _ (fun r => notna (TopTx.entity_type r))).
  - apply map_ext. intro r. reflexivity.
  - intro r. cbn.
    destruct (TopTx.state r), (TopTx.year r), (TopTx.quarter r),
      (TopTx.entity_type r), (TopTx.entity_name r); reflexivity.
Qed.

Lemma transform_top_users_names (df : list TopUser.row) :
  map (fun r => (TopUser.entity_type r, TopUser.entity_name r))
      (transform_top_users df)
  = map (fun r => (str_lower (TopUser.entity_type r),
                   apply_text clean_string (TopUser.entity_name r)))
        (filter (fun r => notna (TopUser.entity_type r)) df).
Proof.
  unfold transform_top_users. destruct df as [|r0 df]; [reflexivity|].
  cbv zeta. rewrite !map_map, map_filter_map.
  rewrite (filter_ext _ (fun r => notna (TopUser.entity_type r))).
  - apply map_ext. intro r. reflexivity.
  - intro r. cbn.
    destruct (TopUser.state r), (TopUser.year r), (TopUser.quarter r),
      (TopUser.entity_type r), (TopUser.entity_name r); reflexivity.
Qed.

(** C4, amended.  Both top-N transformers return, for the rows that have
    an entity type (pincode rows included), the entity type lower-cased
    and the entity name passed through [clean_string]; every character of
    a cleaned name is a character of the name or a joining space, so no
    letter changes case; and a name made of letters, digits, underscores
    and hyphens only, such as a numeric pincode, is returned verbatim. *)
Theorem transform_top_entity_names_cleaned :
  (forall df : list TopTx.row,
      map (fun r => (TopTx.entity_type r, TopTx.entity_name r))
          (transform_top_transactions df)
      = map (fun r => (str_lower (TopTx.entity_type r),
                       apply_text clean_string (TopTx.entity_name r)))
            (filter (fun r => notna (TopTx.entity_type r)) df))
  /\ (forall df : list TopUser.row,
         map (fun r => (TopUser.entity_type r, TopUser.entity_name r))
             (transform_top_users df)
         = map (fun r => (str_lower (TopUser.entity_type r),
                          apply_text clean_string (TopUser.entity_name r)))
               (filter (fun r => notna (TopUser.entity_type r)) df))
  /\ (forall (name : str) (c : ascii),
         In c (clean_string name) -> In c name \/ c = space)
  /\ (forall name : str,
         forallb plain_char name = true -> clean_string name = name).
Proof.
  split; [exact transform_top_transactions_names|].
  split; [exact transform_top_users_names|].
  split; [exact clean_string_chars | exact clean_string_plain].
Qed.

Lemma transform_top_entity_names_cleaned_witness :
  clean_string (lit "560001") = lit "560001"
  /\ (In "5"%char (clean_string (lit "560 001")) ->
      In "5"%char (lit "560 001") \/ "5"%char = space).
Proof.
  split.
  - exact (proj2 (proj2 (proj2 transform_top_entity_names_cleaned))
             (lit "560001") eq_refl).
  - exact (proj1 (proj2 (proj2 transform_top_entity_names_cleaned))
             (lit "560 001") "5"%char).
Defined.

(** C4 as stated fails: the name of a pincode row is cleaned like any
    other, here losing its dot. *)
Lemma transform_top_pincode_name_altered :
  map TopTx.entity_name
      (transform_top_transactions
         [ {| TopTx.state := Some (lit "india");
              TopTx.year := Some 2023%Z;
              TopTx.quarter := Some 1%Z;
              TopTx.entity_type := Some (lit "pincode");
              TopTx.entity_name := Some (lit "560001.0");
              TopTx.transaction_count := Some 9%Z;
              TopTx.transaction_amount := Some 90%Z |} ])
  = [ Some (lit "5600010") ]
  /\ map TopUser.entity_name
       (transform_top_users
          [ {| TopUser.state := Some (lit "india");
               TopUser.year := Some 2023%Z;
               TopUser.quarter := Some 1%Z;
               TopUser.entity_type := Some (lit "pincode");
               TopUser.entity_name := Some (lit "560001.0");
               TopUser.registered_users := Some 9%Z |} ])
     = [ Some (lit "5600010") ]
  /\ lit "5600010" <> lit "560001.0".
Proof.
  split; [vm_compute; reflexivity|].
  split; [vm_compute; reflexivity|].
  vm_compute. discriminate.
Qed.

End EntityNameFacts.

(** ** RecordExtractors: skipped documents *)

Section SkipFacts.
Import PyStr PyVal Helpers Extract Samples.

Lemma bind_ok_inv {A B} (m : result A) (k : A -> result B) (b : B) :
  bind m k = Ok b -> exists a, m = Ok a /\ k a = Ok b.
Proof.
  destruct m as [a|e]; simpl; [|discriminate].
  intro H. exists a. split; [reflexivity | exact H].
Qed.

Lemma bind_ret {A} (m : result A) : bind m (fun a => Ok a) = m.
Proof. destruct m; reflexivity. Qed.

(** An element whose body produces no record and raises nothing can be
    taken out of the loop. *)
Lemma for_each_skip {A B} (body : A -> result (list B)) (l1 l2 : list A) (a : A) :
  body a = Ok [] -> for_each body (l1 ++ a :: l2) = for_each body (l1 ++ l2).
Proof.
  intro H. induction l1 as [|x l1 IH]; simpl.
  - rewrite H. simpl. apply bind_ret.
  - rewrite IH. reflexivity.
Qed.

Lemma for_each_replace {A B} (body : A -> result (list B)) (l1 l2 : list A)
  (a a' : A) :
  body a = body a' ->
  for_each body (l1 ++ a :: l2) = for_each body (l1 ++ a' :: l2).
Proof.
  intro H. induction l1 as [|x l1 IH]; simpl.
  - rewrite H. reflexivity.
  - rewrite IH. reflexivity.
Qed.

(** The shared loop header leaves a skipped document out, whatever the
    body of the dataset is. *)
Lemma for_json_files_skip {R} (body : Z -> Z -> json -> result (list R))
  (files1 files2 : list file) (f : file) :
  skipped_document (parsed f) = true ->
  for_json_files body (files1 ++ f :: files2)
  = for_json_files body (files1 ++ files2).
Proof.
  intro H. unfold for_json_files. apply for_each_skip.
  destruct (extract_year_quarter (file_path f)) as [year quarter].
  destruct (not_coordinate year || not_coordinate quarter); [reflexivity|].
  destruct year as [year|]; [|reflexivity].
  destruct quarter as [quarter|]; [|reflexivity].
  unfold load_json_file, skipped_document in *.
  destruct (parsed f) as [[| | | | |fields]|]; try discriminate H.
  - unfold get. cbn [bind].
    destruct (falsy (dict_get fields (lit "success") JNull));
      [reflexivity|].
    cbn [orb] in H. rewrite H. reflexivity.
  - reflexivity.
Qed.

Lemma for_state_dirs_skip {R} (body : str -> Z -> Z -> json -> result (list R))
  (dirs1 dirs2 : list (str * option (list file))) (state_dir : str)
  (files1 files2 : list file) (f : file) :
  skipped_document (parsed f) = true ->
  for_state_dirs body (dirs1 ++ (state_dir, Some (files1 ++ f :: files2)) :: dirs2)
  = for_state_dirs body (dirs1 ++ (state_dir, Some (files1 ++ files2)) :: dirs2).
Proof.
  intro H. unfold for_state_dirs. apply for_each_replace.
  simpl. apply for_json_files_skip, H.
Qed.



End SkipFacts.

(** ** Letter case of the names that reach the tables *)

Section CaseFacts.
Import PyStr PyVal Helpers Extract Transform.

Lemma no_upper_lower (s : str) : no_upper (lower s).
Proof.
  unfold no_upper, lower. apply Forall_forall. intros c Hc.
  apply in_map_iff in Hc. destruct Hc as (d & <- & _).
  apply lower_char_not_upper.
Qed.

Lemma lower_of_no_upper (v : json) (s : str) : lower_of v = Ok s -> no_upper s.
Proof.
  destruct v; simpl; try discriminate.
  intro H. injection H as <-. apply no_upper_lower.
Qed.

Lemma title_normalize_state_name (s : str) :
  title (normalize_state_name s) = normalize_state_name s.
Proof.
  destruct s as [|c s]; [reflexivity|].
  unfold normalize_state_name, title. cbv zeta. apply title_from_idempotent.
Qed.

(** What holds of the records of every element holds of the records of
    the loop. *)
Lemma for_each_forall {A B} (P : B -> Prop) (body : A -> result (list B))
  (l : list A) (rows : list B) :
  (forall a records, In a l -> body a = Ok records -> Forall P records) ->
  for_each body l = Ok rows -> Forall P rows.
Proof.
  revert rows. induction l as [|a l IH]; intros rows Hbody H.
  - injection H as <-. constructor.
  - simpl in H.
    apply bind_ok_inv in H. destruct H as (records & Ha & H).
    apply bind_ok_inv in H. destruct H as (more & Hl & H).
    injection H as <-. apply Forall_app. split.
    + apply (Hbody a); [left; reflexivity | exact Ha].
    + apply IH; [|exact Hl].
      intros x rs Hx. apply Hbody. right. exact Hx.
Qed.

Lemma for_json_files_forall {R} (P : R -> Prop)
  (body : Z -> Z -> json -> result (list R)) (files : list file)
  (rows : list R) :
  (forall year quarter data records,
      body year quarter data = Ok records -> Forall P records) ->
  for_json_files body files = Ok rows -> Forall P rows.
Proof.
  intros Hbody. unfold for_json_files. apply for_each_forall.
  intros f records _.
  destruct (extract_year_quarter (file_path f)) as [year quarter].
  destruct (not_coordinate year || not_coordinate quarter);
    [intro H; injection H as <-; constructor|].
  destruct year as [year|]; [|intro H; injection H as <-; constructor].
  destruct quarter as [quarter|]; [|intro H; injection H as <-; constructor].
  intro H.
  apply bind_ok_inv in H. destruct H as (success & _ & H).
  destruct (falsy success); [injection H as <-; constructor|].
  apply bind_ok_inv in H. destruct H as (payload & _ & H).
  destruct (falsy payload); [injection H as <-; constructor|].
  exact (Hbody _ _ _ _ H).
Qed.

Lemma two_passes_forall {R} (P : R -> Prop)
  (country : Z -> Z -> json -> result (list R))
  (state : str -> Z -> Z -> json -> result (list R))
  (tree : hover_tree) (rows : list R) :
  (forall year quarter data records,
      country year quarter data = Ok records -> Forall P records) ->
  (forall state_dir year quarter data records,
      state state_dir year quarter data = Ok records -> Forall P records) ->
  two_passes country state tree = Ok rows -> Forall P rows.
Proof.
  intros Hc Hs H. unfold two_passes in H.
  apply bind_ok_inv in H. destruct H as (first & H1 & H).
  apply bind_ok_inv in H. destruct H as (second & H2 & H).
  injection H as <-. apply Forall_app. split.
  - destruct (country_files tree) as [files|].
    + exact (for_json_files_forall P _ _ _ Hc H1).
    + injection H1 as <-. constructor.
  - destruct (state_entries tree) as [entries|].
    + unfold for_state_dirs in H2.
      refine (for_each_forall P _ _ second _ H2).
      intros [state_dir [files|]] records _ H; simpl in H.
      * exact (for_json_files_forall P _ _ _ (Hs state_dir) H).
      * injection H as <-. constructor.
    + injection H2 as <-. constructor.
Qed.

(** *** The extracted names *)

Lemma map_transactions_of_lower (state_of : str -> str) (year quarter : Z)
  (data : json) (records : list map_transaction) :
  map_transactions_of state_of year quarter data = Ok records ->
  Forall (fun r => no_upper (mt_district r)) records.
Proof.
  unfold map_transactions_of. intro H.
  apply bind_ok_inv in H. destruct H as (payload & _ & H).
  apply bind_ok_inv in H. destruct H as (hover_data & _ & H).
  apply bind_ok_inv in H. destruct H as (items & _ & H).
  refine (for_each_forall _ _ _ records _ H).
  intros item rs _ Hi.
  apply bind_ok_inv in Hi. destruct Hi as (name & _ & Hi).
  apply bind_ok_inv in Hi. destruct Hi as (lowered_name & Hname & Hi).
  apply bind_ok_inv in Hi. destruct Hi as (metrics & _ & Hi).
  apply bind_ok_inv in Hi. destruct Hi as (metric_list & _ & Hi).
  refine (for_each_forall _ _ _ rs _ Hi).
  intros metric ms _ Hm.
  apply bind_ok_inv in Hm. destruct Hm as (count & _ & Hm).
  apply bind_ok_inv in Hm. destruct Hm as (amount & _ & Hm).
  injection Hm as <-. constructor; [|constructor].
  simpl. exact (lower_of_no_upper _ _ Hname).
Qed.

Lemma map_users_of_lower (state_of : str -> str) (year quarter : Z)
  (data : json) (records : list map_user) :
  map_users_of state_of year quarter data = Ok records ->
  Forall (fun r => no_upper (mu_district r)) records.
Proof.
  unfold map_users_of. intro H.
  apply bind_ok_inv in H. destruct H as (payload & _ & H).
  apply bind_ok_inv in H. destruct H as (hover_data & _ & H).
  apply bind_ok_inv in H. destruct H as (entries & _ & H).
  refine (for_each_forall _ _ _ records _ H).
  intros entry rs _ He.
  apply bind_ok_inv in He. destruct He as (registered & _ & He).
  apply bind_ok_inv in He. destruct He as (opens & _ & He).
  injection He as <-. constructor; [|constructor].
  simpl. apply no_upper_lower.
Qed.

Lemma top_transactions_bucket_lower (bucket entity_type : str)
  (name_of : json -> result str) (year quarter : Z) (data_obj : json)
  (records : list top_transaction) :
  (entity_type = lit "pincode"
   \/ (lower entity_type <> lit "pincode"
       /\ forall v s, name_of v = Ok s -> no_upper s)) ->
  top_transactions_bucket bucket entity_type name_of year quarter data_obj
  = Ok records ->
  Forall (fun r => lowered_unless_pincode (tt_entity_type r) (tt_entity_name r))
         records.
Proof.
  intros Hn H. unfold top_transactions_bucket in H.
  apply bind_ok_inv in H. destruct H as (listed & _ & H).
  apply bind_ok_inv in H. destruct H as (items & _ & H).
  refine (for_each_forall _ _ _ records _ H).
  intros item rs _ Hi.
  destruct (falsy item); [injection Hi as <-; constructor|].
  apply bind_ok_inv in Hi. destruct Hi as (entity_name & _ & Hi).
  apply bind_ok_inv in Hi. destruct Hi as (metric & _ & Hi).
  apply bind_ok_inv in Hi. destruct Hi as (name & Hname & Hi).
  apply bind_ok_inv in Hi. destruct Hi as (count & _ & Hi).
  apply bind_ok_inv in Hi. destruct Hi as (amount & _ & Hi).
  injection Hi as <-. constructor; [|constructor].
  unfold lowered_unless_pincode. simpl.
  destruct Hn as [-> | [Ht Hn]]; [left; reflexivity|].
  right. split; [exact Ht | exact (Hn _ _ Hname)].
Qed.

Lemma top_users_bucket_lower (bucket entity_type : str)
  (name_of : json -> result str) (year quarter : Z) (data_obj : json)
  (records : list top_user) :
  (entity_type = lit "pincode"
   \/ (lower entity_type <> lit "pincode"
       /\ forall v s, name_of v = Ok s -> no_upper s)) ->
  top_users_bucket bucket entity_type name_of year quarter data_obj
  = Ok records ->
  Forall (fun r => lowered_unless_pincode (tu_entity_type r) (tu_entity_name r))
         records.
Proof.
  intros Hn H. unfold top_users_bucket in H.
  apply bind_ok_inv in H. destruct H as (listed & _ & H).
  apply bind_ok_inv in H. destruct H as (items & _ & H).
  refine (for_each_forall _ _ _ records _ H).
  intros item rs _ Hi.
  destruct (falsy item); [injection Hi as <-; constructor|].
  apply bind_ok_inv in Hi. destruct Hi as (raw_name & _ & Hi).
  apply bind_ok_inv in Hi. destruct Hi as (name & Hname & Hi).
  apply bind_ok_inv in Hi. destruct Hi as (registered & _ & Hi).
  injection Hi as <-. constructor; [|constructor].
  unfold lowered_unless_pincode. simpl.
  destruct Hn as [-> | [Ht Hn]]; [left; reflexivity|].
  right. split; [exact Ht | exact (Hn _ _ Hname)].
Qed.

Lemma lowering_bucket (entity_type : str) :
  lower entity_type <> lit "pincode" ->
  entity_type = lit "pincode"
  \/ (lower entity_type <> lit "pincode"
      /\ forall v s, lower_of v = Ok s -> no_upper s).
Proof.
  intro H. right. split; [exact H | exact lower_of_no_upper].
Qed.

Lemma top_transactions_of_lower (py_str : json -> str) (year quarter : Z)
  (data : json) (records : list top_transaction) :
  top_transactions_of py_str year quarter data = Ok records ->
  Forall (fun r => lowered_unless_pincode (tt_entity_type r) (tt_entity_name r))
         records.
Proof.
  unfold top_transactions_of. intro H.
  apply bind_ok_inv in H. destruct H as (data_obj & _ & H).
  destruct (falsy data_obj); [injection H as <-; constructor|].
  apply bind_ok_inv in H. destruct H as (states & Hs & H).
  apply bind_ok_inv in H. destruct H as (districts & Hd & H).
  apply bind_ok_inv in H. destruct H as (pincodes & Hp & H).
  injection H as <-. repeat (apply Forall_app; split).
  - apply (top_transactions_bucket_lower _ _ _ _ _ _ _
             (lowering_bucket (lit "state") ltac:(vm_compute; discriminate)) Hs).
  - apply (top_transactions_bucket_lower _ _ _ _ _ _ _
             (lowering_bucket (lit "district") ltac:(vm_compute; discriminate)) Hd).
  - apply (top_transactions_bucket_lower _ _ _ _ _ _ _ (or_introl eq_refl) Hp).
Qed.

Lemma top_users_of_lower (py_str : json -> str) (year quarter : Z)
  (data : json) (records : list top_user) :
  top_users_of py_str year quarter data = Ok records ->
  Forall (fun r => lowered_unless_pincode (tu_entity_type r) (tu_entity_name r))
         records.
Proof.
  unfold top_users_of. intro H.
  apply bind_ok_inv in H. destruct H as (data_obj & _ & H).
  destruct (falsy data_obj); [injection H as <-; constructor|].
  apply bind_ok_inv in H. destruct H as (states & Hs & H).
  apply bind_ok_inv in H. destruct H as (districts & Hd & H).
  apply bind_ok_inv in H. destruct H as (pincodes & Hp & H).
  injection H as <-. repeat (apply Forall_app; split).
  - apply (top_users_bucket_lower _ _ _ _ _ _ _
             (lowering_bucket (lit "state") ltac:(vm_compute; discriminate)) Hs).
  - apply (top_users_bucket_lower _ _ _ _ _ _ _
             (lowering_bucket (lit "district") ltac:(vm_compute; discriminate)) Hd).
  - apply (top_users_bucket_lower _ _ _ _ _ _ _ (or_introl eq_refl) Hp).
Qed.

End CaseFacts.

(** ** Names and states of the rows that the pipeline produces *)

Section PipelineFacts.
Import PyStr PyVal Helpers Extract Transform Samples.

Lemma filter_true {A} (l : list A) : filter (fun _ => true) l = l.
Proof. apply filter_all. reflexivity. Qed.

Lemma transform_map_transactions_cells (df : list MapTx.row) :
  map (fun r => (MapTx.state r, MapTx.district r))
      (transform_map_transactions df)
  = map (fun r => (apply_text normalize_state_name (MapTx.state r),
                   apply_text clean_string (MapTx.district r))) df.
Proof.
  unfold transform_map_transactions. destruct df as [|r0 df]; [reflexivity|].
  cbv zeta. rewrite !map_map, map_filter_map.
  rewrite (filter_ext _ (fun _ => true)), filter_true.
  - apply map_ext. intro r. reflexivity.
  - intro r. cbn.
    destruct (MapTx.state r), (MapTx.year r), (MapTx.quarter r); reflexivity.
Qed.

Lemma transform_map_users_cells (df : list MapUser.row) :
  map (fun r => (MapUser.state r, MapUser.district r))
      (transform_map_users df)
  = map (fun r => (apply_text normalize_state_name (MapUser.state r),
                   apply_text clean_string (MapUser.district r))) df.
Proof.
  unfold transform_map_users. destruct df as [|r0 df]; [reflexivity|].
  cbv zeta. rewrite !map_map, map_filter_map.
  rewrite (filter_ext _ (fun _ => true)), filter_true.
  - apply map_ext. intro r. reflexivity.
  - intro r. cbn.
    destruct (MapUser.state r), (MapUser.year r), (MapUser.quarter r);
      reflexivity.
Qed.

Lemma transform_top_transactions_cells (df : list TopTx.row) :
  map (fun r => (TopTx.state r, TopTx.entity_type r, TopTx.entity_name r))
      (transform_top_transactions df)
  = map (fun r => (apply_text normalize_state_name (TopTx.state r),
                   str_lower (TopTx.entity_type r),
                   apply_text clean_string (TopTx.entity_name r)))
        (filter (fun r => notna (TopTx.entity_type r)) df).
Proof.
  unfold transform_top_transactions. destruct df as [|r0 df]; [reflexivity|].
  cbv zeta. rewrite !map_map, map_filter_map.
  rewrite (filter_ext _ (fun r => notna (TopTx.entity_type r))).
  - apply map_ext. intro r. reflexivity.
  - intro r. cbn.
    destruct (TopTx.state r), (TopTx.year r), (TopTx.quarter r),
      (TopTx.entity_type r), (TopTx.entity_name r); reflexivity.
Qed.

Lemma transform_top_users_cells (df : list TopUser.row) :
  map (fun r => (TopUser.state r, TopUser.entity_type r, TopUser.entity_name r))
      (transform_top_users df)
  = map (fun r => (apply_text normalize_state_name (TopUser.state r),
                   str_lower (TopUser.entity_type r),
                   apply_text clean_string (TopUser.entity_name r)))
        (filter (fun r => notna (TopUser.entity_type r)) df).
Proof.
  unfold transform_top_users. destruct df as [|r0 df]; [reflexivity|].
  cbv zeta. rewrite !map_map, map_filter_map.
  rewrite (filter_ext _ (fun r => notna (TopUser.entity_type r))).
  - apply map_ext. intro r. reflexivity.
  - intro r. cbn.
    destruct (TopUser.state r), (TopUser.year r), (TopUser.quarter r),
      (TopUser.entity_type r), (TopUser.entity_name r); reflexivity.
Qed.



End PipelineFacts.

(** ** Loader *)

Section LoaderFacts.
Import Transform Loader Samples.
Local Open Scope loader_scope.

(** *** The batch of one dataset *)

(** When the sink refuses the batch, at a tuple or at the commit, the
    insert function rolls the whole batch back, logs the failure and
    returns normally. *)
Lemma insert_frame_rolls_back {R} (server : sink) (t : table)
  (no_data inserted failed : string) (tuple_of : R -> result record)
  (df : list R) (records : list record) (st : state) :
  df <> [] ->
  tuples tuple_of df = Ok records ->
  connected st = true ->
  write_fails server t records = true ->
  insert_frame server t no_data inserted failed tuple_of df Connection st
  = (Ok tt,
     {| committed := committed st; working := committed st;
        connected := true; connection_var := connection_var st;
        log := log st ++ [(ERROR, failed)] |}).
Proof.
  intros Hdf Ht Hc Hw.
  destruct df as [|row df]; [contradiction|].
  unfold insert_frame, mbind, try_finally, try_except_Error, cursor, lift,
    executemany, commit, ret.
  rewrite Hc, Ht. unfold write_fails in Hw.
  destruct (rejects server t) as [i|].
  - destruct (i <? List.length records)%nat.
    + unfold logger, rollback, set_working. cbn. rewrite Hc. reflexivity.
    + cbn in Hw. cbn. rewrite Hw.
      unfold logger, rollback, set_working. cbn. rewrite Hc. reflexivity.
  - cbn in Hw. cbn. rewrite Hw.
    unfold logger, rollback, set_working. cbn. rewrite Hc. reflexivity.
Qed.


(** *** The connection of the run *)

Lemma keeps_ret {A} (a : A) : keeps_connection (ret a).
Proof. intro st. split; reflexivity. Qed.

Lemma keeps_raise {A} (e : exn) : keeps_connection (@raise A e).
Proof. intro st. split; reflexivity. Qed.

Lemma keeps_lift {A} (r : result A) : keeps_connection (lift r).
Proof. intro st. split; reflexivity. Qed.

Lemma keeps_logger (lv : level) (message : string) :
  keeps_connection (logger lv message).
Proof. intro st. split; reflexivity. Qed.

Lemma keeps_mbind {A B} (m : M A) (k : A -> M B) :
  keeps_connection m -> (forall a, keeps_connection (k a)) ->
  keeps_connection (mbind m k).
Proof.
  intros Hm Hk st. unfold mbind.
  specialize (Hm st). destruct (m st) as [[a|e] st']; simpl in Hm.
  - destruct (Hk a st') as [H1 H2]. destruct Hm as [H3 H4].
    split; congruence.
  - exact Hm.
Qed.

Lemma keeps_try_except {A} (body handler : M A) :
  keeps_connection body -> keeps_connection handler ->
  keeps_connection (try_except_Error body handler).
Proof.
  intros Hb Hh st. unfold try_except_Error.
  specialize (Hb st). destruct (body st) as [[a|e] st']; simpl in Hb.
  - exact Hb.
  - destruct e; try exact Hb.
    destruct (Hh st') as [H1 H2]. destruct Hb as [H3 H4]. split; congruence.
Qed.

Lemma keeps_try_finally {A} (body : M A) (final : M unit) :
  keeps_connection body -> keeps_connection final ->
  keeps_connection (try_finally body final).
Proof.
  intros Hb Hf st. unfold try_finally.
  specialize (Hb st). destruct (body st) as [outcome st']; simpl in Hb.
  specialize (Hf st'). destruct Hb as [H3 H4].
  destruct (final st') as [[u|e] st'']; simpl in Hf; destruct Hf as [H1 H2];
    split; simpl; congruence.
Qed.

Lemma keeps_cursor (c : pyconn) : keeps_connection (cursor c).
Proof.
  intro st. unfold cursor. destruct c; [split; reflexivity|].
  destruct (connected st) eqn:E; simpl; rewrite E; split; reflexivity.
Qed.

Lemma keeps_executemany (server : sink) (t : table) (records : list record) :
  keeps_connection (executemany server t records).
Proof.
  intro st. unfold executemany.
  destruct (rejects server t) as [i|]; [destruct (i <? _)%nat|];
    split; reflexivity.
Qed.

Lemma keeps_commit (server : sink) (t : table) :
  keeps_connection (commit server t).
Proof.
  intro st. unfold commit. destruct (commit_fails server t); split; reflexivity.
Qed.

Lemma keeps_rollback : keeps_connection rollback.
Proof. intro st. split; reflexivity. Qed.

Lemma keeps_insert_frame {R} (server : sink) (t : table)
  (no_data inserted failed : string) (tuple_of : R -> result record)
  (df : list R) (c : pyconn) :
  keeps_connection (insert_frame server t no_data inserted failed tuple_of df c).
Proof.
  unfold insert_frame. destruct df as [|row df]; [apply keeps_logger|].
  apply keeps_mbind; [apply keeps_cursor|]. intros _.
  apply keeps_try_finally; [|apply keeps_ret].
  apply keeps_try_except.
  - apply keeps_mbind; [apply keeps_lift|]. intro records.
    apply keeps_mbind; [apply keeps_executemany|]. intros _.
    apply keeps_mbind; [apply keeps_commit|]. intros _.
    apply keeps_logger.
  - apply keeps_mbind; [apply keeps_logger|]. intros _. apply keeps_rollback.
Qed.

Lemma keeps_when_present {R} (frame : option (list R))
  (insert : list R -> pyconn -> M unit) (c : pyconn) :
  (forall df, keeps_connection (insert df c)) ->
  keeps_connection (when_present frame insert c).
Proof.
  intro H. unfold when_present. destruct frame; [apply H | apply keeps_ret].
Qed.

Lemma try_except_after {A} (body handler : M A) :
  keeps_connection handler ->
  forall st,
    connected (snd (try_except_Error body handler st))
    = connected (snd (body st))
    /\ connection_var (snd (try_except_Error body handler st))
       = connection_var (snd (body st)).
Proof.
  intros Hh st. unfold try_except_Error.
  destruct (body st) as [[a|e] st']; [split; reflexivity|].
  destruct e; try (split; reflexivity). apply Hh.
Qed.

Lemma get_db_connection_accepted (server : sink) (alive : bool) (st : state) :
  connect server = Accepted alive ->
  exists lg,
    get_db_connection server st
    = (Ok (if alive then Connection else NoneValue),
       {| committed := committed st; working := committed st;
          connected := alive; connection_var := connection_var st;
          log := lg |}).
Proof.
  intro Hc. unfold get_db_connection. rewrite Hc.
  destruct alive; eexists; reflexivity.
Qed.

(** The six inserts, run on whatever [connection] is bound to. *)
Lemma keeps_insert_datasets (server : sink) (transformed_data : transformed)
  (c : pyconn) :
  keeps_connection (insert_datasets server transformed_data c).
Proof.
  unfold insert_datasets.
  repeat (apply keeps_mbind;
          [apply keeps_when_present; intro; apply keeps_insert_frame|];
          intros _).
  apply keeps_when_present; intro; apply keeps_insert_frame.
Qed.

Local Abbreviation try_block server transformed_data :=
  (try_except_Error
     (connection <-- get_db_connection server ;;
      bind_connection connection ;;;
      insert_datasets server transformed_data connection ;;;
      logger INFO "Database insertion completed successfully!")
     (logger ERROR "Database insertion failed" ;;; raise Error)).

(** Where the [finally] block of [insert_all_data] starts when the
    connection attempt has returned: the connection is as the attempt
    left it and [connection] is bound to what [get_db_connection]
    returned. *)
Lemma insert_all_data_before_release (server : sink)
  (transformed_data : transformed) (alive : bool) (st : state) :
  connect server = Accepted alive ->
  connected (snd (try_block server transformed_data st)) = alive
  /\ connection_var (snd (try_block server transformed_data st))
     = Some (if alive then Connection else NoneValue).
Proof.
  intros Hc.
  destruct (try_except_after
              (connection <-- get_db_connection server ;;
               bind_connection connection ;;;
               insert_datasets server transformed_data connection ;;;
               logger INFO "Database insertion completed successfully!")
              (logger ERROR "Database insertion failed" ;;; raise Error)
              (keeps_mbind _ _ (keeps_logger ERROR _)
                 (fun _ => keeps_raise Error)) st) as [-> ->].
  destruct (get_db_connection_accepted server alive st Hc) as (lg & Hget).
  assert (Hk : forall c, keeps_connection
                           (insert_datasets server transformed_data c ;;;
                            logger INFO "Database insertion completed successfully!")).
  { intro c. apply keeps_mbind; [apply keeps_insert_datasets|].
    intros _. apply keeps_logger. }
  split.
  - unfold mbind at 1. rewrite Hget.
    unfold mbind at 1, bind_connection. cbv beta iota.
    etransitivity; [apply (fun s => proj1 (Hk _ s)) | reflexivity].
  - unfold mbind at 1. rewrite Hget.
    unfold mbind at 1, bind_connection. cbv beta iota.
    etransitivity; [apply (fun s => proj2 (Hk _ s)) | reflexivity].
Qed.

(** A batch whose tuples can be built never makes the insert function
    raise, whatever the sink does to the write and to the commit. *)
Lemma insert_frame_returns {R} (server : sink) (t : table)
  (no_data inserted failed : string) (tuple_of : R -> result record)
  (df : list R) (st : state) :
  (exists records, tuples tuple_of df = Ok records) ->
  connected st = true ->
  fst (insert_frame server t no_data inserted failed tuple_of df Connection st)
  = Ok tt.
Proof.
  intros (records & Ht) Hc.
  destruct df as [|row df]; [reflexivity|].
  unfold insert_frame, mbind, try_finally, try_except_Error, cursor, lift,
    executemany, commit, ret.
  rewrite Hc, Ht.
  destruct (rejects server t) as [i|];
    [destruct (i <? List.length records)%nat|];
    cbn; try reflexivity;
    destruct (commit_fails server t); reflexivity.
Qed.

(** Two computations that return normally on an open connection, in
    sequence. *)
Lemma returns_seq (m k : M unit) :
  keeps_connection m ->
  (forall s, connected s = true -> fst (m s) = Ok tt) ->
  (forall s, connected s = true -> fst (k s) = Ok tt) ->
  forall s, connected s = true -> fst (mbind m (fun _ => k) s) = Ok tt.
Proof.
  intros Hk Hm Hn s Hc. unfold mbind.
  specialize (Hm s Hc). destruct (Hk s) as [Hconn _].
  destruct (m s) as [[[]|e] s']; simpl in *; [|discriminate Hm].
  apply Hn. congruence.
Qed.

Lemma when_present_returns {R} (server : sink) (t : table)
  (no_data inserted failed : string) (tuple_of : R -> result record)
  (frame : option (list R)) (s : state) :
  loadable tuple_of frame ->
  connected s = true ->
  fst (when_present frame
         (insert_frame server t no_data inserted failed tuple_of) Connection s)
  = Ok tt.
Proof.
  intros Hl Hc. unfold when_present. destruct frame as [df|]; [|reflexivity].
  apply insert_frame_returns; [apply Hl; reflexivity | exact Hc].
Qed.

Lemma insert_datasets_returns (server : sink) (transformed_data : transformed)
  (st : state) :
  all_loadable transformed_data ->
  connected st = true ->
  fst (insert_datasets server transformed_data Connection st) = Ok tt.
Proof.
  intros (H1 & H2 & H3 & H4 & H5 & H6) Hc. revert st Hc.
  unfold insert_datasets, insert_aggregated_transactions,
    insert_aggregated_users, insert_map_transactions, insert_map_users,
    insert_top_transactions, insert_top_users.
  repeat (apply returns_seq;
          [apply keeps_when_present; intro; apply keeps_insert_frame
          |intros; apply when_present_returns; assumption
          |]).
  intros; apply when_present_returns; assumption.
Qed.

Lemma try_block_returns (server : sink) (transformed_data : transformed)
  (st : state) :
  connect server = Accepted true ->
  all_loadable transformed_data ->
  fst (try_block server transformed_data st) = Ok tt.
Proof.
  intros Hc Hl.
  destruct (get_db_connection_accepted server true st Hc) as (lg & Hget).
  unfold try_except_Error, mbind at 1. rewrite Hget.
  unfold mbind at 1, bind_connection. cbv beta iota.
  match goal with
  | |- fst (match ?run with _ => _ end) = _ =>
      assert (Hrun : fst run = Ok tt);
      [|destruct run as [[[]|e] st']; [reflexivity | discriminate Hrun]]
  end.
  apply returns_seq; try reflexivity.
  - apply keeps_insert_datasets.
  - intros s Hs. apply insert_datasets_returns; assumption.
Qed.

Lemma insert_all_data_run (server : sink) (transformed_data : transformed)
  (s : store) :
  connect server = Accepted true ->
  all_loadable transformed_data ->
  exists st',
    insert_all_data server transformed_data (initial s) = (Ok tt, st')
    /\ connected st' = false.
Proof.
  intros Hc Hl.
  unfold insert_all_data, mbind at 1, logger at 1. cbn [initial].
  unfold try_finally.
  match goal with
  | |- context [try_except_Error ?b ?h ?st] =>
      pose proof (insert_all_data_before_release server transformed_data
                    true st Hc) as [Hconn Hvar];
      pose proof (try_block_returns server transformed_data st Hc Hl) as Hret;
      destruct (try_except_Error b h st) as [outcome st']
  end.
  simpl in Hconn, Hvar, Hret. subst outcome.
  unfold mbind, is_connected. rewrite Hvar, Hconn. cbn.
  eexists. split; reflexivity.
Qed.



(** Once the connection is established, [insert_all_data] ends with the
    connection closed, whatever the frames are and whatever the sink does
    to the writes and commits, on the normal and on the exceptional exit. *)
Lemma insert_all_data_closes_established_connection (server : sink)
  (transformed_data : transformed) (s : store) :
  connect server = Accepted true ->
  connected (snd (insert_all_data server transformed_data (initial s))) = false.
Proof.
  intro Hc.
  unfold insert_all_data, mbind at 1, logger at 1. cbn [initial].
  unfold try_finally.
  match goal with
  | |- context [try_except_Error ?b ?h ?st] =>
      pose proof (insert_all_data_before_release server transformed_data
                    true st Hc) as [Hconn Hvar];
      cbv zeta in Hconn, Hvar;
      destruct (try_except_Error b h st) as [outcome st']
  end.
  simpl in Hconn, Hvar.
  unfold mbind, is_connected. rewrite Hvar, Hconn. cbn.
  destruct outcome; reflexivity.
Qed.

(** C8, at the failing inputs.  When the connection attempt raises,
    [connection] is never bound and the [finally] block of
    [insert_all_data] raises [UnboundLocalError] in place of the
    connection error; when the attempt returns a connection that is
    already down, [get_db_connection] returns [None] and the [finally]
    block raises [AttributeError].  Both hold for every set of frames. *)
Theorem insert_all_data_release_raises :
  forall (transformed_data : transformed) (s : store),
    insert_all_data unreachable_sink transformed_data (initial s)
    = (Raise UnboundLocalError,
       {| committed := s; working := s; connected := false;
          connection_var := None;
          log := [ (INFO, "Starting database insertion process..."%string);
                   (ERROR, "Error connecting to MySQL database"%string);
                   (ERROR, "Database insertion failed"%string) ] |})
    /\ fst (insert_all_data dropped_sink transformed_data (initial s))
       = Raise AttributeError.
Proof.
  intros transformed_data s. split; [reflexivity|].
  unfold insert_all_data, mbind at 1, logger at 1. cbn [initial].
  unfold try_finally.
  match goal with
  | |- context [try_except_Error ?b ?h ?st] =>
      pose proof (insert_all_data_before_release dropped_sink transformed_data
                    false st eq_refl) as [Hconn Hvar];
      cbv zeta in Hconn, Hvar;
      destruct (try_except_Error b h st) as [outcome st']
  end.
  simpl in Hconn, Hvar.
  unfold mbind, is_connected. rewrite Hvar. reflexivity.
Qed.

End LoaderFacts.

(** ** What the transformers group and what they keep *)

Section GroupingFacts.
Import PyStr Helpers Transform Samples.

Lemma transform_aggregated_transactions_grouped (df : list AggTx.row) :
  transform_aggregated_transactions df
  = groupby_sum (cleaned_aggregated_transactions df).
Proof.
  unfold transform_aggregated_transactions.
  destruct df as [|r0 df]; [reflexivity|]. cbv zeta.
  match goal with
  | |- context [if ?b then ?x else ?x] =>
      replace (if b then x else x) with x by (destruct b; reflexivity)
  end.
  rewrite !map_map. fold (cleaned_aggregated_transactions (r0 :: df)).
  apply filter_all. intros r Hr.
  unfold groupby_sum in Hr. apply in_map_iff in Hr.
  destruct Hr as ([[[s y] q] t] & <- & _). reflexivity.
Qed.

(** The aggregated-transactions transformer does establish the
    uniqueness of the natural key, on every frame. *)
Lemma transform_aggregated_transactions_unique (df : list AggTx.row) :
  NoDup (map aggregated_transaction_key (transform_aggregated_transactions df)).
Proof.
  rewrite transform_aggregated_transactions_grouped.
  apply groupby_sum_unique.
Qed.

Lemma in_group_keys (df : list AggTx.row) (k : key) :
  In k (group_keys df) <-> exists r, In r df /\ key_of r = Some k.
Proof.
  unfold group_keys. split.
  - intro H.
    apply (Permutation_in _ (sort_keys_perm _)) in H.
    apply nodup_In in H. apply in_flat_map in H.
    destruct H as (r & Hr & Hk). exists r. split; [exact Hr|].
    destruct (key_of r) as [k'|]; [|contradiction].
    destruct Hk as [-> | []]. reflexivity.
  - intros (r & Hr & Hk).
    apply (Permutation_in _ (Permutation_sym (sort_keys_perm _))).
    apply nodup_In. apply in_flat_map. exists r. split; [exact Hr|].
    rewrite Hk. left. reflexivity.
Qed.

Lemma transform_aggregated_users_keys (df : list AggUser.row) :
  map aggregated_user_key (transform_aggregated_users df)
  = map (fun r => (apply_text normalize_state_name (AggUser.state r),
                   to_numeric_fillna (AggUser.year r),
                   to_numeric_fillna (AggUser.quarter r))) df.
Proof.
  unfold transform_aggregated_users. destruct df as [|r0 df]; [reflexivity|].
  cbv zeta. rewrite !map_map, map_filter_map.
  rewrite (filter_ext _ (fun _ => true)), filter_true.
  - apply map_ext. intro r. reflexivity.
  - intro r. cbn.
    destruct (AggUser.state r), (AggUser.year r), (AggUser.quarter r);
      reflexivity.
Qed.

Lemma transform_map_transactions_keys (df : list MapTx.row) :
  map map_transaction_key (transform_map_transactions df)
  = map (fun r => (apply_text normalize_state_name (MapTx.state r),
                   to_numeric_fillna (MapTx.year r),
                   to_numeric_fillna (MapTx.quarter r),
                   apply_text clean_string (MapTx.district r))) df.
Proof.
  unfold transform_map_transactions. destruct df as [|r0 df]; [reflexivity|].
  cbv zeta. rewrite !map_map, map_filter_map.
  rewrite (filter_ext _ (fun _ => true)), filter_true.
  - apply map_ext. intro r. reflexivity.
  - intro r. cbn.
    destruct (MapTx.state r), (MapTx.year r), (MapTx.quarter r); reflexivity.
Qed.

Lemma transform_map_users_keys (df : list MapUser.row) :
  map map_user_key (transform_map_users df)
  = map (fun r => (apply_text normalize_state_name (MapUser.state r),
                   to_numeric_fillna (MapUser.year r),
                   to_numeric_fillna (MapUser.quarter r),
                   apply_text clean_string (MapUser.district r))) df.
Proof.
  unfold transform_map_users. destruct df as [|r0 df]; [reflexivity|].
  cbv zeta. rewrite !map_map, map_filter_map.
  rewrite (filter_ext _ (fun _ => true)), filter_true.
  - apply map_ext. intro r. reflexivity.
  - intro r. cbn.
    destruct (MapUser.state r), (MapUser.year r), (MapUser.quarter r);
      reflexivity.
Qed.

Lemma transform_top_transactions_keys (df : list TopTx.row) :
  map top_transaction_key (transform_top_transactions df)
  = map (fun r => (apply_text normalize_state_name (TopTx.state r),
                   to_numeric_fillna (TopTx.year r),
                   to_numeric_fillna (TopTx.quarter r),
                   str_lower (TopTx.entity_type r),
                   apply_text clean_string (TopTx.entity_name r)))
        (filter (fun r => notna (TopTx.entity_type r)) df).
Proof.
  unfold transform_top_transactions. destruct df as [|r0 df]; [reflexivity|].
  cbv zeta. rewrite !map_map, map_filter_map.
  rewrite (filter_ext _ (fun r => notna (TopTx.entity_type r))).
  - apply map_ext. intro r. reflexivity.
  - intro r. cbn.
    destruct (TopTx.state r), (TopTx.year r), (TopTx.quarter r),
      (TopTx.entity_type r), (TopTx.entity_name r); reflexivity.
Qed.

Lemma transform_top_users_keys (df : list TopUser.row) :
  map top_user_key (transform_top_users df)
  = map (fun r => (apply_text normalize_state_name (TopUser.state r),
                   to_numeric_fillna (TopUser.year r),
                   to_numeric_fillna (TopUser.quarter r),
                   str_lower (TopUser.entity_type r),
                   apply_text clean_string (TopUser.entity_name r)))
        (filter (fun r => notna (TopUser.entity_type r)) df).
Proof.
  unfold transform_top_users. destruct df as [|r0 df]; [reflexivity|].
  cbv zeta. rewrite !map_map, map_filter_map.
  rewrite (filter_ext _ (fun r => notna (TopUser.entity_type r))).
  - apply map_ext. intro r. reflexivity.
  - intro r. cbn.
    destruct (TopUser.state r), (TopUser.year r), (TopUser.quarter r),
      (TopUser.entity_type r), (TopUser.entity_name r); reflexivity.
Qed.

(** The rows returned for aggregated transactions: one per key of the
    cleaned frame, with the sums over the rows of that key. *)
Lemma transform_aggregated_transactions_rows (df : list AggTx.row)
  (r : AggTx.row) :
  In r (transform_aggregated_transactions df) <->
  exists k r0,
    In r0 (cleaned_aggregated_transactions df) /\ key_of r0 = Some k
    /\ key_of r = Some k
    /\ AggTx.payment_mode r = None
    /\ AggTx.transaction_count r
       = Some (sum_of AggTx.transaction_count
                 (filter (in_group k) (cleaned_aggregated_transactions df)))
    /\ AggTx.transaction_amount r
       = Some (sum_of AggTx.transaction_amount
                 (filter (in_group k) (cleaned_aggregated_transactions df))).
Proof.
  rewrite transform_aggregated_transactions_grouped.
  unfold groupby_sum. rewrite in_map_iff. split.
  - intros ([[[s y] q] t] & <- & Hk).
    apply in_group_keys in Hk. destruct Hk as (r0 & Hr0 & Hk0).
    exists (s, y, q, t), r0. repeat split; assumption.
  - intros (k & r0 & Hr0 & Hk0 & Hk & Hp & Hc & Ha).
    exists k. split; [|apply in_group_keys; exists r0; split; assumption].
    destruct k as [[[s y] q] t]. destruct r as [rs ry rq rt rp rc ra].
    unfold key_of in Hk. cbn in Hk, Hp, Hc, Ha.
    destruct rs, ry, rq, rt; try discriminate Hk.
    injection Hk as -> -> -> ->. subst rp rc ra. reflexivity.
Qed.



End GroupingFacts.

(** ** Missing key components *)

Section MissingKeyFacts.
Import PyStr PyVal Helpers Transform Samples.

Lemma apply_text_present (f : str -> str) (cell : option str) :
  apply_text f cell <> None.
Proof. destruct cell; discriminate. Qed.

Lemma to_numeric_fillna_present (cell : option Z) : to_numeric_fillna cell <> None.
Proof. destruct cell; discriminate. Qed.

Lemma str_lower_present (cell : option str) :
  notna cell = true -> str_lower cell <> None.
Proof. destruct cell; [discriminate|]. intro H; discriminate H. Qed.

(** C5, amended.  No row returned by any of the six transformers has a
    missing (null) key cell: state, year and quarter are always present,
    and so are the transaction type, the district, the entity type and
    the entity name where the frame has them.  A row whose state is the
    empty string is not dropped: the map-transactions transformer returns
    it, the state still empty. *)
Theorem transformers_return_no_null_key :
  (forall df r,
      In r (transform_aggregated_transactions df) ->
      AggTx.state r <> None /\ AggTx.year r <> None
      /\ AggTx.quarter r <> None /\ AggTx.transaction_type r <> None)
  /\ (forall df r,
         In r (transform_aggregated_users df) ->
         AggUser.state r <> None /\ AggUser.year r <> None
         /\ AggUser.quarter r <> None)
  /\ (forall df r,
         In r (transform_map_transactions df) ->
         MapTx.state r <> None /\ MapTx.year r <> None
         /\ MapTx.quarter r <> None /\ MapTx.district r <> None)
  /\ (forall df r,
         In r (transform_map_users df) ->
         MapUser.state r <> None /\ MapUser.year r <> None
         /\ MapUser.quarter r <> None /\ MapUser.district r <> None)
  /\ (forall df r,
         In r (transform_top_transactions df) ->
         TopTx.state r <> None /\ TopTx.year r <> None
         /\ TopTx.quarter r <> None /\ TopTx.entity_type r <> None
         /\ TopTx.entity_name r <> None)
  /\ (forall df r,
         In r (transform_top_users df) ->
         TopUser.state r <> None /\ TopUser.year r <> None
         /\ TopUser.quarter r <> None /\ TopUser.entity_type r <> None
         /\ TopUser.entity_name r <> None)
  /\ (forall df r,
         In r df -> MapTx.state r = Some [] ->
         exists r',
           In r' (transform_map_transactions df)
           /\ map_transaction_key r'
              = (Some [], to_numeric_fillna (MapTx.year r),
                 to_numeric_fillna (MapTx.quarter r),
                 apply_text clean_string (MapTx.district r))).
Proof.
  repeat apply conj.
  - intros df r Hr.
    apply transform_aggregated_transactions_rows in Hr.
    destruct Hr as (k & _ & _ & _ & Hk & _).
    unfold key_of in Hk.
    destruct (AggTx.state r), (AggTx.year r), (AggTx.quarter r),
      (AggTx.transaction_type r); try discriminate Hk.
    repeat split; discriminate.
  - intros df r Hr. apply (in_map aggregated_user_key) in Hr.
    rewrite transform_aggregated_users_keys in Hr.
    apply in_map_iff in Hr. destruct Hr as (r0 & Heq & _).
    injection Heq as Hs Hy Hq. rewrite <- Hs, <- Hy, <- Hq.
    repeat split;
      first [apply apply_text_present | apply to_numeric_fillna_present].
  - intros df r Hr. apply (in_map map_transaction_key) in Hr.
    rewrite transform_map_transactions_keys in Hr.
    apply in_map_iff in Hr. destruct Hr as (r0 & Heq & _).
    injection Heq as Hs Hy Hq Hd. rewrite <- Hs, <- Hy, <- Hq, <- Hd.
    repeat split;
      first [apply apply_text_present | apply to_numeric_fillna_present].
  - intros df r Hr. apply (in_map map_user_key) in Hr.
    rewrite transform_map_users_keys in Hr.
    apply in_map_iff in Hr. destruct Hr as (r0 & Heq & _).
    injection Heq as Hs Hy Hq Hd. rewrite <- Hs, <- Hy, <- Hq, <- Hd.
    repeat split;
      first [apply apply_text_present | apply to_numeric_fillna_present].
  - intros df r Hr. apply (in_map top_transaction_key) in Hr.
    rewrite transform_top_transactions_keys in Hr.
    apply in_map_iff in Hr. destruct Hr as (r0 & Heq & Hin).
    apply filter_In in Hin. destruct Hin as [_ Ht].
    injection Heq as Hs Hy Hq He Hn. rewrite <- Hs, <- Hy, <- Hq, <- He, <- Hn.
    repeat split;
      first [apply apply_text_present | apply to_numeric_fillna_present
            | apply str_lower_present, Ht].
  - intros df r Hr. apply (in_map top_user_key) in Hr.
    rewrite transform_top_users_keys in Hr.
    apply in_map_iff in Hr. destruct Hr as (r0 & Heq & Hin).
    apply filter_In in Hin. destruct Hin as [_ Ht].
    injection Heq as Hs Hy Hq He Hn. rewrite <- Hs, <- Hy, <- Hq, <- He, <- Hn.
    repeat split;
      first [apply apply_text_present | apply to_numeric_fillna_present
            | apply str_lower_present, Ht].
  - intros df r Hr Hs.
    pose proof (in_map (fun r => (apply_text normalize_state_name (MapTx.state r),
                                  to_numeric_fillna (MapTx.year r),
                                  to_numeric_fillna (MapTx.quarter r),
                                  apply_text clean_string (MapTx.district r)))
                  df r Hr) as Hin.
    rewrite <- transform_map_transactions_keys in Hin.
    apply in_map_iff in Hin. destruct Hin as (r' & Heq & Hr').
    exists r'. split; [exact Hr'|]. rewrite Heq, Hs. reflexivity.
Qed.

Lemma transformers_return_no_null_key_witness :
  exists r',
    In r' (transform_map_transactions [nameless_row])
    /\ map_transaction_key r' = (Some [], Some 2023%Z, Some 1%Z, Some []).
Proof.
  exact (proj2 (proj2 (proj2 (proj2 (proj2 (proj2
           transformers_return_no_null_key)))))
           [nameless_row] nameless_row (or_introl eq_refl) eq_refl).
Defined.

End MissingKeyFacts.

(** * Further properties *)

(** ** NameNormalizer and cleaner *)

Section NormalizerMore.
Import PyStr Helpers HelpersMore.

Lemma isspace_lower_char (c : ascii) : isspace (lower_char c) = isspace c.
Proof. destruct c as [[] [] [] [] [] [] [] []]; vm_compute; reflexivity. Qed.

Lemma isspace_upper_char (c : ascii) : isspace (upper_char c) = isspace c.
Proof. destruct c as [[] [] [] [] [] [] [] []]; vm_compute; reflexivity. Qed.

Lemma lower_lstrip (s : str) : lower (lstrip s) = lstrip (lower s).
Proof.
  induction s as [|c s IH]; [reflexivity|].
  cbn [lstrip lower map]. rewrite isspace_lower_char.
  destruct (isspace c); [exact IH | reflexivity].
Qed.

Lemma lower_rstrip (s : str) : lower (rstrip s) = rstrip (lower s).
Proof.
  induction s as [|c s IH]; [reflexivity|].
  cbn [rstrip lower map]. fold (lower s). rewrite <- IH, isspace_lower_char.
  destruct (rstrip s) as [|d kept]; [destruct (isspace c)|]; reflexivity.
Qed.

Lemma lower_strip (s : str) : lower (strip s) = strip (lower s).
Proof. unfold strip. rewrite lower_rstrip, lower_lstrip. reflexivity. Qed.

Lemma normalize_state_name_unfold (s : str) :
  normalize_state_name s = title (mapped (strip (lower s))).
Proof. destruct s; reflexivity. Qed.

(** X1.  [normalize_state_name] does not see the case of its argument
    nor the whitespace around it. *)
Theorem normalize_state_name_ignores_case_and_margin (s : str) :
  normalize_state_name (lower s) = normalize_state_name s
  /\ normalize_state_name (strip s) = normalize_state_name s.
Proof.
  rewrite !normalize_state_name_unfold. split.
  - rewrite lower_idempotent. reflexivity.
  - rewrite lower_strip, strip_idempotent. reflexivity.
Qed.

Lemma starts_clean_title_from (b : bool) (s : str) :
  starts_clean s -> starts_clean (title_from b s).
Proof.
  destruct s as [|c s]; simpl; [trivial|].
  destruct b; [rewrite isspace_lower_char | rewrite isspace_upper_char]; trivial.
Qed.

Lemma rstrip_title_from (b : bool) (s : str) :
  rstrip (title_from b s) = title_from b (rstrip s).
Proof.
  revert b. induction s as [|c s IH]; intro b; [reflexivity|].
  cbn [title_from rstrip]. rewrite IH.
  assert (Hsp : isspace (if b then lower_char c else upper_char c) = isspace c).
  { destruct b; [apply isspace_lower_char | apply isspace_upper_char]. }
  destruct (rstrip s) as [|d kept].
  - cbn [title_from]. rewrite Hsp. destruct (isspace c); reflexivity.
  - reflexivity.
Qed.

Lemma strip_fixed_parts (m : str) :
  strip m = m -> starts_clean m /\ rstrip m = m.
Proof.
  intro H. assert (Hs : starts_clean m).
  { rewrite <- H. apply rstrip_starts_clean, lstrip_starts_clean. }
  split; [exact Hs|].
  unfold strip in H. rewrite (lstrip_fixed _ Hs) in H. exact H.
Qed.

(** X2.  What [normalize_state_name] returns has no whitespace at either
    end: [strip] leaves it as it is. *)
Theorem normalize_state_name_stripped (s : str) :
  strip (normalize_state_name s) = normalize_state_name s.
Proof.
  rewrite normalize_state_name_unfold.
  destruct (canonical_stable s) as (_ & Hs & _). cbv zeta in Hs.
  destruct (strip_fixed_parts _ Hs) as [Hc Hr].
  generalize dependent (mapped (strip (lower s))). intros m _ Hc Hr.
  unfold strip, title.
  rewrite (lstrip_fixed _ (starts_clean_title_from false _ Hc)).
  rewrite rstrip_title_from, Hr. reflexivity.
Qed.

(** *** clean_string *)

Lemma keep_not_space_plain (c : ascii) :
  keep_char c = true -> isspace c = false -> plain_char c = true.
Proof.
  destruct c as [[] [] [] [] [] [] [] []]; vm_compute;
    intros H1 H2; try discriminate H1; try discriminate H2; reflexivity.
Qed.

Lemma space_is_space : isspace space = true.
Proof. reflexivity. Qed.

Lemma split_ws_from_no_space (word s w : str) :
  Forall (fun c => isspace c = false) word ->
  In w (split_ws_from word s) ->
  w <> [] /\ Forall (fun c => isspace c = false) w.
Proof.
  revert word. induction s as [|d s IH]; intros word Hword Hw.
  - destruct word as [|e word]; cbn [split_ws_from In] in Hw; [contradiction|].
    destruct Hw as [<- | []]. split.
    + intro E. apply (f_equal (@List.length ascii)) in E.
      rewrite length_rev in E. discriminate E.
    + apply Forall_rev. exact Hword.
  - cbn [split_ws_from] in Hw. destruct (isspace d) eqn:Ed.
    + destruct word as [|e word]; [exact (IH [] (Forall_nil _) Hw)|].
      destruct Hw as [<- | Hw]; [|exact (IH [] (Forall_nil _) Hw)].
      split.
      * intro E. apply (f_equal (@List.length ascii)) in E.
        rewrite length_rev in E. discriminate E.
      * apply Forall_rev. exact Hword.
    + apply (IH (d :: word)); [constructor; assumption | exact Hw].
Qed.

Lemma clean_string_letters (s : str) (c : ascii) :
  In c (clean_string s) -> plain_char c = true \/ c = space.
Proof.
  destruct s as [|d s]; [intros []|].
  unfold clean_string. cbv zeta.
  intro H. apply in_strip in H. apply filter_In in H.
  destruct H as [H Hk]. apply in_join in H.
  destruct H as [[<- | []] | (w & Hw & Hc)]; [right; reflexivity|].
  left. apply keep_not_space_plain; [exact Hk|].
  destruct (split_ws_from_no_space [] _ w (Forall_nil _) Hw) as [_ Hns].
  rewrite Forall_forall in Hns. apply Hns, Hc.
Qed.

(** X3.  What [clean_string] returns is made of letters, digits,
    underscores, hyphens and spaces only, and has no whitespace at either
    end. *)
Theorem clean_string_alphabet (s : str) :
  (forall c, In c (clean_string s) -> plain_char c = true \/ c = space)
  /\ strip (clean_string s) = clean_string s.
Proof.
  split; [apply clean_string_letters|].
  destruct s as [|d s]; [reflexivity|].
  unfold clean_string. cbv zeta. apply strip_idempotent.
Qed.

Lemma plain_word_split (word s w : str) :
  Forall (fun c => plain_char c = true) word ->
  (forall c, In c s -> plain_char c = true \/ c = space) ->
  In w (split_ws_from word s) -> plain_word w.
Proof.
  revert word. induction s as [|d s IH]; intros word Hword Hs Hw.
  - destruct word as [|e word]; cbn [split_ws_from In] in Hw; [contradiction|].
    destruct Hw as [<- | []]. split.
    + intro E. apply (f_equal (@List.length ascii)) in E.
      rewrite length_rev in E. discriminate E.
    + apply forallb_forall. intros c Hc. apply in_rev in Hc.
      rewrite Forall_forall in Hword. apply Hword, Hc.
  - assert (Hs' : forall c, In c s -> plain_char c = true \/ c = space).
    { intros c Hc. apply Hs. right. exact Hc. }
    cbn [split_ws_from] in Hw. destruct (isspace d) eqn:Ed.
    + destruct word as [|e word]; [exact (IH [] (Forall_nil _) Hs' Hw)|].
      destruct Hw as [<- | Hw]; [|exact (IH [] (Forall_nil _) Hs' Hw)].
      split.
      * intro E. apply (f_equal (@List.length ascii)) in E.
        rewrite length_rev in E. discriminate E.
      * apply forallb_forall. intros c Hc. apply in_rev in Hc.
        rewrite Forall_forall in Hword. apply Hword, Hc.
    + apply (IH (d :: word)); [|exact Hs'|exact Hw].
      constructor; [|exact Hword].
      destruct (Hs d (or_introl eq_refl)) as [Hp | ->]; [exact Hp|].
      discriminate Ed.
Qed.

Lemma join_nonempty (words : list str) :
  words <> [] -> Forall plain_word words -> join (lit " ") words <> [].
Proof.
  destruct words as [|w words]; [contradiction|].
  intros _ H. inversion H as [|? ? [Hw _] _]; subst.
  destruct w as [|c w]; [contradiction|].
  destruct words; discriminate.
Qed.

Lemma join_cons (w : str) (words : list str) :
  words <> [] ->
  join (lit " ") (w :: words) = w ++ space :: join (lit " ") words.
Proof. destruct words; [contradiction | reflexivity]. Qed.

Lemma filter_keep_join (words : list str) :
  Forall plain_word words ->
  filter keep_char (join (lit " ") words) = join (lit " ") words.
Proof.
  induction words as [|w words IH]; intro H; [reflexivity|].
  inversion H as [|? ? [_ Hw] Hrest]; subst.
  destruct words as [|w' words]; [apply filter_keep_plain, Hw|].
  rewrite join_cons by discriminate.
  rewrite filter_app, (filter_keep_plain _ Hw).
  cbn [filter]. change (keep_char space) with true. cbv iota.
  rewrite (IH Hrest). reflexivity.
Qed.

Lemma rstrip_app (a b : str) : rstrip b <> [] -> rstrip (a ++ b) = a ++ rstrip b.
Proof.
  intro H. induction a as [|c a IH]; [reflexivity|].
  cbn [app rstrip]. rewrite IH.
  destruct (a ++ rstrip b) eqn:E; [|reflexivity].
  apply app_eq_nil in E. destruct E as [_ E]. contradiction.
Qed.

Lemma rstrip_join (words : list str) :
  Forall plain_word words ->
  rstrip (join (lit " ") words) = join (lit " ") words.
Proof.
  induction words as [|w words IH]; intro H; [reflexivity|].
  inversion H as [|? ? [Hne Hw] Hrest]; subst.
  destruct words as [|w' words]; [apply rstrip_plain, Hw|].
  rewrite join_cons by discriminate.
  change (w ++ space :: join (lit " ") (w' :: words))
    with (w ++ (space :: join (lit " ") (w' :: words))).
  assert (Hj : rstrip (space :: join (lit " ") (w' :: words))
               = space :: join (lit " ") (w' :: words)).
  { cbn [rstrip]. rewrite (IH Hrest).
    destruct (join (lit " ") (w' :: words)) eqn:E; [|reflexivity].
    exfalso. revert E. apply join_nonempty; [discriminate | exact Hrest]. }
  rewrite rstrip_app; rewrite Hj; [reflexivity | discriminate].
Qed.

Lemma strip_join (words : list str) :
  Forall plain_word words ->
  strip (join (lit " ") words) = join (lit " ") words.
Proof.
  intro H. unfold strip. rewrite lstrip_fixed; [apply rstrip_join, H|].
  destruct words as [|w words]; [exact I|].
  inversion H as [|? ? [Hne Hw] _]; subst.
  destruct w as [|c w]; [contradiction|].
  simpl in Hw. apply Bool.andb_true_iff in Hw. destruct Hw as [Hc _].
  apply plain_char_facts in Hc.
  destruct words; simpl; exact (proj1 Hc).
Qed.

Lemma split_ws_from_app_plain (word w rest : str) :
  forallb plain_char w = true ->
  split_ws_from word (w ++ rest) = split_ws_from (rev w ++ word) rest.
Proof.
  revert word. induction w as [|c w IH]; intros word H; [reflexivity|].
  simpl in H. apply Bool.andb_true_iff in H. destruct H as [Hc Hw].
  destruct (plain_char_facts _ Hc) as [Hsp _].
  cbn [app split_ws_from]. rewrite Hsp, (IH _ Hw).
  cbn [rev]. rewrite <- app_assoc. reflexivity.
Qed.

Lemma split_ws_join (words : list str) :
  Forall plain_word words -> split_ws (join (lit " ") words) = words.
Proof.
  unfold split_ws.
  induction words as [|w words IH]; intro H; [reflexivity|].
  inversion H as [|? ? [Hne Hw] Hrest]; subst.
  assert (Hrev : rev w <> []).
  { intro E. apply (f_equal (@List.length ascii)) in E.
    rewrite length_rev in E. destruct w; [contradiction | discriminate E]. }
  destruct words as [|w' words].
  - cbn [join]. rewrite <- (app_nil_r w) at 1.
    rewrite (split_ws_from_app_plain [] w [] Hw), app_nil_r.
    cbn [split_ws_from]. destruct (rev w) eqn:E; [contradiction|].
    rewrite <- E, rev_involutive. reflexivity.
  - rewrite join_cons by discriminate.
    change (w ++ space :: join (lit " ") (w' :: words))
      with (w ++ (space :: join (lit " ") (w' :: words))).
    rewrite (split_ws_from_app_plain [] w _ Hw), app_nil_r.
    cbn [split_ws_from]. rewrite space_is_space.
    destruct (rev w) eqn:E; [contradiction|].
    rewrite <- E, rev_involutive, (IH Hrest). reflexivity.
Qed.

(** A string joined from plain words is a fixed point of the cleaner. *)
Lemma clean_string_join (words : list str) :
  Forall plain_word words ->
  clean_string (join (lit " ") words) = join (lit " ") words.
Proof.
  intro H. destruct (join (lit " ") words) as [|c t] eqn:E; [reflexivity|].
  unfold clean_string. cbv zeta. rewrite <- E.
  rewrite (split_ws_join _ H), (filter_keep_join _ H). apply strip_join, H.
Qed.

(** On a string of the cleaner's own alphabet the cleaner only joins the
    words by single spaces. *)
Lemma clean_string_of_clean_alphabet (t : str) :
  (forall c, In c t -> plain_char c = true \/ c = space) ->
  exists words, Forall plain_word words /\ clean_string t = join (lit " ") words.
Proof.
  intro H. destruct t as [|d t]; [exists []; split; [constructor | reflexivity]|].
  exists (split_ws (d :: t)).
  assert (Hw : Forall plain_word (split_ws (d :: t))).
  { apply Forall_forall. intros w Hin.
    exact (plain_word_split [] _ w (Forall_nil _) H Hin). }
  split; [exact Hw|].
  unfold clean_string. cbv zeta.
  rewrite (filter_keep_join _ Hw). apply strip_join, Hw.
Qed.

(** X4.  Cleaning a string twice gives a fixed point of [clean_string];
    cleaning once need not: deleting a character between two spaces
    leaves both spaces, which the next run joins. *)
Theorem clean_string_settles_at_second_run :
  (forall s : str,
      clean_string (clean_string (clean_string s))
      = clean_string (clean_string s))
  /\ clean_string (lit "a & b") = lit "a  b"
  /\ clean_string (lit "a  b") = lit "a b".
Proof.
  split; [|split; vm_compute; reflexivity].
  intro s.
  destruct (clean_string_of_clean_alphabet (clean_string s)
              (clean_string_letters s)) as (words & Hw & ->).
  apply clean_string_join, Hw.
Qed.

End NormalizerMore.

(** ** PathCoordinateResolver *)

Section PathMore.
Import PyStr Helpers HelpersMore.

Lemma scan_parts_without_pair (parts : list str) (year : option Z) :
  has_adjacent_pair parts = false ->
  scan_parts year parts
  = (fold_left (fun y part => if is_year part then Some (int_of part) else y)
               parts year, None).
Proof.
  revert year. induction parts as [|p parts IH]; intros year H; [reflexivity|].
  cbn [has_adjacent_pair] in H.
  apply Bool.orb_false_iff in H. destruct H as [Hp H].
  cbn [scan_parts fold_left].
  destruct (is_year p); [|apply IH, H].
  destruct parts as [|n parts]; [reflexivity|].
  simpl in Hp. rewrite Hp. apply IH, H.
Qed.

Lemma scan_parts_bounds (parts : list str) (year : option Z) :
  (forall y, year = Some y -> (2018 <= y <= 2024)%Z) ->
  (forall y, fst (scan_parts year parts) = Some y -> (2018 <= y <= 2024)%Z)
  /\ (forall q, snd (scan_parts year parts) = Some q ->
                (1 <= q <= 4)%Z /\ fst (scan_parts year parts) <> None).
Proof.
  revert year. induction parts as [|p parts IH]; intros year Hy.
  - simpl. split; [exact Hy | intros q H; discriminate H].
  - cbn [scan_parts]. destruct (is_year p) eqn:Ep; [|apply IH, Hy].
    assert (Hp : forall y, Some (int_of p) = Some y -> (2018 <= y <= 2024)%Z).
    { intros y E. injection E as <-. apply is_year_range, Ep. }
    destruct parts as [|n parts]; [apply IH, Hp|].
    destruct (is_quarter (next_part_of n)) eqn:En; [|apply IH, Hp].
    simpl. split; [exact Hp|].
    intros q E. injection E as <-.
    split; [apply is_quarter_range, En | discriminate].
Qed.



End PathMore.

(** ** Extractors: which files count *)

Section ExtractMoreFacts.
Import PyStr PyVal Helpers HelpersMore Extract ExtractMore Samples SamplesMore.

Lemma for_json_files_pass_over {R} (body : Z -> Z -> json -> result (list R))
  (files1 files2 : list file) (f : file) :
  snd (extract_year_quarter (file_path f)) = None ->
  for_json_files body (files1 ++ f :: files2)
  = for_json_files body (files1 ++ files2).
Proof.
  intro H. unfold for_json_files. apply for_each_skip.
  destruct (extract_year_quarter (file_path f)) as [year quarter].
  simpl in H. subst quarter.
  destruct (not_coordinate year); reflexivity.
Qed.

Lemma for_state_dirs_pass_over {R}
  (body : str -> Z -> Z -> json -> result (list R))
  (dirs1 dirs2 : list (str * option (list file))) (state_dir : str)
  (files1 files2 : list file) (f : file) :
  snd (extract_year_quarter (file_path f)) = None ->
  for_state_dirs body (dirs1 ++ (state_dir, Some (files1 ++ f :: files2)) :: dirs2)
  = for_state_dirs body (dirs1 ++ (state_dir, Some (files1 ++ files2)) :: dirs2).
Proof.
  intro H. unfold for_state_dirs. apply for_each_replace.
  simpl. apply for_json_files_pass_over, H.
Qed.

(** X6.  A file whose path gives no quarter (then [extract_year_quarter]
    gives no usable pair) is passed over by the six extractors without
    being read: wherever it stands among the files of the base path or of
    a state directory, and whatever it holds, each extractor returns what
    it returns without it. *)
Theorem extractors_pass_over_paths_without_quarter :
  forall (py_str : json -> str) (f : file) (files1 files2 : list file),
    snd (extract_year_quarter (file_path f)) = None ->
    extract_aggregated_transactions (Some (files1 ++ f :: files2))
    = extract_aggregated_transactions (Some (files1 ++ files2))
    /\ extract_aggregated_users (Some (files1 ++ f :: files2))
       = extract_aggregated_users (Some (files1 ++ files2))
    /\ extract_top_transactions py_str (Some (files1 ++ f :: files2))
       = extract_top_transactions py_str (Some (files1 ++ files2))
    /\ extract_top_users py_str (Some (files1 ++ f :: files2))
       = extract_top_users py_str (Some (files1 ++ files2))
    /\ (forall states,
           extract_map_transactions
             {| country_files := Some (files1 ++ f :: files2);
                state_entries := states |}
           = extract_map_transactions
               {| country_files := Some (files1 ++ files2);
                  state_entries := states |}
           /\ extract_map_users
                {| country_files := Some (files1 ++ f :: files2);
                   state_entries := states |}
              = extract_map_users
                  {| country_files := Some (files1 ++ files2);
                     state_entries := states |})
    /\ (forall country dirs1 dirs2 state_dir,
           extract_map_transactions
             {| country_files := country;
                state_entries :=
                  Some (dirs1 ++ (state_dir, Some (files1 ++ f :: files2)) :: dirs2) |}
           = extract_map_transactions
               {| country_files := country;
                  state_entries :=
                    Some (dirs1 ++ (state_dir, Some (files1 ++ files2)) :: dirs2) |}
           /\ extract_map_users
                {| country_files := country;
                   state_entries :=
                     Some (dirs1 ++ (state_dir, Some (files1 ++ f :: files2)) :: dirs2) |}
              = extract_map_users
                  {| country_files := country;
                     state_entries :=
                       Some (dirs1 ++ (state_dir, Some (files1 ++ files2)) :: dirs2) |}).
Proof.
  intros py_str f files1 files2 H.
  repeat split; intros;
    unfold extract_aggregated_transactions, extract_aggregated_users,
      extract_top_transactions, extract_top_users,
      extract_map_transactions, extract_map_users, two_passes;
    cbn [country_files state_entries];
    rewrite ?(for_json_files_pass_over _ _ _ _ H);
    rewrite ?(for_state_dirs_pass_over _ _ _ _ _ _ _ H);
    reflexivity.
Qed.

Lemma extractors_pass_over_paths_without_quarter_witness :
  extract_aggregated_transactions (Some [listed_file; notes_file])
  = extract_aggregated_transactions (Some [listed_file]).
Proof.
  exact (proj1 (extractors_pass_over_paths_without_quarter
                  (fun _ => []) notes_file [listed_file] [] eq_refl)).
Defined.

(** *** Documents that stop an extractor *)

Lemma for_each_raises {A B} (body : A -> result (list B)) (l1 l2 : list A)
  (a : A) (e : exn) :
  body a = Raise e -> exists e', for_each body (l1 ++ a :: l2) = Raise e'.
Proof.
  intro H. induction l1 as [|x l1 [e' IH]]; simpl.
  - rewrite H. exists e. reflexivity.
  - rewrite IH. destruct (body x); [exists e' | eexists]; reflexivity.
Qed.

Lemma for_each_raises_after {A B} (body : A -> result (list B)) (l1 l2 : list A)
  (a : A) (e : exn) (rows : list B) :
  for_each body l1 = Ok rows -> body a = Raise e ->
  for_each body (l1 ++ a :: l2) = Raise e.
Proof.
  revert rows. induction l1 as [|x l1 IH]; intros rows H1 H; simpl.
  - rewrite H. reflexivity.
  - simpl in H1. destruct (body x) as [records|]; [|discriminate H1].
    simpl in H1 |- *.
    destruct (for_each body l1) as [more|]; [|discriminate H1].
    rewrite (IH more eq_refl H). reflexivity.
Qed.

Lemma dict_get_present (fields : list (str * json)) (key : str) (default : json) :
  falsy (dict_get fields key JNull) = false ->
  dict_get fields key default = dict_get fields key JNull.
Proof.
  induction fields as [|[k v] fields IH]; simpl; [discriminate|].
  destruct (eqb key k); [reflexivity | exact IH].
Qed.

Lemma get_of_no_object (v : json) (key : str) (default : json) :
  is_object v = false -> get v key default = Raise AttributeError.
Proof. destruct v; simpl; try reflexivity. discriminate. Qed.

Lemma extract_year_quarter_valid (path : str) (year quarter : Z) :
  extract_year_quarter path = (Some year, Some quarter) ->
  valid_coordinates year quarter.
Proof.
  intro H. unfold extract_year_quarter in H.
  destruct (scan_parts_bounds (path_parts path) None) as [Hy Hq];
    [intros y E; discriminate E|].
  rewrite H in Hy, Hq. split; [apply Hy | apply Hq]; reflexivity.
Qed.

(** What the loop header makes of a misshapen document at valid
    coordinates, for a body that starts by reading the payload as the
    six bodies do. *)
Lemma for_json_files_misshapen {R} (body : Z -> Z -> json -> result (list R))
  (f : file) (d : json) (year quarter : Z) :
  (forall fields payload,
      d = JObj fields ->
      payload = dict_get fields (lit "data") JNull ->
      falsy payload = false -> is_object payload = false ->
      body year quarter d = Raise AttributeError) ->
  extract_year_quarter (file_path f) = (Some year, Some quarter) ->
  parsed f = Some d ->
  misshapen_document d = true ->
  (let '(year, quarter) := extract_year_quarter (file_path f) in
   if not_coordinate year || not_coordinate quarter then Ok []
   else
     match year, quarter with
     | Some year, Some quarter =>
         let data := load_json_file f in
         bind (get data (lit "success") JNull)
           (fun success =>
              if falsy success then Ok []
              else
                bind (get data (lit "data") JNull)
                  (fun payload =>
                     if falsy payload then Ok []
                     else body year quarter data))
     | _, _ => Ok []
     end) = Raise AttributeError.
Proof.
  intros Hbody Hc Hp Hm.
  destruct (extract_year_quarter_valid _ _ _ Hc) as [Hy Hq].
  rewrite Hc. unfold not_coordinate.
  replace (year =? 0)%Z with false by (symmetry; apply Z.eqb_neq; lia).
  replace (quarter =? 0)%Z with false by (symmetry; apply Z.eqb_neq; lia).
  cbn [orb]. unfold load_json_file. rewrite Hp. cbv zeta.
  destruct d as [| | | | |fields]; try reflexivity.
  unfold misshapen_document in Hm.
  apply Bool.andb_true_iff in Hm. destruct Hm as [Hm Ho].
  apply Bool.andb_true_iff in Hm. destruct Hm as [Hs Hd].
  apply Bool.negb_true_iff in Hs, Hd, Ho.
  unfold get. cbn [bind]. rewrite Hs, Hd.
  exact (Hbody fields _ eq_refl eq_refl Hd Ho).
Qed.

Lemma for_json_files_raises {R} (body : Z -> Z -> json -> result (list R))
  (files1 files2 : list file) (f : file) (d : json) (year quarter : Z) :
  (forall fields payload,
      d = JObj fields ->
      payload = dict_get fields (lit "data") JNull ->
      falsy payload = false -> is_object payload = false ->
      body year quarter d = Raise AttributeError) ->
  extract_year_quarter (file_path f) = (Some year, Some quarter) ->
  parsed f = Some d ->
  misshapen_document d = true ->
  (exists e, for_json_files body (files1 ++ f :: files2) = Raise e)
  /\ (forall rows,
         for_json_files body files1 = Ok rows ->
         for_json_files body (files1 ++ f :: files2) = Raise AttributeError).
Proof.
  intros Hbody Hc Hp Hm.
  pose proof (for_json_files_misshapen body f d year quarter Hbody Hc Hp Hm)
    as H.
  unfold for_json_files. split.
  - apply for_each_raises with (e := AttributeError). exact H.
  - intros rows Hr. apply for_each_raises_after with (rows := rows);
      [exact Hr | exact H].
Qed.

Ltac payload_is_no_object :=
  intros fields payload -> -> Hd Ho;
  unfold aggregated_transactions_of, aggregated_users_of,
    map_transactions_of, map_users_of, top_transactions_of, top_users_of,
    top_transactions_bucket, top_users_bucket;
  unfold get at 1; cbn [bind];
  rewrite (dict_get_present _ _ (JObj []) Hd);
  rewrite ?Hd;
  rewrite (get_of_no_object _ _ _ Ho); reflexivity.



End ExtractMoreFacts.

(** ** Extractors: what the records carry *)

Section RecordFacts.
Import PyStr PyVal Helpers HelpersMore Extract ExtractMore Samples SamplesMore.

Lemma for_json_files_valid {R} (P : R -> Prop)
  (body : Z -> Z -> json -> result (list R)) (files : list file)
  (rows : list R) :
  (forall year quarter data records,
      valid_coordinates year quarter ->
      body year quarter data = Ok records -> Forall P records) ->
  for_json_files body files = Ok rows -> Forall P rows.
Proof.
  intros Hbody. unfold for_json_files. apply for_each_forall.
  intros f records _.
  destruct (extract_year_quarter (file_path f)) as [year quarter] eqn:Ec.
  destruct (not_coordinate year || not_coordinate quarter);
    [intro H; injection H as <-; constructor|].
  destruct year as [year|]; [|intro H; injection H as <-; constructor].
  destruct quarter as [quarter|]; [|intro H; injection H as <-; constructor].
  intro H.
  apply bind_ok_inv in H. destruct H as (success & _ & H).
  destruct (falsy success); [injection H as <-; constructor|].
  apply bind_ok_inv in H. destruct H as (payload & _ & H).
  destruct (falsy payload); [injection H as <-; constructor|].
  exact (Hbody _ _ _ _ (extract_year_quarter_valid _ _ _ Ec) H).
Qed.

Lemma two_passes_valid {R} (P : R -> Prop)
  (country : Z -> Z -> json -> result (list R))
  (state : str -> Z -> Z -> json -> result (list R))
  (tree : hover_tree) (rows : list R) :
  (forall year quarter data records,
      valid_coordinates year quarter ->
      country year quarter data = Ok records -> Forall P records) ->
  (forall state_dir year quarter data records,
      In state_dir (state_dirs tree) ->
      valid_coordinates year quarter ->
      state state_dir year quarter data = Ok records -> Forall P records) ->
  two_passes country state tree = Ok rows -> Forall P rows.
Proof.
  intros Hc Hs H. unfold two_passes in H.
  apply bind_ok_inv in H. destruct H as (first & H1 & H).
  apply bind_ok_inv in H. destruct H as (second & H2 & H).
  injection H as <-. apply Forall_app. split.
  - destruct (country_files tree) as [files|].
    + exact (for_json_files_valid P _ _ _ Hc H1).
    + injection H1 as <-. constructor.
  - unfold state_dirs in Hs.
    destruct (state_entries tree) as [entries|].
    + unfold for_state_dirs in H2.
      refine (for_each_forall P _ _ second _ H2).
      intros [state_dir [files|]] records Hin H; simpl in H.
      * assert (Hd : In state_dir (map fst entries)).
        { apply in_map_iff. exists (state_dir, Some files).
          split; [reflexivity | exact Hin]. }
        refine (for_json_files_valid P _ _ _ _ H).
        intros year quarter data rs. exact (Hs state_dir year quarter data rs Hd).
      * injection H as <-. constructor.
    + injection H2 as <-. constructor.
Qed.

Lemma aggregated_transactions_of_columns (year quarter : Z) (data : json)
  (records : list aggregated_transaction) :
  aggregated_transactions_of year quarter data = Ok records ->
  Forall (fun r => at_state r = lit "india"
                   /\ at_year r = year /\ at_quarter r = quarter) records.
Proof.
  unfold aggregated_transactions_of. intro H.
  apply bind_ok_inv in H. destruct H as (payload & _ & H).
  apply bind_ok_inv in H. destruct H as (transaction_data & _ & H).
  apply bind_ok_inv in H. destruct H as (items & _ & H).
  refine (for_each_forall _ _ _ records _ H).
  intros item rs _ Hi.
  apply bind_ok_inv in Hi. destruct Hi as (transaction_type & _ & Hi).
  apply bind_ok_inv in Hi. destruct Hi as (payment_modes & _ & Hi).
  apply bind_ok_inv in Hi. destruct Hi as (modes & _ & Hi).
  refine (for_each_forall _ _ _ rs _ Hi).
  intros mode ms _ Hm.
  apply bind_ok_inv in Hm. destruct Hm as (type & _ & Hm).
  apply bind_ok_inv in Hm. destruct Hm as (count & _ & Hm).
  apply bind_ok_inv in Hm. destruct Hm as (amount & _ & Hm).
  injection Hm as <-. constructor; [|constructor].
  repeat split.
Qed.

Lemma aggregated_users_of_columns (year quarter : Z) (data : json)
  (records : list aggregated_user) :
  aggregated_users_of year quarter data = Ok records ->
  exists r, records = [r] /\ au_state r = lit "india"
            /\ au_year r = year /\ au_quarter r = quarter.
Proof.
  unfold aggregated_users_of. intro H.
  apply bind_ok_inv in H. destruct H as (payload & _ & H).
  apply bind_ok_inv in H. destruct H as (user_data & _ & H).
  apply bind_ok_inv in H. destruct H as (registered & _ & H).
  apply bind_ok_inv in H. destruct H as (opens & _ & H).
  injection H as <-. eexists. repeat split.
Qed.

Lemma map_transactions_of_columns (state_of : str -> str) (year quarter : Z)
  (data : json) (records : list map_transaction) :
  map_transactions_of state_of year quarter data = Ok records ->
  Forall (fun r => mt_state r = state_of (mt_district r)
                   /\ mt_year r = year /\ mt_quarter r = quarter) records.
Proof.
  unfold map_transactions_of. intro H.
  apply bind_ok_inv in H. destruct H as (payload & _ & H).
  apply bind_ok_inv in H. destruct H as (hover_data & _ & H).
  apply bind_ok_inv in H. destruct H as (items & _ & H).
  refine (for_each_forall _ _ _ records _ H).
  intros item rs _ Hi.
  apply bind_ok_inv in Hi. destruct Hi as (name & _ & Hi).
  apply bind_ok_inv in Hi. destruct Hi as (lowered_name & _ & Hi).
  apply bind_ok_inv in Hi. destruct Hi as (metrics & _ & Hi).
  apply bind_ok_inv in Hi. destruct Hi as (metric_list & _ & Hi).
  refine (for_each_forall _ _ _ rs _ Hi).
  intros metric ms _ Hm.
  apply bind_ok_inv in Hm. destruct Hm as (count & _ & Hm).
  apply bind_ok_inv in Hm. destruct Hm as (amount & _ & Hm).
  injection Hm as <-. constructor; [|constructor].
  repeat split.
Qed.

Lemma map_users_of_columns (state_of : str -> str) (year quarter : Z)
  (data : json) (records : list map_user) :
  map_users_of state_of year quarter data = Ok records ->
  Forall (fun r => mu_state r = state_of (mu_district r)
                   /\ mu_year r = year /\ mu_quarter r = quarter) records.
Proof.
  unfold map_users_of. intro H.
  apply bind_ok_inv in H. destruct H as (payload & _ & H).
  apply bind_ok_inv in H. destruct H as (hover_data & _ & H).
  apply bind_ok_inv in H. destruct H as (entries & _ & H).
  refine (for_each_forall _ _ _ records _ H).
  intros entry rs _ He.
  apply bind_ok_inv in He. destruct He as (registered & _ & He).
  apply bind_ok_inv in He. destruct He as (opens & _ & He).
  injection He as <-. constructor; [|constructor].
  repeat split.
Qed.

Lemma top_transactions_bucket_columns (bucket entity_type : str)
  (name_of : json -> result str) (year quarter : Z) (data_obj : json)
  (records : list top_transaction) :
  top_transactions_bucket bucket entity_type name_of year quarter data_obj
  = Ok records ->
  Forall (fun r => tt_state r = lit "india" /\ tt_entity_type r = entity_type
                   /\ tt_year r = year /\ tt_quarter r = quarter) records.
Proof.
  intro H. unfold top_transactions_bucket in H.
  apply bind_ok_inv in H. destruct H as (listed & _ & H).
  apply bind_ok_inv in H. destruct H as (items & _ & H).
  refine (for_each_forall _ _ _ records _ H).
  intros item rs _ Hi.
  destruct (falsy item); [injection Hi as <-; constructor|].
  apply bind_ok_inv in Hi. destruct Hi as (entity_name & _ & Hi).
  apply bind_ok_inv in Hi. destruct Hi as (metric & _ & Hi).
  apply bind_ok_inv in Hi. destruct Hi as (name & _ & Hi).
  apply bind_ok_inv in Hi. destruct Hi as (count & _ & Hi).
  apply bind_ok_inv in Hi. destruct Hi as (amount & _ & Hi).
  injection Hi as <-. constructor; [|constructor].
  repeat split.
Qed.

Lemma top_users_bucket_columns (bucket entity_type : str)
  (name_of : json -> result str) (year quarter : Z) (data_obj : json)
  (records : list top_user) :
  top_users_bucket bucket entity_type name_of year quarter data_obj
  = Ok records ->
  Forall (fun r => tu_state r = lit "india" /\ tu_entity_type r = entity_type
                   /\ tu_year r = year /\ tu_quarter r = quarter) records.
Proof.
  intro H. unfold top_users_bucket in H.
  apply bind_ok_inv in H. destruct H as (listed & _ & H).
  apply bind_ok_inv in H. destruct H as (items & _ & H).
  refine (for_each_forall _ _ _ records _ H).
  intros item rs _ Hi.
  destruct (falsy item); [injection Hi as <-; constructor|].
  apply bind_ok_inv in Hi. destruct Hi as (raw_name & _ & Hi).
  apply bind_ok_inv in Hi. destruct Hi as (name & _ & Hi).
  apply bind_ok_inv in Hi. destruct Hi as (registered & _ & Hi).
  injection Hi as <-. constructor; [|constructor].
  repeat split.
Qed.

Lemma Forall_weaken {A} (P Q : A -> Prop) (l : list A) :
  (forall a, P a -> Q a) -> Forall P l -> Forall Q l.
Proof. intros H HP. induction HP; constructor; auto. Qed.

Lemma top_transactions_of_columns (py_str : json -> str) (year quarter : Z)
  (data : json) (records : list top_transaction) :
  top_transactions_of py_str year quarter data = Ok records ->
  Forall (fun r => tt_state r = lit "india"
                   /\ In (tt_entity_type r) entity_types
                   /\ tt_year r = year /\ tt_quarter r = quarter) records.
Proof.
  unfold top_transactions_of. intro H.
  apply bind_ok_inv in H. destruct H as (data_obj & _ & H).
  destruct (falsy data_obj); [injection H as <-; constructor|].
  apply bind_ok_inv in H. destruct H as (states & Hs & H).
  apply bind_ok_inv in H. destruct H as (districts & Hd & H).
  apply bind_ok_inv in H. destruct H as (pincodes & Hp & H).
  injection H as <-.
  apply top_transactions_bucket_columns in Hs, Hd, Hp.
  repeat (apply Forall_app; split);
    [ refine (Forall_weaken _ _ _ _ Hs)
    | refine (Forall_weaken _ _ _ _ Hd)
    | refine (Forall_weaken _ _ _ _ Hp) ];
    intros r (H1 & H2 & H3 & H4); rewrite H2;
    (repeat split; [exact H1 | simpl; tauto | exact H3 | exact H4]).
Qed.

Lemma top_users_of_columns (py_str : json -> str) (year quarter : Z)
  (data : json) (records : list top_user) :
  top_users_of py_str year quarter data = Ok records ->
  Forall (fun r => tu_state r = lit "india"
                   /\ In (tu_entity_type r) entity_types
                   /\ tu_year r = year /\ tu_quarter r = quarter) records.
Proof.
  unfold top_users_of. intro H.
  apply bind_ok_inv in H. destruct H as (data_obj & _ & H).
  destruct (falsy data_obj); [injection H as <-; constructor|].
  apply bind_ok_inv in H. destruct H as (states & Hs & H).
  apply bind_ok_inv in H. destruct H as (districts & Hd & H).
  apply bind_ok_inv in H. destruct H as (pincodes & Hp & H).
  injection H as <-.
  apply top_users_bucket_columns in Hs, Hd, Hp.
  repeat (apply Forall_app; split);
    [ refine (Forall_weaken _ _ _ _ Hs)
    | refine (Forall_weaken _ _ _ _ Hd)
    | refine (Forall_weaken _ _ _ _ Hp) ];
    intros r (H1 & H2 & H3 & H4); rewrite H2;
    (repeat split; [exact H1 | simpl; tauto | exact H3 | exact H4]).
Qed.

Lemma extract_aggregated_transactions_valid (base : option (list file))
  (rows : list aggregated_transaction) :
  extract_aggregated_transactions base = Ok rows ->
  Forall (fun r => valid_coordinates (at_year r) (at_quarter r)) rows.
Proof.
  destruct base as [files|]; intro H; [|injection H as <-; constructor].
  refine (for_json_files_valid _ _ _ _ _ H).
  intros year quarter data records Hv Hb.
  refine (Forall_weaken _ _ _ _ (aggregated_transactions_of_columns _ _ _ _ Hb)).
  intros r (_ & -> & ->). exact Hv.
Qed.

Lemma extract_aggregated_users_valid (base : option (list file))
  (rows : list aggregated_user) :
  extract_aggregated_users base = Ok rows ->
  Forall (fun r => valid_coordinates (au_year r) (au_quarter r)) rows.
Proof.
  destruct base as [files|]; intro H; [|injection H as <-; constructor].
  refine (for_json_files_valid _ _ _ _ _ H).
  intros year quarter data records Hv Hb.
  destruct (aggregated_users_of_columns _ _ _ _ Hb) as (r & -> & _ & Hy & Hq).
  constructor; [|constructor]. rewrite Hy, Hq. exact Hv.
Qed.

Lemma extract_map_transactions_valid (tree : hover_tree)
  (rows : list map_transaction) :
  extract_map_transactions tree = Ok rows ->
  Forall (fun r => valid_coordinates (mt_year r) (mt_quarter r)) rows.
Proof.
  intro H. refine (two_passes_valid _ _ _ _ _ _ _ H).
  - intros year quarter data records Hv Hb.
    refine (Forall_weaken _ _ _ _ (map_transactions_of_columns _ _ _ _ _ Hb)).
    intros r (_ & -> & ->). exact Hv.
  - intros state_dir year quarter data records _ Hv Hb.
    refine (Forall_weaken _ _ _ _ (map_transactions_of_columns _ _ _ _ _ Hb)).
    intros r (_ & -> & ->). exact Hv.
Qed.

Lemma extract_map_users_valid (tree : hover_tree) (rows : list map_user) :
  extract_map_users tree = Ok rows ->
  Forall (fun r => valid_coordinates (mu_year r) (mu_quarter r)) rows.
Proof.
  intro H. refine (two_passes_valid _ _ _ _ _ _ _ H).
  - intros year quarter data records Hv Hb.
    refine (Forall_weaken _ _ _ _ (map_users_of_columns _ _ _ _ _ Hb)).
    intros r (_ & -> & ->). exact Hv.
  - intros state_dir year quarter data records _ Hv Hb.
    refine (Forall_weaken _ _ _ _ (map_users_of_columns _ _ _ _ _ Hb)).
    intros r (_ & -> & ->). exact Hv.
Qed.

Lemma extract_top_transactions_valid (py_str : json -> str)
  (base : option (list file)) (rows : list top_transaction) :
  extract_top_transactions py_str base = Ok rows ->
  Forall (fun r => valid_coordinates (tt_year r) (tt_quarter r)
                   /\ In (tt_entity_type r) entity_types) rows.
Proof.
  destruct base as [files|]; intro H; [|injection H as <-; constructor].
  refine (for_json_files_valid _ _ _ _ _ H).
  intros year quarter data records Hv Hb.
  refine (Forall_weaken _ _ _ _ (top_transactions_of_columns _ _ _ _ _ Hb)).
  intros r (_ & Ht & -> & ->). split; assumption.
Qed.

Lemma extract_top_users_valid (py_str : json -> str)
  (base : option (list file)) (rows : list top_user) :
  extract_top_users py_str base = Ok rows ->
  Forall (fun r => valid_coordinates (tu_year r) (tu_quarter r)
                   /\ In (tu_entity_type r) entity_types) rows.
Proof.
  destruct base as [files|]; intro H; [|injection H as <-; constructor].
  refine (for_json_files_valid _ _ _ _ _ H).
  intros year quarter data records Hv Hb.
  refine (Forall_weaken _ _ _ _ (top_users_of_columns _ _ _ _ _ Hb)).
  intros r (_ & Ht & -> & ->). split; assumption.
Qed.

(** X8.  Every record that one of the six extractors returns carries a
    year in 2018..2024 and a quarter in 1..4. *)
Theorem extracted_records_have_valid_coordinates :
  forall py_str : json -> str,
    (forall base rows,
        extract_aggregated_transactions base = Ok rows ->
        Forall (fun r => valid_coordinates (at_year r) (at_quarter r)) rows)
    /\ (forall base rows,
           extract_aggregated_users base = Ok rows ->
           Forall (fun r => valid_coordinates (au_year r) (au_quarter r)) rows)
    /\ (forall tree rows,
           extract_map_transactions tree = Ok rows ->
           Forall (fun r => valid_coordinates (mt_year r) (mt_quarter r)) rows)
    /\ (forall tree rows,
           extract_map_users tree = Ok rows ->
           Forall (fun r => valid_coordinates (mu_year r) (mu_quarter r)) rows)
    /\ (forall base rows,
           extract_top_transactions py_str base = Ok rows ->
           Forall (fun r => valid_coordinates (tt_year r) (tt_quarter r)) rows)
    /\ (forall base rows,
           extract_top_users py_str base = Ok rows ->
           Forall (fun r => valid_coordinates (tu_year r) (tu_quarter r)) rows).
Proof.
  intro py_str. repeat apply conj.
  - exact extract_aggregated_transactions_valid.
  - exact extract_aggregated_users_valid.
  - exact extract_map_transactions_valid.
  - exact extract_map_users_valid.
  - intros base rows H.
    refine (Forall_weaken _ _ _ _ (extract_top_transactions_valid _ _ _ H)).
    intros r [Hv _]. exact Hv.
  - intros base rows H.
    refine (Forall_weaken _ _ _ _ (extract_top_users_valid _ _ _ H)).
    intros r [Hv _]. exact Hv.
Qed.

Lemma extracted_records_have_valid_coordinates_witness :
  Forall (fun r => valid_coordinates (au_year r) (au_quarter r)) users_records.
Proof.
  exact (proj1 (proj2 (extracted_records_have_valid_coordinates (fun _ => [])))
           (Some [users_file]) users_records eq_refl).
Defined.

(** X9.  Where the state of an extracted record comes from: the literal
    [india] in the aggregated and top-N datasets, whose entity type is
    one of [state], [district] and [pincode]; in the two map datasets the
    name of the region itself (country pass, state = district) or the
    lower-cased name of a state directory of the tree. *)
Theorem extracted_state_column_origin :
  forall py_str : json -> str,
    (forall base rows,
        extract_aggregated_transactions base = Ok rows ->
        Forall (fun r => at_state r = lit "india") rows)
    /\ (forall base rows,
           extract_aggregated_users base = Ok rows ->
           Forall (fun r => au_state r = lit "india") rows)
    /\ (forall base rows,
           extract_top_transactions py_str base = Ok rows ->
           Forall (fun r => tt_state r = lit "india"
                            /\ In (tt_entity_type r) entity_types) rows)
    /\ (forall base rows,
           extract_top_users py_str base = Ok rows ->
           Forall (fun r => tu_state r = lit "india"
                            /\ In (tu_entity_type r) entity_types) rows)
    /\ (forall tree rows,
           extract_map_transactions tree = Ok rows ->
           Forall (fun r => mt_state r = mt_district r
                            \/ In (mt_state r) (map lower (state_dirs tree)))
                  rows)
    /\ (forall tree rows,
           extract_map_users tree = Ok rows ->
           Forall (fun r => mu_state r = mu_district r
                            \/ In (mu_state r) (map lower (state_dirs tree)))
                  rows).
Proof.
  intro py_str. repeat apply conj.
  - intros [files|] rows H; [|injection H as <-; constructor].
    refine (for_json_files_valid _ _ _ _ _ H).
    intros year quarter data records _ Hb.
    refine (Forall_weaken _ _ _ _ (aggregated_transactions_of_columns _ _ _ _ Hb)).
    intros r (Hs & _). exact Hs.
  - intros [files|] rows H; [|injection H as <-; constructor].
    refine (for_json_files_valid _ _ _ _ _ H).
    intros year quarter data records _ Hb.
    destruct (aggregated_users_of_columns _ _ _ _ Hb) as (r & -> & Hs & _).
    constructor; [exact Hs | constructor].
  - intros [files|] rows H; [|injection H as <-; constructor].
    refine (for_json_files_valid _ _ _ _ _ H).
    intros year quarter data records _ Hb.
    refine (Forall_weaken _ _ _ _ (top_transactions_of_columns _ _ _ _ _ Hb)).
    intros r (Hs & Ht & _). split; assumption.
  - intros [files|] rows H; [|injection H as <-; constructor].
    refine (for_json_files_valid _ _ _ _ _ H).
    intros year quarter data records _ Hb.
    refine (Forall_weaken _ _ _ _ (top_users_of_columns _ _ _ _ _ Hb)).
    intros r (Hs & Ht & _). split; assumption.
  - intros tree rows H.
    refine (two_passes_valid _ _ _ _ _ _ _ H).
    + intros year quarter data records _ Hb.
      refine (Forall_weaken _ _ _ _ (map_transactions_of_columns _ _ _ _ _ Hb)).
      intros r (Hs & _). left. exact Hs.
    + intros state_dir year quarter data records Hin _ Hb.
      refine (Forall_weaken _ _ _ _ (map_transactions_of_columns _ _ _ _ _ Hb)).
      intros r (Hs & _). right. rewrite Hs. apply in_map, Hin.
  - intros tree rows H.
    refine (two_passes_valid _ _ _ _ _ _ _ H).
    + intros year quarter data records _ Hb.
      refine (Forall_weaken _ _ _ _ (map_users_of_columns _ _ _ _ _ Hb)).
      intros r (Hs & _). left. exact Hs.
    + intros state_dir year quarter data records Hin _ Hb.
      refine (Forall_weaken _ _ _ _ (map_users_of_columns _ _ _ _ _ Hb)).
      intros r (Hs & _). right. rewrite Hs. apply in_map, Hin.
Qed.

Lemma extracted_state_column_origin_witness :
  Forall (fun r => mt_state r = mt_district r
                   \/ In (mt_state r) (map lower (state_dirs karnataka_tree)))
         karnataka_records.
Proof.
  exact (proj1 (proj2 (proj2 (proj2 (proj2
           (extracted_state_column_origin (fun _ => []))))))
           karnataka_tree karnataka_records eq_refl).
Defined.

Lemma for_each_at_most_one {A B} (body : A -> result (list B)) (l : list A)
  (rows : list B) :
  (forall a records, body a = Ok records -> (List.length records <= 1)%nat) ->
  for_each body l = Ok rows -> (List.length rows <= List.length l)%nat.
Proof.
  intro Hbody. revert rows. induction l as [|a l IH]; intros rows H.
  - injection H as <-. apply le_n.
  - simpl in H.
    apply bind_ok_inv in H. destruct H as (records & Ha & H).
    apply bind_ok_inv in H. destruct H as (more & Hl & H).
    injection H as <-. rewrite length_app. simpl.
    pose proof (Hbody _ _ Ha). pose proof (IH _ Hl). lia.
Qed.

(** X10.  [extract_aggregated_users] returns at most one record per file
    found under the base path. *)
Theorem extract_aggregated_users_one_record_per_file :
  forall (files : list file) (rows : list aggregated_user),
    extract_aggregated_users (Some files) = Ok rows ->
    (List.length rows <= List.length files)%nat.
Proof.
  intros files rows H. unfold extract_aggregated_users, for_json_files in H.
  refine (for_each_at_most_one _ _ _ _ H).
  intros f records.
  destruct (extract_year_quarter (file_path f)) as [year quarter].
  destruct (not_coordinate year || not_coordinate quarter);
    [intro E; injection E as <-; simpl; lia|].
  destruct year as [year|]; [|intro E; injection E as <-; simpl; lia].
  destruct quarter as [quarter|]; [|intro E; injection E as <-; simpl; lia].
  intro E.
  apply bind_ok_inv in E. destruct E as (success & _ & E).
  destruct (falsy success); [injection E as <-; simpl; lia|].
  apply bind_ok_inv in E. destruct E as (payload & _ & E).
  destruct (falsy payload); [injection E as <-; simpl; lia|].
  destruct (aggregated_users_of_columns _ _ _ _ E) as (r & -> & _).
  apply le_n.
Qed.

Lemma extract_aggregated_users_one_record_per_file_witness :
  (List.length users_records <= List.length [users_file; notes_file])%nat.
Proof.
  exact (extract_aggregated_users_one_record_per_file
           [users_file; notes_file] users_records eq_refl).
Defined.

End RecordFacts.

(** ** Transformers: totals and order of the grouped frame *)

Section GroupTotals.
Import PyStr Helpers Transform TransformMore Samples.

Lemma fold_add_from (l : list Z) (a : Z) :
  fold_left Z.add l a = (a + fold_left Z.add l 0)%Z.
Proof.
  revert a. induction l as [|x l IH]; intro a; simpl; [lia|].
  rewrite (IH (a + x)%Z), (IH x). lia.
Qed.

Lemma sum_of_cons (measure : AggTx.row -> option Z) (r : AggTx.row)
  (rows : list AggTx.row) :
  sum_of measure (r :: rows) = (value (measure r) + sum_of measure rows)%Z.
Proof. unfold sum_of. simpl. apply fold_add_from. Qed.

Lemma over_groups_cons (measure : AggTx.row -> option Z) (k : key)
  (keys : list key) (rows : list AggTx.row) :
  over_groups measure (k :: keys) rows
  = (sum_of measure (filter (in_group k) rows)
     + over_groups measure keys rows)%Z.
Proof. reflexivity. Qed.

Lemma over_groups_nil (measure : AggTx.row -> option Z) (keys : list key) :
  over_groups measure keys [] = 0%Z.
Proof.
  induction keys as [|k keys IH]; [reflexivity|].
  rewrite over_groups_cons, IH. reflexivity.
Qed.

Lemma over_groups_outsider (measure : AggTx.row -> option Z) (keys : list key)
  (r : AggTx.row) (rows : list AggTx.row) :
  (forall k, In k keys -> in_group k r = false) ->
  over_groups measure keys (r :: rows) = over_groups measure keys rows.
Proof.
  induction keys as [|k keys IH]; intro H; [reflexivity|].
  rewrite !over_groups_cons. cbn [filter]. rewrite (H k (or_introl eq_refl)).
  rewrite IH; [reflexivity|]. intros k' Hk'. apply H. right. exact Hk'.
Qed.

Lemma over_groups_member (measure : AggTx.row -> option Z) (keys : list key)
  (k0 : key) (r : AggTx.row) (rows : list AggTx.row) :
  NoDup keys -> In k0 keys -> key_of r = Some k0 ->
  over_groups measure keys (r :: rows)
  = (value (measure r) + over_groups measure keys rows)%Z.
Proof.
  intros Hnd Hin Hk. induction Hnd as [|k keys Hk' Hnd IH]; [contradiction|].
  rewrite !over_groups_cons. cbn [filter]. unfold in_group at 1. rewrite Hk.
  destruct (key_eq_dec k k0) as [->|Hne].
  - rewrite sum_of_cons, over_groups_outsider; [lia|].
    intros k1 Hk1. unfold in_group. rewrite Hk.
    destruct (key_eq_dec k1 k0) as [->|]; [contradiction | reflexivity].
  - destruct Hin as [->|Hin]; [contradiction|].
    rewrite (IH Hin). lia.
Qed.

Lemma over_groups_total (measure : AggTx.row -> option Z) (keys : list key)
  (rows : list AggTx.row) :
  NoDup keys ->
  (forall r, In r rows -> exists k, key_of r = Some k /\ In k keys) ->
  over_groups measure keys rows = sum_of measure rows.
Proof.
  intros Hnd. induction rows as [|r rows IH]; intro H.
  - apply over_groups_nil.
  - destruct (H r (or_introl eq_refl)) as (k & Hk & Hin).
    rewrite (over_groups_member measure keys k r rows Hnd Hin Hk), sum_of_cons.
    rewrite IH; [reflexivity|]. intros r' Hr'. apply H. right. exact Hr'.
Qed.

Lemma cleaned_rows_keyed (df : list AggTx.row) (r : AggTx.row) :
  In r (cleaned_aggregated_transactions df) -> exists k, key_of r = Some k.
Proof.
  unfold cleaned_aggregated_transactions. intro H.
  apply in_map_iff in H. destruct H as (r0 & <- & _).
  unfold key_of. cbn.
  destruct (AggTx.state r0), (AggTx.year r0), (AggTx.quarter r0),
    (AggTx.transaction_type r0); eexists; reflexivity.
Qed.

Lemma sum_of_cleaned (df : list AggTx.row) :
  sum_of AggTx.transaction_count (cleaned_aggregated_transactions df)
  = sum_of AggTx.transaction_count df.
Proof.
  induction df as [|r df IH]; [reflexivity|].
  unfold cleaned_aggregated_transactions in *. cbn [map].
  rewrite !sum_of_cons, IH. cbn.
  destruct (AggTx.transaction_count r); reflexivity.
Qed.

Lemma sum_of_groupby_sum (df : list AggTx.row) :
  sum_of AggTx.transaction_count (groupby_sum df)
  = over_groups AggTx.transaction_count (group_keys df) df.
Proof.
  unfold groupby_sum.
  induction (group_keys df) as [|[[[s y] q] t] keys IH]; [reflexivity|].
  cbn [map]. rewrite sum_of_cons, over_groups_cons, IH. reflexivity.
Qed.


(** *** The order of the groups *)

Lemma str_compare_flip (a b : str) :
  str_compare b a = CompOpp (str_compare a b).
Proof.
  revert b. induction a as [|x a IH]; intros [|y b]; try reflexivity.
  simpl. rewrite (N.compare_antisym (code x) (code y)).
  destruct (code x ?= code y)%N; simpl; [apply IH | reflexivity | reflexivity].
Qed.

Lemma key_compare_flip (a b : key) :
  key_compare b a = CompOpp (key_compare a b).
Proof.
  destruct a as [[[s1 y1] q1] t1], b as [[[s2 y2] q2] t2]. unfold key_compare.
  rewrite (str_compare_flip s1 s2), (str_compare_flip t1 t2),
    (Z.compare_antisym y1 y2), (Z.compare_antisym q1 q2).
  destruct (str_compare s1 s2), (y1 ?= y2)%Z, (q1 ?= q2)%Z,
    (str_compare t1 t2); reflexivity.
Qed.

Lemma key_leb_total (a b : key) : key_leb a b = false -> key_leb b a = true.
Proof.
  unfold key_leb. rewrite (key_compare_flip a b).
  destruct (key_compare a b); simpl; intro H; try discriminate H; reflexivity.
Qed.

Lemma ascending_insert_sorted (k : key) (l : list key) :
  ascending l = true -> ascending (insert_sorted k l) = true.
Proof.
  induction l as [|h t IH]; intro H; [reflexivity|].
  cbn [insert_sorted]. destruct (key_leb k h) eqn:E.
  - cbn [ascending]. rewrite E. exact H.
  - assert (Ht : ascending t = true).
    { destruct t as [|h' t]; [reflexivity|].
      cbn [ascending] in H. apply Bool.andb_true_iff in H. apply H. }
    specialize (IH Ht).
    destruct t as [|h' t].
    + cbn [insert_sorted ascending]. rewrite (key_leb_total _ _ E). reflexivity.
    + cbn [ascending] in H. apply Bool.andb_true_iff in H. destruct H as [Hh _].
      cbn [insert_sorted] in IH |- *.
      destruct (key_leb k h') eqn:E'.
      * cbn [ascending] in IH |- *.
        rewrite (key_leb_total _ _ E). exact IH.
      * cbn [ascending] in IH |- *. rewrite Hh. exact IH.
Qed.

Lemma ascending_group_keys (df : list AggTx.row) :
  ascending (group_keys df) = true.
Proof.
  unfold group_keys, sort_keys.
  induction (nodup key_eq_dec _) as [|k l IH]; [reflexivity|].
  simpl. apply ascending_insert_sorted, IH.
Qed.

(** X12.  The rows that [transform_aggregated_transactions] returns are
    listed by ascending (state, year, quarter, transaction type): every
    row has a full key and each key is at most its successor. *)
Theorem transform_aggregated_transactions_ascending :
  forall df : list AggTx.row,
    exists keys,
      map key_of (transform_aggregated_transactions df) = map Some keys
      /\ ascending keys = true.
Proof.
  intro df. exists (group_keys (cleaned_aggregated_transactions df)).
  split; [|apply ascending_group_keys].
  rewrite transform_aggregated_transactions_grouped.
  unfold groupby_sum. rewrite map_map. apply map_ext.
  intros [[[s y] q] t]. reflexivity.
Qed.

End GroupTotals.

(** ** Loader: what a batch does to the store *)

Section BatchFacts.
Import Transform Loader LoaderMore Samples.
Local Open Scope loader_scope.

(** X13.  A batch is applied entirely or not at all.  Entered without
    pending work, an insert function (each of the six is [insert_frame]
    at its table and tuple builder) leaves no pending work behind,
    whatever the frame, the connection and the sink do, and the committed
    store is either the one it found or that store with every tuple of
    the batch upserted, the latter only when the sink accepted the
    write. *)
Theorem insert_frame_all_or_nothing :
  forall (R : Type) (server : sink) (t : table)
         (no_data inserted failed : string) (tuple_of : R -> result record)
         (df : list R) (connection : pyconn) (st : state),
    working st = committed st ->
    let st' := snd (insert_frame server t no_data inserted failed tuple_of df
                      connection st) in
    working st' = committed st'
    /\ (committed st' = committed st
        \/ exists records,
             tuples tuple_of df = Ok records
             /\ write_fails server t records = false
             /\ committed st' = upsert_all t records (committed st)).
Proof.
  intros R server t no_data inserted failed tuple_of df connection st Hw st'.
  subst st'.
  remember (insert_frame server t no_data inserted failed tuple_of df
              connection st) as out eqn:E.
  destruct df as [|row df];
    [subst out; split; [exact Hw | left; reflexivity]|].
  unfold insert_frame, mbind, cursor, try_finally, try_except_Error, lift, ret,
    executemany, commit, logger, rollback, set_working in E.
  destruct connection;
    [subst out; split; [exact Hw | left; reflexivity]|].
  destruct (connected st);
    [|subst out; split; [exact Hw | left; reflexivity]].
  destruct (tuples tuple_of (row :: df)) as [records|e] eqn:Ht;
    [|destruct e; subst out; cbn; split;
      try exact Hw; try reflexivity; left; reflexivity].
  destruct (rejects server t) as [i|] eqn:Hr;
    [destruct (i <? List.length records)%nat eqn:Hi|];
    cbn in E;
    try (destruct (commit_fails server t) eqn:Hf; cbn in E);
    subst out; cbn;
    (split; [reflexivity|]);
    try (left; reflexivity);
    right; exists records; rewrite Hw;
    (split; [reflexivity|]);
    (split; [|reflexivity]);
    unfold write_fails; rewrite Hr, ?Hi, Hf; reflexivity.
Qed.

Lemma insert_frame_all_or_nothing_witness :
  working (snd (insert_aggregated_transactions rejecting_sink two_types
                  Connection
                  {| committed := []; working := []; connected := true;
                     connection_var := Some Connection; log := [] |}))
  = committed (snd (insert_aggregated_transactions rejecting_sink two_types
                      Connection
                      {| committed := []; working := []; connected := true;
                         connection_var := Some Connection; log := [] |})).
Proof.
  exact (proj1 (insert_frame_all_or_nothing _ rejecting_sink
                  aggregated_transactions _ _ _ aggregated_transactions_tuple
                  two_types Connection
                  {| committed := []; working := []; connected := true;
                     connection_var := Some Connection; log := [] |}
                  eq_refl)).
Defined.

Lemma rows_of_upsert_other (t t' : table) (r : record) (s : store) :
  t' <> t -> rows_of t' (upsert t r s) = rows_of t' s.
Proof.
  intro Hne. unfold rows_of. induction s as [|[u x] s IH]; simpl.
  - destruct (table_eq_dec t' t); [contradiction | reflexivity].
  - unfold same_key. simpl.
    destruct (table_eq_dec t u) as [<-|Htu].
    + destruct (list_eq_dec sqlval_eq_dec (key_columns r) (key_columns x)).
      * simpl. destruct (table_eq_dec t' t); [contradiction | reflexivity].
      * simpl. destruct (table_eq_dec t' t); [contradiction | exact IH].
    + simpl. destruct (table_eq_dec t' u); simpl; [f_equal|]; exact IH.
Qed.

Lemma rows_of_upsert_all_other (t t' : table) (records : list record)
  (s : store) :
  t' <> t -> rows_of t' (upsert_all t records s) = rows_of t' s.
Proof.
  intro Hne. unfold upsert_all. revert s.
  induction records as [|r records IH]; intro s; [reflexivity|].
  simpl. rewrite IH. apply rows_of_upsert_other, Hne.
Qed.

(** X14.  An insert function writes to its own table only: entered
    without pending work, it leaves the committed rows of every other
    table as they are, in their order. *)
Theorem insert_frame_touches_one_table :
  forall (R : Type) (server : sink) (t t' : table)
         (no_data inserted failed : string) (tuple_of : R -> result record)
         (df : list R) (connection : pyconn) (st : state),
    working st = committed st ->
    t' <> t ->
    rows_of t' (committed (snd (insert_frame server t no_data inserted failed
                                  tuple_of df connection st)))
    = rows_of t' (committed st).
Proof.
  intros R server t t' no_data inserted failed tuple_of df connection st Hw Hne.
  remember (insert_frame server t no_data inserted failed tuple_of df
              connection st) as out eqn:E.
  destruct df as [|row df]; [subst out; reflexivity|].
  unfold insert_frame, mbind, cursor, try_finally, try_except_Error, lift, ret,
    executemany, commit, logger, rollback, set_working in E.
  destruct connection; [subst out; reflexivity|].
  destruct (connected st); [|subst out; reflexivity].
  destruct (tuples tuple_of (row :: df)) as [records|e] eqn:Ht;
    [|destruct e; subst out; reflexivity].
  destruct (rejects server t) as [i|] eqn:Hr;
    [destruct (i <? List.length records)%nat eqn:Hi|];
    cbn in E;
    try (destruct (commit_fails server t) eqn:Hf; cbn in E);
    subst out; cbn; try reflexivity;
    rewrite Hw; apply rows_of_upsert_all_other, Hne.
Qed.

Lemma insert_frame_touches_one_table_witness :
  rows_of map_users
    (committed (snd (insert_aggregated_transactions healthy_sink two_types
                       Connection
                       {| committed := []; working := []; connected := true;
                          connection_var := Some Connection; log := [] |})))
  = rows_of map_users [].
Proof.
  exact (insert_frame_touches_one_table _ healthy_sink
           aggregated_transactions map_users _ _ _
           aggregated_transactions_tuple two_types Connection
           {| committed := []; working := []; connected := true;
              connection_var := Some Connection; log := [] |}
           eq_refl ltac:(discriminate)).
Defined.

End BatchFacts.

(** ** Loader: the store after a run *)

Section RunFacts.
Import Transform Loader LoaderMore Samples.
Local Open Scope loader_scope.

Lemma settles_seq (m k : M unit) (f g : store -> store) :
  settles m f -> settles k g ->
  settles (m ;;; k) (fun s => g (f s)).
Proof.
  intros Hm Hk st Hc Hw.
  destruct (Hm st Hc Hw) as (st1 & E1 & Hc1 & Hv1 & Hs1 & Hw1).
  destruct (Hk st1 Hc1 Hw1) as (st2 & E2 & Hc2 & Hv2 & Hs2 & Hw2).
  exists st2. unfold mbind. rewrite E1, E2.
  repeat split; [exact Hc2 | congruence | congruence | exact Hw2].
Qed.

Lemma settles_logger (lv : level) (message : string) :
  settles (logger lv message) (fun s => s).
Proof.
  intros st Hc Hw. eexists. split; [reflexivity|].
  repeat split; assumption.
Qed.

Lemma upsert_all_nil (t : table) (s : store) : upsert_all t [] s = s.
Proof. reflexivity. Qed.

Lemma settles_insert_frame {R} (server : sink) (t : table)
  (no_data inserted failed : string) (tuple_of : R -> result record)
  (df : list R) :
  (exists records, tuples tuple_of df = Ok records) ->
  settles (insert_frame server t no_data inserted failed tuple_of df Connection)
          (upsert_all t (accepted_batch server t tuple_of (Some df))).
Proof.
  intros (records & Ht) st Hc Hw.
  unfold accepted_batch. rewrite Ht.
  destruct df as [|row df].
  - injection Ht as <-.
    replace (if write_fails server t [] then [] else []) with (@nil record)
      by (destruct (write_fails server t []); reflexivity).
    eexists. split; [reflexivity|]. repeat split; assumption.
  - unfold insert_frame, mbind, cursor, try_finally, try_except_Error, lift,
      ret, executemany, commit, logger, rollback, set_working, write_fails.
    rewrite Hc, Ht.
    destruct (rejects server t) as [i|];
      [destruct (i <? List.length records)%nat|];
      cbn;
      try (destruct (commit_fails server t); cbn);
      eexists; (split; [reflexivity|]); cbn;
      rewrite ?Hw; repeat split; assumption.
Qed.

Lemma settles_when_present {R} (server : sink) (t : table)
  (no_data inserted failed : string) (tuple_of : R -> result record)
  (frame : option (list R)) :
  loadable tuple_of frame ->
  settles (when_present frame
             (insert_frame server t no_data inserted failed tuple_of)
             Connection)
          (upsert_all t (accepted_batch server t tuple_of frame)).
Proof.
  intro Hl. destruct frame as [df|].
  - apply settles_insert_frame, Hl. reflexivity.
  - intros st Hc Hw. exists st. split; [reflexivity|].
    repeat split; assumption.
Qed.

Lemma settles_insert_datasets (server : sink) (transformed_data : transformed) :
  all_loadable transformed_data ->
  settles (insert_datasets server transformed_data Connection)
          (loaded server transformed_data).
Proof.
  intros (H1 & H2 & H3 & H4 & H5 & H6).
  unfold insert_datasets, loaded, insert_aggregated_transactions,
    insert_aggregated_users, insert_map_transactions, insert_map_users,
    insert_top_transactions, insert_top_users.
  repeat (refine (settles_seq _ _ _ _ (settles_when_present _ _ _ _ _ _ _ _) _);
          [assumption|]).
  apply settles_when_present. assumption.
Qed.

(** The run of [insert_all_data] on a sink that accepts the connection,
    with frames whose tuples can be built. *)
Lemma insert_all_data_settles (server : sink) (transformed_data : transformed)
  (s : store) :
  connect server = Accepted true ->
  all_loadable transformed_data ->
  exists st',
    insert_all_data server transformed_data (initial s) = (Ok tt, st')
    /\ connected st' = false
    /\ committed st' = loaded server transformed_data s
    /\ working st' = committed st'.
Proof.
  intros Hc Hl.
  unfold insert_all_data, mbind at 1, logger at 1. cbn [initial].
  unfold try_finally, try_except_Error, mbind at 1.
  match goal with
  | |- context [get_db_connection server ?st] =>
      destruct (get_db_connection_accepted server true st Hc) as (lg & ->)
  end.
  unfold mbind at 1, bind_connection. cbv beta iota.
  cbn [committed working connected connection_var log].
  match goal with
  | |- context [mbind (insert_datasets server transformed_data Connection)
                  ?k ?st] =>
      destruct (settles_seq _ _ _ _
                  (settles_insert_datasets server transformed_data Hl)
                  (settles_logger INFO
                     "Database insertion completed successfully!")
                  st eq_refl eq_refl)
        as (st1 & -> & Hc1 & Hv1 & Hs1 & Hw1)
  end.
  cbn in Hv1, Hs1.
  unfold mbind, is_connected. rewrite Hv1, Hc1. cbn.
  eexists. split; [reflexivity|]. cbn. repeat split. exact Hs1.
Qed.


End RunFacts.

(** ** Loader: running the load again *)

Section ReloadFacts.
Import Transform Loader LoaderMore Samples.
Local Open Scope loader_scope.


Lemma alike_refl (a : table * record) : alike a a = true.
Proof.
  unfold alike, same_key.
  destruct (table_eq_dec (fst a) (fst a)); [|contradiction].
  destruct (list_eq_dec sqlval_eq_dec _ _); [reflexivity | contradiction].
Qed.

Lemma alike_iff (a b : table * record) :
  alike a b = true
  <-> fst a = fst b /\ key_columns (snd a) = key_columns (snd b).
Proof.
  unfold alike, same_key.
  destruct (table_eq_dec (fst a) (fst b)) as [Ht|Ht];
    [destruct (list_eq_dec sqlval_eq_dec (key_columns (snd a))
                 (key_columns (snd b))) as [Hk|Hk]|];
    split; try discriminate; try tauto.
Qed.

Lemma alike_sym (a b : table * record) : alike a b = alike b a.
Proof.
  destruct (alike a b) eqn:E1, (alike b a) eqn:E2; try reflexivity.
  - apply alike_iff in E1. destruct E1 as [H1 H2].
    assert (E : alike b a = true) by (apply alike_iff; split; congruence).
    congruence.
  - apply alike_iff in E2. destruct E2 as [H1 H2].
    assert (E : alike a b = true) by (apply alike_iff; split; congruence).
    congruence.
Qed.

Lemma alike_trans (a b c : table * record) :
  alike a b = true -> alike b c = true -> alike a c = true.
Proof.
  rewrite !alike_iff. intros [H1 H2] [H3 H4]. split; congruence.
Qed.

Lemma alike_left (a b c : table * record) :
  alike a b = true -> alike a c = alike b c.
Proof.
  intro H. destruct (alike b c) eqn:E.
  - exact (alike_trans _ _ _ H E).
  - destruct (alike a c) eqn:E'; [|reflexivity].
    rewrite alike_sym in H. rewrite <- E. symmetry.
    exact (alike_trans _ _ _ H E').
Qed.

(** [upsert] of an entry, by cases on the head of the store. *)
Lemma upsert_cons (a x : table * record) (s : store) :
  upsert (fst a) (snd a) (x :: s)
  = if alike a x then a :: s else x :: upsert (fst a) (snd a) s.
Proof. destruct a. reflexivity. Qed.

Lemma upsert_nil (a : table * record) : upsert (fst a) (snd a) [] = [a].
Proof. destruct a. reflexivity. Qed.

Lemma present_upsert_self (a : table * record) (s : store) :
  present a (upsert (fst a) (snd a) s) = true.
Proof.
  unfold present. induction s as [|x s IH].
  - rewrite upsert_nil. simpl. rewrite alike_refl. reflexivity.
  - rewrite upsert_cons. destruct (alike a x) eqn:E; simpl.
    + rewrite alike_refl. reflexivity.
    + rewrite E. exact IH.
Qed.

Lemma present_upsert (a b : table * record) (s : store) :
  present a s = true -> present a (upsert (fst b) (snd b) s) = true.
Proof.
  unfold present. induction s as [|x s IH]; [discriminate|].
  rewrite upsert_cons. simpl. intro H.
  destruct (alike b x) eqn:E; simpl.
  - apply Bool.orb_true_iff in H. destruct H as [H|H].
    + rewrite alike_sym in E. rewrite (alike_trans a x b H E). reflexivity.
    + rewrite H. apply Bool.orb_true_r.
  - apply Bool.orb_true_iff in H. destruct H as [H|H].
    + rewrite H. reflexivity.
    + rewrite (IH H). apply Bool.orb_true_r.
Qed.

Lemma present_upsert_entries (a : table * record) (batch : list (table * record))
  (s : store) :
  present a s = true -> present a (upsert_entries batch s) = true.
Proof.
  unfold upsert_entries. revert s.
  induction batch as [|b batch IH]; intros s H; [exact H|].
  simpl. apply IH, present_upsert, H.
Qed.

(** A later tuple with the same key overwrites an earlier one. *)
Lemma upsert_overwrites (a b : table * record) (s : store) :
  alike a b = true ->
  upsert (fst b) (snd b) (upsert (fst a) (snd a) s) = upsert (fst b) (snd b) s.
Proof.
  intro H. induction s as [|x s IH].
  - rewrite upsert_nil, upsert_cons, upsert_nil.
    rewrite alike_sym, H. reflexivity.
  - assert (Hbx : alike b x = alike a x) by (symmetry; apply alike_left, H).
    assert (Hba : alike b a = true) by (rewrite alike_sym; exact H).
    rewrite (upsert_cons a x s), (upsert_cons b x s), Hbx.
    destruct (alike a x) eqn:E.
    + rewrite upsert_cons, Hba. reflexivity.
    + rewrite upsert_cons, Hbx, IH. reflexivity.
Qed.

(** Tuples with different keys can be written in either order, as soon
    as one of the keys is in the store. *)
Lemma upsert_commutes (a b : table * record) (s : store) :
  alike a b = false ->
  present a s || present b s = true ->
  upsert (fst a) (snd a) (upsert (fst b) (snd b) s)
  = upsert (fst b) (snd b) (upsert (fst a) (snd a) s).
Proof.
  intros Hab. unfold present. induction s as [|x s IH]; [discriminate|].
  intro H. rewrite !upsert_cons.
  destruct (alike a x) eqn:Ea, (alike b x) eqn:Eb.
  - rewrite (alike_left a x b Ea), alike_sym, Eb in Hab. discriminate Hab.
  - rewrite !upsert_cons, Ea, (alike_sym b a), Hab. reflexivity.
  - rewrite !upsert_cons, Eb, Hab. reflexivity.
  - rewrite !upsert_cons, Ea, Eb. f_equal. apply IH.
    simpl in H. rewrite Ea, Eb in H. exact H.
Qed.

Lemma upsert_entries_cons (b : table * record) (batch : list (table * record))
  (s : store) :
  upsert_entries (b :: batch) s
  = upsert_entries batch (upsert (fst b) (snd b) s).
Proof. reflexivity. Qed.

(** A tuple whose key comes again later in the batch leaves no trace. *)
Lemma upsert_entries_absorbs (a : table * record)
  (batch : list (table * record)) (s : store) :
  present a s = true ->
  existsb (alike a) batch = true ->
  upsert_entries batch (upsert (fst a) (snd a) s) = upsert_entries batch s.
Proof.
  revert s. induction batch as [|b batch IH]; intros s Hp Hb; [discriminate|].
  rewrite !upsert_entries_cons. simpl in Hb.
  destruct (alike a b) eqn:E.
  - rewrite (upsert_overwrites a b s E). reflexivity.
  - rewrite (upsert_commutes b a s).
    + apply IH; [apply present_upsert, Hp | exact Hb].
    + rewrite alike_sym. exact E.
    + rewrite Hp. apply Bool.orb_true_r.
Qed.

(** A tuple whose key does not come in the batch can be written after
    it. *)
Lemma upsert_entries_defers (a : table * record)
  (batch : list (table * record)) (s : store) :
  present a s = true ->
  existsb (alike a) batch = false ->
  upsert_entries batch (upsert (fst a) (snd a) s)
  = upsert (fst a) (snd a) (upsert_entries batch s).
Proof.
  revert s. induction batch as [|b batch IH]; intros s Hp Hb; [reflexivity|].
  rewrite !upsert_entries_cons. simpl in Hb.
  apply Bool.orb_false_iff in Hb. destruct Hb as [E Hb].
  rewrite (upsert_commutes b a s).
  - apply IH; [apply present_upsert, Hp | exact Hb].
  - rewrite alike_sym. exact E.
  - rewrite Hp. apply Bool.orb_true_r.
Qed.

Lemma upsert_entries_twice (batch : list (table * record)) (s : store) :
  upsert_entries batch (upsert_entries batch s) = upsert_entries batch s.
Proof.
  revert s. induction batch as [|a batch IH]; intro s; [reflexivity|].
  rewrite !upsert_entries_cons.
  set (x := upsert (fst a) (snd a) s).
  assert (Hx : present a x = true) by apply present_upsert_self.
  assert (Hy : present a (upsert_entries batch x) = true)
    by apply present_upsert_entries, Hx.
  destruct (existsb (alike a) batch) eqn:E.
  - rewrite (upsert_entries_absorbs a batch _ Hy E). apply IH.
  - rewrite (upsert_entries_defers a batch _ Hy E), IH.
    rewrite <- (upsert_entries_defers a batch _ Hx E).
    unfold x. rewrite (upsert_overwrites a a s (alike_refl a)). reflexivity.
Qed.

Lemma upsert_all_entries (t : table) (records : list record) (s : store) :
  upsert_all t records s = upsert_entries (entries t records) s.
Proof.
  unfold upsert_all, upsert_entries, entries. revert s.
  induction records as [|r records IH]; intro s; [reflexivity|].
  simpl. apply IH.
Qed.

Lemma upsert_entries_app (batch1 batch2 : list (table * record)) (s : store) :
  upsert_entries batch2 (upsert_entries batch1 s)
  = upsert_entries (batch1 ++ batch2) s.
Proof. unfold upsert_entries. rewrite fold_left_app. reflexivity. Qed.

Lemma loaded_as_entries (server : sink) (transformed_data : transformed) :
  exists batch, forall s,
    loaded server transformed_data s = upsert_entries batch s.
Proof.
  eexists. intro s. unfold loaded. cbv zeta.
  rewrite !upsert_all_entries, !upsert_entries_app. reflexivity.
Qed.

Lemma loaded_twice (server : sink) (transformed_data : transformed) (s : store) :
  loaded server transformed_data (loaded server transformed_data s)
  = loaded server transformed_data s.
Proof.
  destruct (loaded_as_entries server transformed_data) as [batch H].
  rewrite !H. apply upsert_entries_twice.
Qed.

(** X16.  Loading is repeatable: once the connection is established and
    the tuples of the frames can be built, running [insert_all_data] again
    with the same frames on the store that the first run committed, the
    sink refusing the same datasets, leaves that store as it is, row by
    row. *)
Theorem insert_all_data_again_changes_nothing :
  forall (server : sink) (transformed_data : transformed) (s : store),
    connect server = Accepted true ->
    all_loadable transformed_data ->
    let after :=
      committed (snd (insert_all_data server transformed_data (initial s))) in
    committed (snd (insert_all_data server transformed_data (initial after)))
    = after.
Proof.
  intros server transformed_data s Hc Hl after. subst after.
  destruct (insert_all_data_settles server transformed_data s Hc Hl)
    as (st1 & -> & _ & Hs1 & _).
  cbn [snd]. rewrite Hs1.
  destruct (insert_all_data_settles server transformed_data
              (loaded server transformed_data s) Hc Hl)
    as (st2 & -> & _ & Hs2 & _).
  cbn [snd]. rewrite Hs2. apply loaded_twice.
Qed.

Lemma insert_all_data_again_changes_nothing_witness :
  committed
    (snd (insert_all_data healthy_sink only_aggregated_transactions
            (initial
               (committed
                  (snd (insert_all_data healthy_sink
                          only_aggregated_transactions (initial [])))))))
  = committed (snd (insert_all_data healthy_sink only_aggregated_transactions
                      (initial []))).
Proof.
  refine (insert_all_data_again_changes_nothing healthy_sink
            only_aggregated_transactions [] eq_refl _).
  repeat split; intros df H; try discriminate H.
  injection H as <-. eexists. reflexivity.
Defined.

End ReloadFacts.

(** ** Transformation followed by loading *)

Section PipelineMoreFacts.
Import PyStr Helpers Transform Loader LoaderMore Pipeline Samples SamplesPipeline.
Local Open Scope loader_scope.

Lemma tuples_built {R} (tuple_of : R -> result record) (df : list R) :
  (forall row, In row df -> exists r, tuple_of row = Ok r) ->
  exists records, tuples tuple_of df = Ok records.
Proof.
  induction df as [|row df IH]; intro H; [exists []; reflexivity|].
  destruct (H row (or_introl eq_refl)) as [r Hr].
  destruct IH as [records Hrs]; [intros x Hx; apply H; right; exact Hx|].
  exists (r :: records). simpl. rewrite Hr, Hrs. reflexivity.
Qed.

Lemma loadable_when_truthy {R} (tuple_of : R -> result record)
  (transform : list R -> list R) (records : option (list R)) :
  (forall df row, In row (transform df) -> exists r, tuple_of row = Ok r) ->
  loadable tuple_of (when_truthy records transform).
Proof.
  intros H df Hdf. apply tuples_built. intros row Hin.
  destruct records as [[|r0 rest]|]; try discriminate Hdf.
  injection Hdf as <-. exact (H _ _ Hin).
Qed.

Lemma transform_aggregated_transactions_numbers (df : list AggTx.row)
  (row : AggTx.row) :
  In row (transform_aggregated_transactions df) ->
  exists r, aggregated_transactions_tuple row = Ok r.
Proof.
  rewrite transform_aggregated_transactions_grouped. unfold groupby_sum.
  intro H. apply in_map_iff in H.
  destruct H as ([[[s y] q] t] & <- & _). eexists. reflexivity.
Qed.

Lemma transform_aggregated_users_numbers (df : list AggUser.row)
  (row : AggUser.row) :
  In row (transform_aggregated_users df) ->
  exists r, aggregated_users_tuple row = Ok r.
Proof.
  unfold transform_aggregated_users.
  destruct df as [|r0 df]; [contradiction|]. cbv zeta. intro H.
  apply filter_In in H. destruct H as [H _].
  rewrite !map_map in H. apply in_map_iff in H. destruct H as (x & <- & _).
  unfold aggregated_users_tuple. cbn.
  destruct (AggUser.year x), (AggUser.quarter x), (AggUser.registered_users x),
    (AggUser.app_opens x); eexists; reflexivity.
Qed.

Lemma transform_map_transactions_numbers (df : list MapTx.row)
  (row : MapTx.row) :
  In row (transform_map_transactions df) ->
  exists r, map_transactions_tuple row = Ok r.
Proof.
  unfold transform_map_transactions.
  destruct df as [|r0 df]; [contradiction|]. cbv zeta. intro H.
  apply filter_In in H. destruct H as [H _].
  rewrite !map_map in H. apply in_map_iff in H. destruct H as (x & <- & _).
  unfold map_transactions_tuple. cbn.
  destruct (MapTx.year x), (MapTx.quarter x), (MapTx.transaction_count x),
    (MapTx.transaction_amount x); eexists; reflexivity.
Qed.

Lemma transform_map_users_numbers (df : list MapUser.row) (row : MapUser.row) :
  In row (transform_map_users df) ->
  exists r, map_users_tuple row = Ok r.
Proof.
  unfold transform_map_users.
  destruct df as [|r0 df]; [contradiction|]. cbv zeta. intro H.
  apply filter_In in H. destruct H as [H _].
  rewrite !map_map in H. apply in_map_iff in H. destruct H as (x & <- & _).
  unfold map_users_tuple. cbn.
  destruct (MapUser.year x), (MapUser.quarter x), (MapUser.registered_users x),
    (MapUser.app_opens x); eexists; reflexivity.
Qed.

Lemma transform_top_transactions_numbers (df : list TopTx.row)
  (row : TopTx.row) :
  In row (transform_top_transactions df) ->
  exists r, top_transactions_tuple row = Ok r.
Proof.
  unfold transform_top_transactions.
  destruct df as [|r0 df]; [contradiction|]. cbv zeta. intro H.
  apply filter_In in H. destruct H as [H _].
  rewrite !map_map in H. apply in_map_iff in H. destruct H as (x & <- & _).
  unfold top_transactions_tuple. cbn.
  destruct (TopTx.year x), (TopTx.quarter x), (TopTx.transaction_count x),
    (TopTx.transaction_amount x); eexists; reflexivity.
Qed.

Lemma transform_top_users_numbers (df : list TopUser.row) (row : TopUser.row) :
  In row (transform_top_users df) ->
  exists r, top_users_tuple row = Ok r.
Proof.
  unfold transform_top_users.
  destruct df as [|r0 df]; [contradiction|]. cbv zeta. intro H.
  apply filter_In in H. destruct H as [H _].
  rewrite !map_map in H. apply in_map_iff in H. destruct H as (x & <- & _).
  unfold top_users_tuple. cbn.
  destruct (TopUser.year x), (TopUser.quarter x), (TopUser.registered_users x);
    eexists; reflexivity.
Qed.

Lemma transform_all_data_loadable (extracted_data : extracted) :
  all_loadable (transform_all_data extracted_data).
Proof.
  unfold all_loadable, transform_all_data.
  cbn [aggregated_transactions_df aggregated_users_df map_transactions_df
       map_users_df top_transactions_df top_users_df].
  repeat split; apply loadable_when_truthy.
  - exact transform_aggregated_transactions_numbers.
  - exact transform_aggregated_users_numbers.
  - exact transform_map_transactions_numbers.
  - exact transform_map_users_numbers.
  - exact transform_top_transactions_numbers.
  - exact transform_top_users_numbers.
Qed.

Lemma when_truthy_nothing {R} (records : option (list R))
  (transform : list R -> list R) :
  match records with Some (_ :: _) => false | _ => true end = true ->
  when_truthy records transform = None.
Proof. destruct records as [[|row rest]|]; [reflexivity | discriminate | reflexivity]. Qed.



End PipelineMoreFacts.

(** ** The file finder *)

Section FileFacts.
Import PyStr Files.

Lemma starts_with_app (pat s rest : str) :
  starts_with pat s = true -> starts_with pat (s ++ rest) = true.
Proof.
  revert s. induction pat as [|p pat IH]; intros [|c s] H;
    try reflexivity; try discriminate H.
  simpl in H |- *. apply Bool.andb_true_iff in H. destruct H as [-> H].
  exact (IH _ H).
Qed.

Lemma ends_with_app (suffix s front : str) :
  ends_with suffix s = true -> ends_with suffix (front ++ s) = true.
Proof.
  unfold ends_with. intro H. rewrite rev_app_distr.
  apply starts_with_app, H.
Qed.

Lemma ends_with_path_join (suffix root name : str) :
  ends_with suffix name = true ->
  ends_with suffix (path_join root name) = true.
Proof.
  intro H. unfold path_join.
  destruct (starts_with (lit "/") name); [exact H|].
  destruct root as [|c root]; [exact H|].
  destruct (ends_with (lit "/") (c :: root)).
  - apply ends_with_app, H.
  - apply ends_with_app, ends_with_app, H.
Qed.

Lemma flat_map_filter {A B} (f : A -> list B) (p : B -> bool) (l : list A) :
  flat_map (fun a => filter p (f a)) l = filter p (flat_map f l).
Proof.
  induction l as [|a l IH]; [reflexivity|].
  simpl. rewrite filter_app, IH. reflexivity.
Qed.

(** X18.  Every path that [find_json_files] returns ends in [.json], and
    a pattern only selects: the paths found with a pattern are the paths
    found without one that contain the pattern, in the same order. *)
Theorem find_json_files_selects :
  forall (walked : list (str * list str)) (pattern : str),
    find_json_files walked (Some pattern)
    = filter (contains pattern) (find_json_files walked None)
    /\ Forall (fun file_path => ends_with (lit ".json") file_path = true)
              (find_json_files walked None).
Proof.
  intros walked pattern. split.
  - unfold find_json_files. rewrite <- flat_map_filter.
    apply flat_map_ext. intros [root files].
    rewrite <- flat_map_filter. apply flat_map_ext. intro file.
    destruct (ends_with (lit ".json") file); [|reflexivity].
    cbv zeta. cbn [filter].
    destruct (contains pattern (path_join root file)); reflexivity.
  - unfold find_json_files. apply Forall_forall. intros p Hp.
    apply in_flat_map in Hp. destruct Hp as ([root files] & _ & Hp).
    apply in_flat_map in Hp. destruct Hp as (file & _ & Hp).
    destruct (ends_with (lit ".json") file) eqn:E; [|contradiction].
    destruct Hp as [<- | []]. apply ends_with_path_join, E.
Qed.

End FileFacts.

(** ** The schema functions *)

Section SchemaFacts.
Import PyStr Loader Schema.

Lemma execute_all_no_close (db : server) (statements : list str) :
  ~ In Closed (snd (execute_all db statements)).
Proof.
  induction statements as [|statement rest IH]; simpl; [tauto|].
  destruct (blank statement); [exact IH|].
  destruct (refuses db statement); [simpl; tauto|].
  destruct (execute_all db rest) as [finished trace]. simpl in *.
  intros [H|H]; [discriminate H | exact (IH H)].
Qed.

Lemma handler_no_close (db : server) (trace : list event) :
  ~ In Closed trace -> ~ In Closed (snd (handler db trace)).
Proof.
  intros H Hin. unfold handler in Hin. simpl in Hin.
  apply in_app_or in Hin. destruct Hin as [Hin | [Hin | Hin]].
  - exact (H Hin).
  - discriminate Hin.
  - destruct (alive_in_handler db); [destruct Hin as [Hin | []]; discriminate Hin
                                   | exact Hin].
Qed.

(** X19.  The two schema functions close the connection exactly when
    they return normally: on every path that raises after the connection
    was made, it is left open.  When the connection attempt itself is
    refused, [create_database_if_not_exists] raises the connector's
    [Error], whereas [execute_sql_file] raises [UnboundLocalError], from
    its handler, and in no other case. *)
Theorem schema_functions_close_only_on_success :
  forall (db : server) (file : option str) (db_name : str),
    (In Closed (snd (execute_sql_file db file))
     <-> fst (execute_sql_file db file) = Returned)
    /\ (In Closed (snd (create_database_if_not_exists db db_name))
        <-> fst (create_database_if_not_exists db db_name) = Returned)
    /\ (fst (execute_sql_file db file) = Raised UnboundLocalError
        <-> connect db = Refused)
    /\ (connect db = Refused ->
        fst (create_database_if_not_exists db db_name) = Raised Error).
Proof.
  intros db file db_name. split; [|split; [|split]].
  - unfold execute_sql_file.
    destruct (connect db) as [|[|]].
    + simpl. split; [intros [H|[]]; discriminate H | discriminate].
    + destruct file as [sql_script|].
      * pose proof (execute_all_no_close db (split_on ";"%char sql_script))
          as Hn.
        destruct (execute_all db (split_on ";"%char sql_script))
          as [[|] trace]; simpl in Hn.
        -- destruct (commit_raises db).
           ++ split; [|discriminate]. intro H. exfalso.
              refine (handler_no_close db (Connected :: trace) _ H).
              intros [E|E]; [discriminate E | exact (Hn E)].
           ++ simpl. split; [reflexivity|]. intros _. right.
              apply in_or_app. right. simpl. tauto.
        -- split; [|discriminate]. intro H. exfalso.
           refine (handler_no_close db (Connected :: trace) _ H).
           intros [E|E]; [discriminate E | exact (Hn E)].
      * simpl. split; [intros [H|[]]; discriminate H | discriminate].
    + simpl. split; [intros [H|[H|[]]]; discriminate H | discriminate].
  - unfold create_database_if_not_exists.
    destruct (connect db) as [|[|]]; simpl.
    + split; [intros [H|[]]; discriminate H | discriminate].
    + destruct (refuses db _); simpl.
      * split; [intros [H|[H|[]]]; discriminate H | discriminate].
      * split; [reflexivity | tauto].
    + split; [intros [H|[H|[]]]; discriminate H | discriminate].
  - unfold execute_sql_file.
    destruct (connect db) as [|[|]].
    + split; reflexivity.
    + split; [|discriminate].
      destruct file as [sql_script|]; [|discriminate].
      destruct (execute_all db (split_on ";"%char sql_script)) as [[|] trace];
        [destruct (commit_raises db)|]; discriminate.
    + split; discriminate.
  - intro H. unfold create_database_if_not_exists. rewrite H. reflexivity.
Qed.

Lemma execute_all_statements (db : server) (statements : list str) :
  exists later,
    filter (fun statement => negb (blank statement)) statements
    = executed (snd (execute_all db statements)) ++ later
    /\ (fst (execute_all db statements) = true -> later = []).
Proof.
  induction statements as [|statement rest (later & IH & Hall)].
  - exists []. split; [reflexivity | reflexivity].
  - cbn [execute_all filter]. destruct (blank statement) eqn:Eb; cbn [negb].
    + exists later. split; assumption.
    + destruct (refuses db statement) eqn:Er.
      * eexists. cbn. split; [reflexivity | discriminate].
      * destruct (execute_all db rest) as [finished trace]. cbn in *.
        exists later. rewrite IH. split; [reflexivity | assumption].
Qed.

Lemma executed_app (trace1 trace2 : list event) :
  executed (trace1 ++ trace2) = executed trace1 ++ executed trace2.
Proof. unfold executed. apply flat_map_app. Qed.

(** X20.  The statements that [execute_sql_file] executes are, in
    order, the leading non-blank pieces between the semicolons of the
    script: all of them when the function returns normally, and never a
    blank piece. *)
Theorem execute_sql_file_runs_the_statements_in_order :
  forall (db : server) (sql_script : str),
    (exists later,
        statements_of sql_script
        = executed (snd (execute_sql_file db (Some sql_script))) ++ later)
    /\ (fst (execute_sql_file db (Some sql_script)) = Returned ->
        executed (snd (execute_sql_file db (Some sql_script)))
        = statements_of sql_script)
    /\ Forall (fun statement => blank statement = false)
              (executed (snd (execute_sql_file db (Some sql_script)))).
Proof.
  intros db sql_script.
  assert (Hpre : exists later,
             statements_of sql_script
             = executed (snd (execute_sql_file db (Some sql_script))) ++ later
             /\ (fst (execute_sql_file db (Some sql_script)) = Returned ->
                 later = [])).
  { unfold execute_sql_file, statements_of.
    destruct (execute_all_statements db (split_on ";"%char sql_script))
      as (later & H & Hall).
    destruct (connect db) as [|[|]].
    - eexists. split; [reflexivity | discriminate].
    - destruct (execute_all db (split_on ";"%char sql_script))
        as [[|] trace]; cbn [fst snd] in *.
      + destruct (commit_raises db); unfold handler; cbn [fst snd].
        * exists later. split; [|discriminate].
          cbn [executed flat_map app]. fold (executed (trace ++ Logged ERROR
            :: (if alive_in_handler db then [RolledBack] else []))).
          rewrite executed_app. rewrite H.
          destruct (alive_in_handler db); cbn; rewrite app_nil_r; reflexivity.
        * exists later. split; [|intros _; apply Hall; reflexivity].
          cbn [executed flat_map app].
          fold (executed (trace ++ [Committed; Logged INFO; Closed])).
          rewrite executed_app, H. cbn. rewrite app_nil_r. reflexivity.
      + unfold handler. cbn [fst snd]. exists later. split; [|discriminate].
        cbn [executed flat_map app]. fold (executed (trace ++ Logged ERROR
          :: (if alive_in_handler db then [RolledBack] else []))).
        rewrite executed_app, H.
        destruct (alive_in_handler db); cbn; rewrite app_nil_r; reflexivity.
    - eexists. split; [reflexivity | discriminate]. }
  destruct Hpre as (later & Hpre & Hall).
  split; [exists later; exact Hpre|]. split.
  - intro Hr. rewrite Hpre, (Hall Hr), app_nil_r. reflexivity.
  - apply Forall_forall. intros statement Hin.
    assert (Hs : In statement (statements_of sql_script)).
    { rewrite Hpre. apply in_or_app. left. exact Hin. }
    unfold statements_of in Hs. apply filter_In in Hs.
    destruct Hs as [_ Hs]. apply Bool.negb_true_iff in Hs. exact Hs.
Qed.

End SchemaFacts.

(** ** The viewer *)

Section ViewerFacts.
Import PyStr Loader Viewer.
Local Open Scope loader_scope.

(** A view that has ended well: it returned, the connection is closed and
    the committed store is the one it found. *)
Local Abbreviation ended_well run s :=
  (fst run = Ok tt /\ connected (snd run) = false /\ committed (snd run) = s).

Lemma count_tables_returns (answers : query -> result Z) (names : list str)
  (connection : pyconn) (st : state) :
  count_tables answers names connection st = (Ok tt, st).
Proof.
  induction names as [|table rest IH]; [reflexivity|].
  cbn [count_tables]. unfold mbind at 1, try_except_Exception, mbind, read_sql.
  destruct connection; cbn.
  - exact IH.
  - destruct (connected st); cbn; [|exact IH].
    destruct (answers (Count table)); cbn; exact IH.
Qed.


End ViewerFacts.

(** ** Extraction followed by transformation *)

Section RecordsToRows.
Import PyStr PyVal Helpers Extract ExtractMore Transform Samples.

Lemma in_keys {A K} (key : A -> K) (source : list K) (rows : list A) (r : A) :
  map key rows = source -> In r rows -> In (key r) source.
Proof. intros <- H. apply in_map, H. Qed.

Lemma filter_entity_types {R} (row_of : R -> TopTx.row) (records : list R) :
  (forall r, TopTx.entity_type (row_of r) <> None) ->
  filter (fun r => notna (TopTx.entity_type r)) (map row_of records)
  = map row_of records.
Proof.
  intro H. apply filter_all. intros r Hr.
  apply in_map_iff in Hr. destruct Hr as (r0 & <- & _).
  specialize (H r0). destruct (TopTx.entity_type (row_of r0));
    [reflexivity | contradiction].
Qed.

Lemma filter_user_entity_types {R} (row_of : R -> TopUser.row)
  (records : list R) :
  (forall r, TopUser.entity_type (row_of r) <> None) ->
  filter (fun r => notna (TopUser.entity_type r)) (map row_of records)
  = map row_of records.
Proof.
  intro H. apply filter_all. intros r Hr.
  apply in_map_iff in Hr. destruct Hr as (r0 & <- & _).
  specialize (H r0). destruct (TopUser.entity_type (row_of r0));
    [reflexivity | contradiction].
Qed.

(** X22.  Between extraction and loading no record of the map and top-N
    datasets is dropped or merged and none loses its coordinates: the
    frame that the transformer returns for the extracted records has as
    many rows as there are records, and every row holds a year in
    2018..2024 and a quarter in 1..4. *)
Theorem extract_then_transform_keeps_every_record :
  forall (numeric_cell : json -> option Z) (py_str : json -> str),
    (forall tree records,
        extract_map_transactions tree = Ok records ->
        let rows := transform_map_transactions
                      (frame_of_map_transactions numeric_cell records) in
        List.length rows = List.length records
        /\ Forall (fun r => exists y q,
                       MapTx.year r = Some y /\ MapTx.quarter r = Some q
                       /\ valid_coordinates y q) rows)
    /\ (forall tree records,
           extract_map_users tree = Ok records ->
           let rows := transform_map_users
                         (frame_of_map_users numeric_cell records) in
           List.length rows = List.length records
           /\ Forall (fun r => exists y q,
                          MapUser.year r = Some y /\ MapUser.quarter r = Some q
                          /\ valid_coordinates y q) rows)
    /\ (forall base records,
           extract_top_transactions py_str base = Ok records ->
           let rows := transform_top_transactions
                         (frame_of_top_transactions numeric_cell records) in
           List.length rows = List.length records
           /\ Forall (fun r => exists y q,
                          TopTx.year r = Some y /\ TopTx.quarter r = Some q
                          /\ valid_coordinates y q) rows)
    /\ (forall base records,
           extract_top_users py_str base = Ok records ->
           let rows := transform_top_users
                         (frame_of_top_users numeric_cell records) in
           List.length rows = List.length records
           /\ Forall (fun r => exists y q,
                          TopUser.year r = Some y /\ TopUser.quarter r = Some q
                          /\ valid_coordinates y q) rows).
Proof.
  intros numeric_cell py_str. repeat apply conj.
  - intros tree records H rows. subst rows.
    pose proof (transform_map_transactions_keys
                  (frame_of_map_transactions numeric_cell records)) as Hk.
    unfold frame_of_map_transactions in Hk at 2. rewrite map_map in Hk.
    split.
    + apply (f_equal (@List.length _)) in Hk.
      rewrite !length_map in Hk. exact Hk.
    + apply Forall_forall. intros r Hr.
      apply (in_keys _ _ _ _ Hk) in Hr. apply in_map_iff in Hr.
      destruct Hr as (r0 & Heq & Hin). cbn in Heq.
      injection Heq as _ Hy Hq _.
      exists (mt_year r0), (mt_quarter r0).
      split; [symmetry; exact Hy|]. split; [symmetry; exact Hq|].
      pose proof (extract_map_transactions_valid _ _ H) as Hv.
      rewrite Forall_forall in Hv. exact (Hv _ Hin).
  - intros tree records H rows. subst rows.
    pose proof (transform_map_users_keys
                  (frame_of_map_users numeric_cell records)) as Hk.
    unfold frame_of_map_users in Hk at 2. rewrite map_map in Hk.
    split.
    + apply (f_equal (@List.length _)) in Hk.
      rewrite !length_map in Hk. exact Hk.
    + apply Forall_forall. intros r Hr.
      apply (in_keys _ _ _ _ Hk) in Hr. apply in_map_iff in Hr.
      destruct Hr as (r0 & Heq & Hin). cbn in Heq.
      injection Heq as _ Hy Hq _.
      exists (mu_year r0), (mu_quarter r0).
      split; [symmetry; exact Hy|]. split; [symmetry; exact Hq|].
      pose proof (extract_map_users_valid _ _ H) as Hv.
      rewrite Forall_forall in Hv. exact (Hv _ Hin).
  - intros base records H rows. subst rows.
    pose proof (transform_top_transactions_keys
                  (frame_of_top_transactions numeric_cell records)) as Hk.
    unfold frame_of_top_transactions in Hk at 2.
    rewrite filter_entity_types in Hk by (intro r; discriminate).
    rewrite map_map in Hk.
    split.
    + apply (f_equal (@List.length _)) in Hk.
      rewrite !length_map in Hk. exact Hk.
    + apply Forall_forall. intros r Hr.
      apply (in_keys _ _ _ _ Hk) in Hr. apply in_map_iff in Hr.
      destruct Hr as (r0 & Heq & Hin). cbn in Heq.
      injection Heq as _ Hy Hq _ _.
      exists (tt_year r0), (tt_quarter r0).
      split; [symmetry; exact Hy|]. split; [symmetry; exact Hq|].
      pose proof (extract_top_transactions_valid _ _ _ H) as Hv.
      rewrite Forall_forall in Hv. exact (proj1 (Hv _ Hin)).
  - intros base records H rows. subst rows.
    pose proof (transform_top_users_keys
                  (frame_of_top_users numeric_cell records)) as Hk.
    unfold frame_of_top_users in Hk at 2.
    rewrite filter_user_entity_types in Hk by (intro r; discriminate).
    rewrite map_map in Hk.
    split.
    + apply (f_equal (@List.length _)) in Hk.
      rewrite !length_map in Hk. exact Hk.
    + apply Forall_forall. intros r Hr.
      apply (in_keys _ _ _ _ Hk) in Hr. apply in_map_iff in Hr.
      destruct Hr as (r0 & Heq & Hin). cbn in Heq.
      injection Heq as _ Hy Hq _ _.
      exists (tu_year r0), (tu_quarter r0).
      split; [symmetry; exact Hy|]. split; [symmetry; exact Hq|].
      pose proof (extract_top_users_valid _ _ _ H) as Hv.
      rewrite Forall_forall in Hv. exact (proj1 (Hv _ Hin)).
Qed.

Lemma extract_then_transform_keeps_every_record_witness :
  List.length (transform_map_transactions
                 (frame_of_map_transactions integers_only karnataka_records))
  = List.length karnataka_records.
Proof.
  exact (proj1 (proj1 (extract_then_transform_keeps_every_record
                         integers_only (fun _ => []))
                  karnataka_tree karnataka_records eq_refl)).
Defined.

End RecordsToRows.
